(** * ephcha: the relay backend (backend.py), modelled and verified

    The development embeds the request handlers and the WebSocket endpoint
    of [backend.py] as pure functions over an explicit [World]:

    - the two MongoDB collections ([servers_col], [member_tokens_col]) are
      finite maps from the document [_id] to a record; [update_one] on a
      missing [_id] changes nothing, [insert_one] on a present [_id] raises;
    - the module-level dictionaries [connected], [rate_limits] and
      [ip_connections] are finite maps; the inner dictionaries the code
      iterates over (a room's connections, a room's members and tokens) are
      insertion-ordered association lists, as Python dictionaries are;
    - a WebSocket object is a handle (a number); [send_json] on a handle
      either records a delivery or raises, as the [broken] table says;
    - [uuid4], [datetime.utcnow] and [time.time] are inputs of the
      operation that calls them; [datetime] values are integers
      (microseconds), [time.time] values are rationals and their
      subtraction is exact;
    - every handler step runs to completion before another one starts.

    Requests are typed as their clients send them: [join_token], [user_id]
    and the key fields are JSON strings (or absent), [registration_id] a
    JSON integer (or absent). A string is the sequence of the UTF-8 bytes
    of its text; text that has no UTF-8 form is not modelled.

    What a document holds under [members] and under [tokens] is a tree of
    values: [$set] takes the key [members.<user_id>] as a path, whose dots
    lead into sub-documents. The store refuses a path (WriteError) when a
    part of it is empty or starts with [$] (as the versions of the store
    before 5.0 do for every such part), or when it leads into a value
    that is no document; the driver refuses a key that holds a NUL
    character (InvalidDocument) and an integer beyond eight bytes
    (OverflowError). The limits on the size and the depth of a document
    and the expiry of documents are outside the model. *)

From Stdlib Require Import ZArith NArith List String Ascii Bool Lia QArith Lqa.
From Stdlib Require Import Strings.Byte.
From stdpp Require Import base gmap strings list fin_maps.

Close Scope Q_scope.

(** ** base64, as [base64.b64encode] and [base64.b64decode] compute it *)

Module Base64.

Definition table_b2a_base64 : string :=
  "ABCDEFGHIJKLMNOPQRSTUVWXYZabcdefghijklmnopqrstuvwxyz0123456789+/".

Definition BASE64_PAD : ascii := "="%char.

Definition b2a (n : N) : ascii :=
  match String.get (N.to_nat n) table_b2a_base64 with
  | Some c => c
  | None => BASE64_PAD
  end.

Fixpoint index_of (c : ascii) (s : string) (i : N) : option N :=
  match s with
  | EmptyString => None
  | String d r => if Ascii.eqb c d then Some i else index_of c r (N.succ i)
  end.

(** The decoding table: the position of a character in the alphabet. *)
Definition table_a2b_base64 (c : ascii) : option N :=
  index_of c table_b2a_base64 0%N.

(** A value stored into an [unsigned char]. *)
Definition byte_of_N (n : N) : byte :=
  match Byte.of_N (n mod 256)%N with
  | Some b => b
  | None => x00
  end.

(** Three bytes give four characters; a last group of one or two bytes is
    padded with [=]. *)
Fixpoint b64encode (bs : list byte) : string :=
  match bs with
  | [] => EmptyString
  | [a] =>
      let a := Byte.to_N a in
      String (b2a (N.shiftr a 2))
        (String (b2a (N.shiftl (N.land a 3) 4))
           (String BASE64_PAD (String BASE64_PAD EmptyString)))
  | [a; b] =>
      let a := Byte.to_N a in
      let b := Byte.to_N b in
      String (b2a (N.shiftr a 2))
        (String (b2a (N.lor (N.shiftl (N.land a 3) 4) (N.shiftr b 4)))
           (String (b2a (N.shiftl (N.land b 15) 2))
              (String BASE64_PAD EmptyString)))
  | a :: b :: c :: rest =>
      let a := Byte.to_N a in
      let b := Byte.to_N b in
      let c := Byte.to_N c in
      String (b2a (N.shiftr a 2))
        (String (b2a (N.lor (N.shiftl (N.land a 3) 4) (N.shiftr b 4)))
           (String (b2a (N.lor (N.shiftl (N.land b 15) 2) (N.shiftr c 6)))
              (String (b2a (N.land c 63)) (b64encode rest))))
  end.

(** The decoder in its default (non-strict) mode: characters outside the
    alphabet are skipped, a pad that completes a quad ends the input, and
    an incomplete quad at the end of the input is an error ([None]). *)
Fixpoint a2b_base64 (s : string) (quad_pos : N) (leftchar : N) (pads : N)
    (out : list byte) : option (list byte) :=
  match s with
  | EmptyString => if (quad_pos =? 0)%N then Some out else None
  | String this_ch rest =>
      if Ascii.eqb this_ch BASE64_PAD then
        if (2 <=? quad_pos)%N then
          if (4 <=? quad_pos + (pads + 1))%N then Some out
          else a2b_base64 rest quad_pos leftchar (pads + 1)%N out
        else a2b_base64 rest quad_pos leftchar pads out
      else
        match table_a2b_base64 this_ch with
        | None => a2b_base64 rest quad_pos leftchar pads out
        | Some v =>
            match quad_pos with
            | 0%N => a2b_base64 rest 1%N v 0%N out
            | 1%N =>
                a2b_base64 rest 2%N (N.land v 15) 0%N
                  (out ++ [byte_of_N (N.lor (N.shiftl leftchar 2) (N.shiftr v 4))])
            | 2%N =>
                a2b_base64 rest 3%N (N.land v 3) 0%N
                  (out ++ [byte_of_N (N.lor (N.shiftl leftchar 4) (N.shiftr v 2))])
            | _ =>
                a2b_base64 rest 0%N 0%N 0%N
                  (out ++ [byte_of_N (N.lor (N.shiftl leftchar 6) v)])
            end
        end
  end.

Definition is_ascii (c : ascii) : bool := (N_of_ascii c <? 128)%N.

Fixpoint all_ascii (s : string) : bool :=
  match s with
  | EmptyString => true
  | String c r => is_ascii c && all_ascii r
  end.

(** [b64decode] of a [str]: the text must be ASCII, then it is decoded. *)
Definition b64decode (s : string) : option (list byte) :=
  if all_ascii s then a2b_base64 s 0%N 0%N 0%N [] else None.

(** Exhaustive checks over sextets and over pairs of bytes. *)
Definition upto (k : nat) : list N := map N.of_nat (seq 0 k).

Definition sextet_ok (n : N) : bool :=
  match table_a2b_base64 (b2a n) with
  | Some m => (m =? n)%N
  | None => false
  end && negb (Ascii.eqb (b2a n) BASE64_PAD) && is_ascii (b2a n).

Definition pair_check (P : N -> N -> bool) : bool :=
  forallb (fun a => forallb (P a) (upto 256)) (upto 256).

(** The sextets [b64encode] cuts from a group of bytes a, b, c; the primed
    ones are those of a short last group. *)
Abbreviation sx1 a := (N.shiftr a 2).
Abbreviation sx2 a b := (N.lor (N.shiftl (N.land a 3) 4) (N.shiftr b 4)).
Abbreviation sx3 b c := (N.lor (N.shiftl (N.land b 15) 2) (N.shiftr c 6)).
Abbreviation sx4 c := (N.land c 63).
Abbreviation sx2' a := (N.shiftl (N.land a 3) 4).
Abbreviation sx3' b := (N.shiftl (N.land b 15) 2).

Definition sextets_lt (a b : N) : bool :=
  (sx1 a <? 64)%N && (sx2 a b <? 64)%N && (sx3 a b <? 64)%N && (sx4 a <? 64)%N
  && (sx2' a <? 64)%N && (sx3' a <? 64)%N.

(** What the decoder reassembles from the sextets. *)
Definition joins_ok (a b : N) : bool :=
  (N.lor (N.shiftl (sx1 a) 2) (N.shiftr (sx2 a b) 4) =? a)%N
  && (N.land (sx2 a b) 15 =? N.shiftr b 4)%N
  && (N.lor (N.shiftl (N.shiftr a 4) 4) (N.shiftr (sx3 a b) 2) =? a)%N
  && (N.lor (N.shiftl (N.land (sx3 a b) 3) 6) (sx4 b) =? b)%N
  && (N.lor (N.shiftl (sx1 a) 2) (N.shiftr (sx2' a) 4) =? a)%N
  && (N.lor (N.shiftl (N.shiftr a 4) 4) (N.shiftr (sx3' a) 2) =? a)%N.

End Base64.

(** ** Insertion-ordered dictionaries *)

Module Dict.
Section Dict.
Context {V : Type}.

Fixpoint get (k : string) (d : list (string * V)) : option V :=
  match d with
  | [] => None
  | (k', v) :: r => if String.eqb k k' then Some v else get k r
  end.

(** [d[k] = v]: a present key keeps its place, a new key goes last. *)
Fixpoint set (k : string) (v : V) (d : list (string * V)) : list (string * V) :=
  match d with
  | [] => [(k, v)]
  | (k', v') :: r =>
      if String.eqb k k' then (k, v) :: r else (k', v') :: set k v r
  end.

(** [del d[k]]. *)
Fixpoint del (k : string) (d : list (string * V)) : list (string * V) :=
  match d with
  | [] => []
  | (k', v') :: r =>
      if String.eqb k k' then del k r else (k', v') :: del k r
  end.

Definition mem (k : string) (d : list (string * V)) : bool :=
  match get k d with Some _ => true | None => false end.

Definition values (d : list (string * V)) : list V := map snd d.

End Dict.
End Dict.

(** ** The backend *)

Module Backend.
Import Base64.

(** Rate limiting config *)
Definition MESSAGE_LIMIT : nat := 10.
Definition WINDOW_SEC : Q := 60%Q.
Definition SIZE_LIMIT : Z := 4096.
Definition CONN_LIMIT_PER_IP : Z := 5.

(** *** Data *)

(** A WebSocket object, known by its identity. *)
Definition WebSocket := nat.

Inductive exn :=
  | WebSocketDisconnect
  | RuntimeError
  | KeyError
  | TypeError
  | DuplicateKeyError
  | InvalidDocument
  | OverflowError
  | WriteError.

(** An expression that raises, or has a value. *)
Definition and_then {A B} (x : exn + A) (k : A -> exn + B) : exn + B :=
  match x with
  | inl e => inl e
  | inr a => k a
  end.

Notation "'let!' x ':=' e 'in' k" := (and_then e (fun x => k))
  (at level 10, x name, e at level 100, k at level 200, only parsing).

(** What a request handler does: return a value, raise [HTTPException],
    or let another exception escape. *)
Inductive result (A : Type) :=
  | Return (a : A)
  | HTTPException (status_code : Z) (detail : string)
  | Raise (e : exn).
Arguments Return {A} a.
Arguments HTTPException {A} status_code detail.
Arguments Raise {A} e.

(** A value held by a stored document, as the driver gives it to Python
    and takes it from Python: an [int], [bytes], a [str], or a [dict] with
    its keys in order. *)
#[local] Set Warnings "-register-all".
Inductive Value :=
  | VInt (n : Z)
  | VBytes (bs : list byte)
  | VStr (s : string)
  | VDoc (fields : list (string * Value)).
#[local] Set Warnings "register-all".

(** The [bundle] of lines 104 to 110: the key fields are raw bytes. *)
Record Bundle := {
  registration_id : Z;
  identity : list byte;
  signed_prekey : list byte;
  signed_prekey_sig : list byte;
  one_time_prekey : list byte
}.

(** That dictionary as a value to store. *)
Definition bundle_doc (b : Bundle) : Value :=
  VDoc [("registration_id", VInt (registration_id b));
        ("identity", VBytes (identity b));
        ("signed_prekey", VBytes (signed_prekey b));
        ("signed_prekey_sig", VBytes (signed_prekey_sig b));
        ("one_time_prekey", VBytes (one_time_prekey b))].

(** The prekey bundle of a request: the key fields are base64 text; any
    key may be missing. *)
Record PrekeyBundle := {
  pk_registration_id : option Z;
  pk_identity : option string;
  pk_signed_prekey : option string;
  pk_signed_prekey_sig : option string;
  pk_one_time_prekey : option string
}.

(** The prekey bundle of a response: the stored registration id as it is,
    the key fields in base64. *)
Record EncodedBundle := {
  enc_registration_id : Value;
  enc_identity : string;
  enc_signed_prekey : string;
  enc_signed_prekey_sig : string;
  enc_one_time_prekey : string
}.

(** A document of [servers_col]. *)
Record ServerDoc := {
  join_token : string;
  admin_user_id : option string;
  members : list (string * Value);
  created_at : Z;
  last_activity : Z
}.

(** A document of [member_tokens_col]. *)
Record TokensDoc := {
  tokens : list (string * Value);
  tokens_created_at : Z;
  tokens_last_activity : Z
}.

(** The body of a join request. *)
Record JoinBody := {
  body_join_token : option string;
  body_user_id : option string;
  body_prekey_bundle : option PrekeyBundle
}.

Record JoinResponse := {
  member_token : string;
  others : list (string * EncodedBundle);
  response_admin_user_id : option string
}.

(** A frame received on a WebSocket: its [type] and [to] keys, if present,
    and the rest of the object. *)
Record Frame := {
  frame_type : option string;
  frame_to : option string;
  frame_payload : string
}.

(** What [send_json] is given. *)
Inductive Message :=
  | Relay (data : Frame)
  | JoinNotification (user_id : string).

Record World := {
  servers_col : gmap string ServerDoc;
  member_tokens_col : gmap string TokensDoc;
  connected : gmap string (list (string * WebSocket));
  rate_limits : gmap string (list Q);
  ip_connections : gmap string Z;
  (** the sockets on which [send_json] raises, and what it raises *)
  broken : gmap WebSocket exn;
  (** the frames sent so far, oldest first *)
  delivered : list (WebSocket * Message)
}.

Definition empty_world : World :=
  {| servers_col := ∅; member_tokens_col := ∅; connected := ∅;
     rate_limits := ∅; ip_connections := ∅; broken := ∅; delivered := [] |}.

Definition with_servers_col (f : gmap string ServerDoc -> gmap string ServerDoc)
    (w : World) : World :=
  {| servers_col := f (servers_col w); member_tokens_col := member_tokens_col w;
     connected := connected w; rate_limits := rate_limits w;
     ip_connections := ip_connections w; broken := broken w;
     delivered := delivered w |}.

Definition with_member_tokens_col (f : gmap string TokensDoc -> gmap string TokensDoc)
    (w : World) : World :=
  {| servers_col := servers_col w; member_tokens_col := f (member_tokens_col w);
     connected := connected w; rate_limits := rate_limits w;
     ip_connections := ip_connections w; broken := broken w;
     delivered := delivered w |}.

Definition with_connected
    (f : gmap string (list (string * WebSocket)) -> gmap string (list (string * WebSocket)))
    (w : World) : World :=
  {| servers_col := servers_col w; member_tokens_col := member_tokens_col w;
     connected := f (connected w); rate_limits := rate_limits w;
     ip_connections := ip_connections w; broken := broken w;
     delivered := delivered w |}.

Definition with_rate_limits (rl : gmap string (list Q)) (w : World) : World :=
  {| servers_col := servers_col w; member_tokens_col := member_tokens_col w;
     connected := connected w; rate_limits := rl;
     ip_connections := ip_connections w; broken := broken w;
     delivered := delivered w |}.

Definition with_ip_connections (ic : gmap string Z) (w : World) : World :=
  {| servers_col := servers_col w; member_tokens_col := member_tokens_col w;
     connected := connected w; rate_limits := rate_limits w;
     ip_connections := ic; broken := broken w;
     delivered := delivered w |}.

Definition with_broken (b : gmap WebSocket exn) (w : World) : World :=
  {| servers_col := servers_col w; member_tokens_col := member_tokens_col w;
     connected := connected w; rate_limits := rate_limits w;
     ip_connections := ip_connections w; broken := b;
     delivered := delivered w |}.

Definition with_delivered (d : list (WebSocket * Message)) (w : World) : World :=
  {| servers_col := servers_col w; member_tokens_col := member_tokens_col w;
     connected := connected w; rate_limits := rate_limits w;
     ip_connections := ip_connections w; broken := broken w;
     delivered := d |}.

(** *** Sending *)

(** [await ws.send_json(m)] *)
Definition send_json (ws : WebSocket) (m : Message) (w : World) : World * option exn :=
  match broken w !! ws with
  | Some e => (w, Some e)
  | None => (with_delivered (delivered w ++ [(ws, m)]) w, None)
  end.

(** [for ws in ....values(): await ws.send_json(m)]: the first send that
    raises ends the loop. *)
Fixpoint send_all (wss : list WebSocket) (m : Message) (w : World) : World * option exn :=
  match wss with
  | [] => (w, None)
  | ws :: rest =>
      match send_json ws m w with
      | (w', Some e) => (w', Some e)
      | (w', None) => send_all rest m w'
      end
  end.

(** *** Helper for rate limiting *)

Definition Qltb (x y : Q) : bool := (Qnum x * QDen y <? Qnum y * QDen x)%Z.

Definition is_rate_limited (key : string) (now : Q) (rl : gmap string (list Q))
  : gmap string (list Q) * bool :=
  let rl := match rl !! key with
            | None => <[key := []]> rl
            | Some _ => rl
            end in
  let messages := default [] (rl !! key) in
  let messages := List.filter (fun t => Qltb (now - t)%Q WINDOW_SEC) messages in
  let rl := <[key := messages]> rl in
  if (MESSAGE_LIMIT <=? length messages)%nat then (rl, true)
  else (<[key := messages ++ [now]]> rl, false).

(** The timestamps of a key that a check at [now] keeps. *)
Definition kept (key : string) (now : Q) (rl : gmap string (list Q)) : list Q :=
  List.filter (fun t => Qltb (now - t)%Q WINDOW_SEC) (default [] (rl !! key)).

(** A run of checks of one key, at the given times: the table after them
    and the answers. *)
Fixpoint check_all (key : string) (ts : list Q) (rl : gmap string (list Q))
  : gmap string (list Q) * list bool :=
  match ts with
  | [] => (rl, [])
  | t :: rest =>
      let '(rl, limited) := is_rate_limited key t rl in
      let '(rl, answers) := check_all key rest rl in
      (rl, limited :: answers)
  end.

(** *** Update last_activity *)

Definition touch_server (now : Z) (d : ServerDoc) : ServerDoc :=
  {| join_token := join_token d; admin_user_id := admin_user_id d;
     members := members d; created_at := created_at d; last_activity := now |}.

Definition touch_tokens (now : Z) (d : TokensDoc) : TokensDoc :=
  {| tokens := tokens d; tokens_created_at := tokens_created_at d;
     tokens_last_activity := now |}.

Definition update_activity (now : Z) (server_id : string) (w : World) : World :=
  with_member_tokens_col (alter (touch_tokens now) server_id)
    (with_servers_col (alter (touch_server now) server_id) w).

(** *** Create server *)

Definition create_server (server_id join_token : string) (now : Z) (w : World)
  : World * result (string * string) :=
  match servers_col w !! server_id with
  | Some _ => (w, Raise DuplicateKeyError)
  | None =>
      let w := with_servers_col
                 (insert server_id
                    {| join_token := join_token; admin_user_id := None;
                       members := []; created_at := now; last_activity := now |}) w in
      match member_tokens_col w !! server_id with
      | Some _ => (w, Raise DuplicateKeyError)
      | None =>
          let w := with_member_tokens_col
                     (insert server_id
                        {| tokens := []; tokens_created_at := now;
                           tokens_last_activity := now |}) w in
          let w := match connected w !! server_id with
                   | None => with_connected (insert server_id []) w
                   | Some _ => w
                   end in
          (w, Return (server_id, join_token))
      end
  end.

(** *** Update paths of the store *)

(** The parts of a dotted path. *)
Fixpoint split_path (path : string) : list string :=
  match path with
  | EmptyString => [EmptyString]
  | String c rest =>
      if Ascii.eqb c "." then EmptyString :: split_path rest
      else match split_path rest with
           | [] => [String c EmptyString]
           | part :: parts => String c part :: parts
           end
  end.

(** The first part of a path: the key of the enclosing document that an
    update of the path writes. *)
Definition head_of (path : string) : string := hd EmptyString (split_path path).

(** A part that the store takes as the name of a field. *)
Definition field_name (part : string) : bool :=
  match part with
  | EmptyString => false
  | String c _ => negb (Ascii.eqb c "$")
  end.

Fixpoint has_nul (s : string) : bool :=
  match s with
  | EmptyString => false
  | String c rest => Ascii.eqb c "000" || has_nul rest
  end.

(** An integer that fits the eight bytes of a stored integer. *)
Definition fits_int64 (n : Z) : bool :=
  (- 2 ^ 63 <=? n)%Z && (n <? 2 ^ 63)%Z.

(** A user id that is one field name of its own: no dot, not empty, no
    leading [$], no NUL. *)
Definition plain_id (user_id : string) : bool :=
  bool_decide (split_path user_id = [user_id])
  && field_name user_id && negb (has_nul user_id).

(** The documents that a path creates on its way to a new value. *)
Fixpoint nest (parts : list string) (v : Value) : Value :=
  match parts with
  | [] => v
  | part :: rest => VDoc [(part, nest rest v)]
  end.

(** [$set] of a value at a path, in the fields of a document: a field
    that is there keeps its place, a new one goes last, and the fields on
    the way to it are created. [None] when the path leads into a value
    that is no document. *)
Fixpoint set_path (parts : list string) (v : Value) (fields : list (string * Value))
  : option (list (string * Value)) :=
  match parts with
  | [] => None
  | part :: rest =>
      match rest with
      | [] => Some (Dict.set part v fields)
      | _ :: _ =>
          match Dict.get part fields with
          | None => Some (Dict.set part (nest rest v) fields)
          | Some (VDoc sub) =>
              match set_path rest v sub with
              | Some sub' => Some (Dict.set part (VDoc sub') fields)
              | None => None
              end
          | Some _ => None
          end
      end
  end.

(** The value at a path, as the store reads a dotted key. *)
Fixpoint get_path (parts : list string) (fields : list (string * Value)) : option Value :=
  match parts with
  | [] => None
  | part :: rest =>
      match rest with
      | [] => Dict.get part fields
      | _ :: _ =>
          match Dict.get part fields with
          | Some (VDoc sub) => get_path rest sub
          | _ => None
          end
      end
  end.

(** [{"$set": {"<field>.<path>": v}}] on the fields under [<field>];
    [None] when the store refuses the update. *)
Definition set_field (path : string) (v : Value) (fields : list (string * Value))
  : option (list (string * Value)) :=
  if forallb field_name (split_path path) then set_path (split_path path) v fields
  else None.

(** [update_one({"_id": key}, update)]: the document of that [_id], if
    there is one, becomes what the update makes of it; [None] when the
    store refuses the update. *)
Definition update_one {D} (update : D -> option D) (key : string) (col : gmap string D)
  : option (gmap string D) :=
  match col !! key with
  | None => Some col
  | Some d =>
      match update d with
      | Some d' => Some (<[key := d']> col)
      | None => None
      end
  end.

(** *** Join server *)

(** Python truthiness of an optional string. *)
Definition truthy (s : option string) : bool :=
  match s with
  | None => false
  | Some s => negb (String.eqb s "")
  end.

(** [not prekey]: the key is missing, or the bundle has no key at all. *)
Definition prekey_missing (p : option PrekeyBundle) : bool :=
  match p with
  | None => true
  | Some {| pk_registration_id := None; pk_identity := None;
            pk_signed_prekey := None; pk_signed_prekey_sig := None;
            pk_one_time_prekey := None |} => true
  | Some _ => false
  end.

(** Decode base64 to bytes; [None] is any exception of the [try] block. *)
Definition decode_bundle (p : PrekeyBundle) : option Bundle :=
  match pk_registration_id p with
  | None => None
  | Some r =>
      match pk_identity p ≫= b64decode with
      | None => None
      | Some i =>
          match pk_signed_prekey p ≫= b64decode with
          | None => None
          | Some sp =>
              match pk_signed_prekey_sig p ≫= b64decode with
              | None => None
              | Some sig =>
                  match pk_one_time_prekey p ≫= b64decode with
                  | None => None
                  | Some otp =>
                      Some {| registration_id := r; identity := i;
                              signed_prekey := sp; signed_prekey_sig := sig;
                              one_time_prekey := otp |}
                  end
              end
          end
      end
  end.

(** [b[key]] *)
Definition item (key : string) (b : Value) : exn + Value :=
  match b with
  | VDoc fields =>
      match Dict.get key fields with
      | Some v => inr v
      | None => inl KeyError
      end
  | _ => inl TypeError
  end.

(** [base64.b64encode(x).decode()] *)
Definition b64text (x : Value) : exn + string :=
  match x with
  | VBytes bs => inr (b64encode bs)
  | _ => inl TypeError
  end.

(** The dictionary of lines 129 to 135 and 158 to 164, for a stored
    entry [b]. *)
Definition encoded (b : Value) : exn + EncodedBundle :=
  let! r := item "registration_id" b in
  let! i := and_then (item "identity" b) b64text in
  let! sp := and_then (item "signed_prekey" b) b64text in
  let! sig := and_then (item "signed_prekey_sig" b) b64text in
  let! otp := and_then (item "one_time_prekey" b) b64text in
  inr {| enc_registration_id := r; enc_identity := i; enc_signed_prekey := sp;
         enc_signed_prekey_sig := sig; enc_one_time_prekey := otp |}.

(** What [encoded] makes of a bundle as a join stores it. *)
Definition encode_bundle (b : Bundle) : EncodedBundle :=
  {| enc_registration_id := VInt (registration_id b);
     enc_identity := b64encode (identity b);
     enc_signed_prekey := b64encode (signed_prekey b);
     enc_signed_prekey_sig := b64encode (signed_prekey_sig b);
     enc_one_time_prekey := b64encode (one_time_prekey b) |}.

(** The bundle of a response, sent as the bundle of a request. *)
Definition as_request (p : EncodedBundle) : PrekeyBundle :=
  {| pk_registration_id := match enc_registration_id p with
                           | VInt n => Some n
                           | _ => None
                           end;
     pk_identity := Some (enc_identity p);
     pk_signed_prekey := Some (enc_signed_prekey p);
     pk_signed_prekey_sig := Some (enc_signed_prekey_sig p);
     pk_one_time_prekey := Some (enc_one_time_prekey p) |}.

(** The [$set] of lines 115 to 118 on the server document; [None] when
    the store refuses it. *)
Definition store_member (user_id : string) (bundle : Bundle) (set_admin : bool)
    (d : ServerDoc) : option ServerDoc :=
  match set_field user_id (bundle_doc bundle) (members d) with
  | None => None
  | Some ms =>
      Some {| join_token := join_token d;
              admin_user_id := if set_admin then Some user_id else admin_user_id d;
              members := ms;
              created_at := created_at d; last_activity := last_activity d |}
  end.

(** The [$set] of line 122 on the tokens document. *)
Definition store_token (user_id member_token : string) (d : TokensDoc)
  : option TokensDoc :=
  match set_field user_id (VStr member_token) (tokens d) with
  | None => None
  | Some ts =>
      Some {| tokens := ts;
              tokens_created_at := tokens_created_at d;
              tokens_last_activity := tokens_last_activity d |}
  end.

(** Return others' bundles (base64): the loop of lines 127 to 135, from
    the dictionary built so far. *)
Fixpoint others_loop (user_id : string) (ms : list (string * Value))
    (others : list (string * EncodedBundle)) : exn + list (string * EncodedBundle) :=
  match ms with
  | [] => inr others
  | (u, b) :: rest =>
      if negb (String.eqb u user_id) then
        let! p := encoded b in
        others_loop user_id rest (Dict.set u p others)
      else others_loop user_id rest others
  end.

Definition others_of (user_id : string) (ms : list (string * Value))
  : exn + list (string * EncodedBundle) :=
  others_loop user_id ms [].

Definition is_None {A} (o : option A) : bool :=
  match o with None => true | Some _ => false end.

(** Lines 114 to 122: the bundle (and the admin, when there is none) go
    into the server document, the fresh token into the tokens document.
    The driver encodes the key of the update, then the bundle; the store
    then applies the update or refuses it. *)
Definition join_commit (server_id user_id : string) (bundle : Bundle)
    (member_token : string) (server : ServerDoc) (w : World) : World * option exn :=
  if has_nul user_id then (w, Some InvalidDocument)
  else if negb (fits_int64 (registration_id bundle)) then (w, Some OverflowError)
  else
    match update_one (store_member user_id bundle (is_None (admin_user_id server)))
            server_id (servers_col w) with
    | None => (w, Some WriteError)
    | Some col =>
        let w := with_servers_col (fun _ => col) w in
        (* Generate member token *)
        match update_one (store_token user_id member_token)
                server_id (member_tokens_col w) with
        | None => (w, Some WriteError)
        | Some col => (with_member_tokens_col (fun _ => col) w, None)
        end
    end.

(** Lines 143 to 146. *)
Definition join_broadcast (server_id user_id : string) (w : World) : World * option exn :=
  match connected w !! server_id with
  | None => (w, None)
  | Some room => send_all (Dict.values room) (JoinNotification user_id) w
  end.

Definition join_server (now : Z) (fresh_token : string) (server_id : string)
    (body : JoinBody) (w : World) : World * result JoinResponse :=
  let w := update_activity now server_id w in
  match servers_col w !! server_id with
  | None => (w, HTTPException 404 "Server not found")
  | Some server =>
      if negb (bool_decide (body_join_token body = Some (join_token server))) then
        (w, HTTPException 401 "Invalid join token")
      else if negb (truthy (body_user_id body)) then
        (w, HTTPException 400 "Missing user_id")
      else
        let user_id := default "" (body_user_id body) in
        if prekey_missing (body_prekey_bundle body) then
          (w, HTTPException 400 "Missing prekey_bundle")
        else
          match body_prekey_bundle body ≫= decode_bundle with
          | None => (w, HTTPException 400 "Invalid prekey format")
          | Some bundle =>
              match join_commit server_id user_id bundle fresh_token server w with
              | (w, Some e) => (w, Raise e)
              | (w, None) =>
                  (* Refresh *)
                  match servers_col w !! server_id with
                  | None => (w, Raise TypeError)
                  | Some server =>
                      match others_of user_id (members server) with
                      | inl e => (w, Raise e)
                      | inr others =>
                          let response :=
                            {| member_token := fresh_token;
                               others := others;
                               response_admin_user_id := admin_user_id server |} in
                          match join_broadcast server_id user_id w with
                          | (w, Some e) => (w, Raise e)
                          | (w, None) => (w, Return response)
                          end
                      end
                  end
              end
          end
  end.

(** The server document as lines 114 to 118 leave it, for a room whose
    document was [doc] when the request came, and the world after line
    122 with the exception, if any, that ends lines 114 to 122. *)
Definition stored_doc (now : Z) (user_id : string) (bundle : Bundle)
    (doc : ServerDoc) : option ServerDoc :=
  store_member user_id bundle (is_None (admin_user_id doc)) (touch_server now doc).

Definition committed (now : Z) (fresh_token server_id user_id : string)
    (bundle : Bundle) (doc : ServerDoc) (w : World) : World * option exn :=
  join_commit server_id user_id bundle fresh_token (touch_server now doc)
    (update_activity now server_id w).

(** *** Get prekey for user *)

Definition get_prekey (now : Z) (server_id user_id : string) (w : World)
  : World * result EncodedBundle :=
  let w := update_activity now server_id w in
  match servers_col w !! server_id with
  | None => (w, HTTPException 404 "Not found")
  | Some server =>
      match Dict.get user_id (members server) with
      | None => (w, HTTPException 404 "Not found")
      | Some b =>
          match encoded b with
          | inl e => (w, Raise e)
          | inr p => (w, Return p)
          end
      end
  end.

(** *** WebSocket endpoint *)

(** The local variables of one run of [websocket_endpoint]. *)
Record Session := {
  session_server_id : string;
  session_user_id : string;
  session_ip : string;
  session_websocket : WebSocket
}.

Inductive ConnectOutcome :=
  | Closed (code : Z)
  | Accepted (s : Session).

(** [t == member_token], for a stored value [t]. *)
Definition is_token (member_token : string) (t : Value) : bool :=
  match t with
  | VStr s => String.eqb s member_token
  | _ => false
  end.

(** Auth: find user_id by member_token *)
Fixpoint find_user (member_token : string) (ts : list (string * Value)) : option string :=
  match ts with
  | [] => None
  | (u, t) :: rest =>
      if is_token member_token t then Some u else find_user member_token rest
  end.

(** Check IP conn limit (lines 192 to 197): the new table, and whether the
    connection is admitted. *)
Definition admit_ip (ip : string) (ic : gmap string Z) : gmap string Z * bool :=
  let ic := match ic !! ip with
            | None => <[ip := 0%Z]> ic
            | Some _ => ic
            end in
  if (CONN_LIMIT_PER_IP <=? default 0%Z (ic !! ip))%Z then (ic, false)
  else (<[ip := (default 0%Z (ic !! ip) + 1)%Z]> ic, true).

(** Lines 241 to 243; [None] is the [KeyError] of a missing entry. *)
Definition release_ip (ip : string) (ic : gmap string Z) : option (gmap string Z) :=
  match ic !! ip with
  | None => None
  | Some n =>
      let ic := <[ip := (n - 1)%Z]> ic in
      if (n - 1 =? 0)%Z then Some (delete ip ic) else Some ic
  end.

(** Add to connected (lines 202 to 204). *)
Definition register (server_id user_id : string) (websocket : WebSocket)
    (c : gmap string (list (string * WebSocket))) : gmap string (list (string * WebSocket)) :=
  let c := match c !! server_id with
           | None => <[server_id := []]> c
           | Some _ => c
           end in
  alter (Dict.set user_id websocket) server_id c.

(** The [finally] block, first statement (lines 239 to 240). *)
Definition unregister (server_id user_id : string)
    (c : gmap string (list (string * WebSocket))) : gmap string (list (string * WebSocket)) :=
  match c !! server_id with
  | Some room =>
      if Dict.mem user_id room then alter (Dict.del user_id) server_id c else c
  | None => c
  end.

(** The endpoint up to the receive loop. *)
Definition ws_connect (now : Z) (websocket : WebSocket) (server_id member_token : string)
    (cf_connecting_ip : option string) (client_host : string) (w : World)
  : World * ConnectOutcome :=
  let w := update_activity now server_id w in
  match servers_col w !! server_id with
  | None => (w, Closed 1008)
  | Some _ =>
      let user_id := match member_tokens_col w !! server_id with
                     | Some tokens_doc => find_user member_token (tokens tokens_doc)
                     | None => None
                     end in
      match user_id with
      | None => (w, Closed 1008)
      | Some user_id =>
          (* Get IP *)
          let ip := default client_host cf_connecting_ip in
          match admit_ip ip (ip_connections w) with
          | (ic, false) => (with_ip_connections ic w, Closed 1013)
          | (ic, true) =>
              let w := with_ip_connections ic w in
              let w := with_connected (register server_id user_id websocket) w in
              (w, Accepted {| session_server_id := server_id;
                              session_user_id := user_id;
                              session_ip := ip;
                              session_websocket := websocket |})
          end
      end
  end.

(** The [finally] block. *)
Definition ws_teardown (s : Session) (w : World) : World * option exn :=
  let w := with_connected (unregister (session_server_id s) (session_user_id s)) w in
  match release_ip (session_ip s) (ip_connections w) with
  | None => (w, Some KeyError)
  | Some ic => (with_ip_connections ic w, None)
  end.

(** What the receive loop is given: a frame, with the readings of the two
    clocks of that iteration, or the exception of [receive_json]. *)
Inductive Inbound :=
  | Recv (data : Frame) (now : Q) (utcnow : Z)
  | RecvRaise (e : exn).

(** How a run of the endpoint stands. *)
Inductive Status :=
  | Receiving
  | Finished
  | Crashed (e : exn).

(** Lines 226 to 235: what is done with a frame that passed the checks. *)
Definition dispatch (server_id : string) (data : Frame) (w : World) : World * option exn :=
  let msg_type := frame_type data in
  if bool_decide (msg_type = Some "private") then
    if truthy (frame_to data) then
      match connected w !! server_id with
      | Some room =>
          match Dict.get (default "" (frame_to data)) room with
          | Some ws => send_json ws (Relay data) w
          | None => (w, None)
          end
      | None => (w, None)
      end
    else (w, None)
  else if bool_decide (msg_type = Some "group")
          || bool_decide (msg_type = Some "join_notification") then
    (* Broadcast *)
    match connected w !! server_id with
    | Some room => send_all (Dict.values room) (Relay data) w
    | None => (w, Some KeyError)
    end
  else (w, None).

(** The admin of a room, if the room exists and has one. *)
Definition admin_of (w : World) (server_id : string) : option string :=
  servers_col w !! server_id ≫= admin_user_id.

(** The socket registered for a member of a room, if any. *)
Definition conn_of (w : World) (server_id user_id : string) : option WebSocket :=
  connected w !! server_id ≫= Dict.get user_id.

(** A room without an admin has issued no token and has no connection. *)
Definition no_admin_no_member (w : World) : Prop :=
  forall server_id, admin_of w server_id = None ->
    (forall tokens_doc, member_tokens_col w !! server_id = Some tokens_doc ->
                        tokens tokens_doc = [])
    /\ (forall room, connected w !! server_id = Some room -> room = []).

(** Two worlds with the same admins, tokens, connections and members. *)
Definition same_rooms (w w' : World) : Prop :=
  (forall server_id, admin_of w' server_id = admin_of w server_id)
  /\ (forall server_id, tokens <$> member_tokens_col w' !! server_id
                        = tokens <$> member_tokens_col w !! server_id)
  /\ connected w' = connected w
  /\ (forall server_id, members <$> servers_col w' !! server_id
                        = members <$> servers_col w !! server_id).

(** The members dictionary of every room has distinct keys. *)
Definition members_distinct (w : World) : Prop :=
  forall server_id doc,
    servers_col w !! server_id = Some doc -> List.NoDup (map fst (members doc)).

(** Every entry of the members of every room is one that lines 129 to 135
    read without raising. *)
Definition members_readable (w : World) : Prop :=
  forall server_id doc u v,
    servers_col w !! server_id = Some doc -> In (u, v) (members doc) ->
    exists p, encoded v = inr p.

Section Endpoint.
(** [len(str(data))] *)
Variable str_len : Frame -> Z.

(** One iteration of the receive loop on a received frame; [Some e] is an
    exception leaving the loop. *)
Definition ws_receive (s : Session) (data : Frame) (now : Q) (utcnow : Z) (w : World)
  : World * option exn :=
  (* Size limit *)
  if (SIZE_LIMIT <? str_len data)%Z then (w, None)
  else
    (* Rate limit per user *)
    let '(rl, limited) := is_rate_limited (session_user_id s) now (rate_limits w) in
    let w := with_rate_limits rl w in
    if limited then (w, None)
    else
      (* Rate limit per IP *)
      let '(rl, limited) := is_rate_limited (session_ip s) now (rate_limits w) in
      let w := with_rate_limits rl w in
      if limited then (w, None)
      else
        (* Update activity on message *)
        let w := update_activity utcnow (session_server_id s) w in
        dispatch (session_server_id s) data w.

(** The receive loop over the frames that arrive; [None] when the loop is
    back in [receive_json] with nothing more to read. *)
Fixpoint ws_loop (s : Session) (inputs : list Inbound) (w : World) : World * option exn :=
  match inputs with
  | [] => (w, None)
  | RecvRaise e :: _ => (w, Some e)
  | Recv data now utcnow :: rest =>
      match ws_receive s data now utcnow w with
      | (w, Some e) => (w, Some e)
      | (w, None) => ws_loop s rest w
      end
  end.

(** The [try] statement: the loop, [except WebSocketDisconnect: pass], and
    the [finally] block. *)
Definition ws_serve (s : Session) (inputs : list Inbound) (w : World) : World * Status :=
  match ws_loop s inputs w with
  | (w, None) => (w, Receiving)
  | (w, Some e) =>
      match ws_teardown s w with
      | (w, Some e') => (w, Crashed e')
      | (w, None) =>
          match e with
          | WebSocketDisconnect => (w, Finished)
          | _ => (w, Crashed e)
          end
      end
  end.

(** *** Traces *)

Inductive Event :=
  | CreateServer (server_id join_token : string) (now : Z)
  | JoinServer (now : Z) (fresh_token server_id : string) (body : JoinBody)
  | GetPrekey (now : Z) (server_id user_id : string)
  | Connect (now : Z) (websocket : WebSocket) (server_id member_token : string)
      (cf_connecting_ip : option string) (client_host : string)
  | Receive (s : Session) (data : Frame) (now : Q) (utcnow : Z)
  | Teardown (s : Session)
  (** the peer of a socket goes away: [send_json] on it raises from now on *)
  | PeerGone (ws : WebSocket) (e : exn).

Definition step (ev : Event) (w : World) : World :=
  match ev with
  | CreateServer server_id join_token now => fst (create_server server_id join_token now w)
  | JoinServer now fresh_token server_id body =>
      fst (join_server now fresh_token server_id body w)
  | GetPrekey now server_id user_id => fst (get_prekey now server_id user_id w)
  | Connect now websocket server_id member_token cf host =>
      fst (ws_connect now websocket server_id member_token cf host w)
  | Receive s data now utcnow => fst (ws_receive s data now utcnow w)
  | Teardown s => fst (ws_teardown s w)
  | PeerGone ws e => with_broken (<[ws := e]> (broken w)) w
  end.

Definition run (evs : list Event) (w : World) : World := fold_left (fun w ev => step ev w) evs w.

(** Whether an event is a join of the room that returns its response, and
    for which member. *)
Definition joined (server_id : string) (ev : Event) (w : World) : option string :=
  match ev with
  | JoinServer now fresh_token sid body =>
      if bool_decide (sid = server_id) then
        match join_server now fresh_token sid body w with
        | (_, Return _) => body_user_id body
        | _ => None
        end
      else None
  | _ => None
  end.

(** The member of the first join of the room that returns its response. *)
Fixpoint first_joined (server_id : string) (evs : list Event) (w : World) : option string :=
  match evs with
  | [] => None
  | ev :: rest =>
      match joined server_id ev w with
      | Some u => Some u
      | None => first_joined server_id rest (step ev w)
      end
  end.

(** Whether the user id of a join request has no dot; the other events
    and the joins without a user id carry none. *)
Definition dotless (ev : Event) : bool :=
  match ev with
  | JoinServer _ _ _ body =>
      match body_user_id body with
      | Some user_id => bool_decide (split_path user_id = [user_id])
      | None => true
      end
  | _ => true
  end.

End Endpoint.

End Backend.

(** ** A room with two members *)

Module Scenario.
Import Backend.

(** A stand-in for [len(str(data))]: the length of the payload. *)
Definition payload_len (data : Frame) : Z := Z.of_nat (String.length (frame_payload data)).


(** The key fields are the base64 of "id", "spk", "sig" and "otp". *)
Definition bundle_of (n : Z) : PrekeyBundle :=
  {| pk_registration_id := Some n;
     pk_identity := Some "aWQ=";
     pk_signed_prekey := Some "c3Br";
     pk_signed_prekey_sig := Some "c2ln";
     pk_one_time_prekey := Some "b3Rw" |}.

Definition join_as (join_token user_id : string) (n : Z) : JoinBody :=
  {| body_join_token := Some join_token;
     body_user_id := Some user_id;
     body_prekey_bundle := Some (bundle_of n) |}.

Definition alice_session : Session :=
  {| session_server_id := "room"; session_user_id := "alice";
     session_ip := "10.0.0.1"; session_websocket := 1%nat |}.

Definition bob_session : Session :=
  {| session_server_id := "room"; session_user_id := "bob";
     session_ip := "10.0.0.2"; session_websocket := 2%nat |}.

(** The room is created, alice joins and connects on socket 1. *)
Definition alice_arrives : list Event :=
  [ CreateServer "room" "secret" 0;
    JoinServer 1 "token-a" "room" (join_as "secret" "alice" 1);
    Connect 2 1%nat "room" "token-a" None "10.0.0.1" ].

Definition alice_connected : World := run payload_len alice_arrives empty_world.

(** Alice connects again, on socket 2, with the same token. *)
Definition alice_reconnected : World :=
  step payload_len (Connect 3 2%nat "room" "token-a" None "10.0.0.1") alice_connected.

(** Bob joins and connects on socket 2. *)
Definition bob_arrives : list Event :=
  [ JoinServer 3 "token-b" "room" (join_as "secret" "bob" 2);
    Connect 4 2%nat "room" "token-b" None "10.0.0.2" ].

Definition bob_joined : World :=
  step payload_len (JoinServer 3 "token-b" "room" (join_as "secret" "bob" 2)) alice_connected.

(** What is stored of [bundle_of n], as a response carries it. *)
Definition encoded_of (n : Z) : EncodedBundle :=
  {| enc_registration_id := VInt n;
     enc_identity := "aWQ=";
     enc_signed_prekey := "c3Br";
     enc_signed_prekey_sig := "c2ln";
     enc_one_time_prekey := "b3Rw" |}.

Definition bob_response : JoinResponse :=
  {| member_token := "token-b";
     others := [("alice", encoded_of 1)];
     response_admin_user_id := Some "alice" |}.

Definition both_connected : World := run payload_len bob_arrives alice_connected.

(** The peer of alice goes away; her socket is still registered. *)
Definition alice_gone : World :=
  step payload_len (PeerGone 1%nat RuntimeError) both_connected.

(** A room whose first join is that of a user id with a dot; a join
    without one follows. *)
Definition dotted_first : Event :=
  JoinServer 1 "token-ab" "room" (join_as "secret" "a.b" 1).

Definition dotted_arrives : list Event :=
  [ CreateServer "room" "secret" 0;
    dotted_first;
    JoinServer 2 "token-a" "room" (join_as "secret" "a" 2) ].

Definition hello : Frame :=
  {| frame_type := Some "group"; frame_to := None; frame_payload := "hi" |}.


End Scenario.

(** ** Invariants of the runtime state and of the store *)

Module Invariants.
Import Backend.

(** Every origin in the table has between one and CONN_LIMIT_PER_IP
    connections. *)
Definition counts_in_range (w : World) : Prop :=
  forall ip n, ip_connections w !! ip = Some n -> (1 <= n <= CONN_LIMIT_PER_IP)%Z.

(** No key holds more than MESSAGE_LIMIT timestamps. *)
Definition windows_bounded (w : World) : Prop :=
  forall key l, rate_limits w !! key = Some l -> (length l <= MESSAGE_LIMIT)%nat.

(** The admin of a room names one of its members: the members dictionary
    has the key that a join as the admin writes. *)
Definition admin_names_member (w : World) : Prop :=
  forall server_id doc a,
    servers_col w !! server_id = Some doc -> admin_user_id doc = Some a ->
    Dict.mem (head_of a) (members doc) = true.

(** Whoever is registered in a room holds a token of that room. *)
Definition connected_hold_tokens (w : World) : Prop :=
  forall server_id room user_id ws,
    connected w !! server_id = Some room -> Dict.get user_id room = Some ws ->
    exists tokens_doc,
      member_tokens_col w !! server_id = Some tokens_doc
      /\ Dict.mem user_id (tokens tokens_doc) = true.

(** A room has a tokens document, and every token is that of a member. *)
Definition tokens_of_members (w : World) : Prop :=
  forall server_id tokens_doc user_id,
    member_tokens_col w !! server_id = Some tokens_doc ->
    Dict.mem user_id (tokens tokens_doc) = true ->
    exists doc, servers_col w !! server_id = Some doc
                /\ Dict.mem user_id (members doc) = true.

(** From one world to another, a room is still there with its join token
    and creation time, its members are still members, and who held a token
    still holds one. *)
Definition room_kept (w w' : World) (server_id : string) : Prop :=
  (forall doc, servers_col w !! server_id = Some doc ->
     exists doc', servers_col w' !! server_id = Some doc'
                  /\ join_token doc' = join_token doc
                  /\ created_at doc' = created_at doc
                  /\ forall u, Dict.mem u (members doc) = true ->
                               Dict.mem u (members doc') = true)
  /\ (forall tokens_doc, member_tokens_col w !! server_id = Some tokens_doc ->
       exists tokens_doc', member_tokens_col w' !! server_id = Some tokens_doc'
                           /\ forall u, Dict.mem u (tokens tokens_doc) = true ->
                                        Dict.mem u (tokens tokens_doc') = true).

End Invariants.

(** ** More of the room with two members *)

Module Episode.
Import Backend Scenario.

(** Alice on her second socket. *)
Definition alice_session2 : Session :=
  {| session_server_id := "room"; session_user_id := "alice";
     session_ip := "10.0.0.1"; session_websocket := 2%nat |}.

(** A member whose id is the address of its origin. *)
Definition address_session : Session :=
  {| session_server_id := "room"; session_user_id := "10.0.0.9";
     session_ip := "10.0.0.9"; session_websocket := 3%nat |}.

(** What the bundle of alice decodes to. *)
Definition alice_bundle : Bundle :=
  {| registration_id := 1;
     identity := ["i"%byte; "d"%byte];
     signed_prekey := ["s"%byte; "p"%byte; "k"%byte];
     signed_prekey_sig := ["s"%byte; "i"%byte; "g"%byte];
     one_time_prekey := ["o"%byte; "t"%byte; "p"%byte] |}.

(** Alice joins again and is given a second token. *)
Definition alice_rejoined : World :=
  step payload_len (JoinServer 5 "token-a2" "room" (join_as "secret" "alice" 7))
    alice_connected.

Definition rejoin_response : JoinResponse :=
  {| member_token := "token-a2"; others := [];
     response_admin_user_id := Some "alice" |}.

(** Both members talk, then alice leaves. *)
Definition chatter : list Event :=
  alice_arrives ++ bob_arrives
  ++ [ Receive bob_session hello 10%Q 10;
       Receive alice_session hello 11%Q 11;
       Teardown alice_session ].

(** Bob has sent ten frames at second 9. *)
Definition bob_exhausted : World :=
  with_rate_limits {[ "bob" := repeat 9%Q 10 ]} both_connected.

End Episode.

(** * Verification *)

(** ** base64: decoding what was encoded *)

Module Base64Facts.
Import Base64.

Lemma upto_forallb (P : N -> bool) (k : nat) :
  forallb P (upto k) = true -> forall n, (n < N.of_nat k)%N -> P n = true.
Proof.
  intros H n Hn. rewrite forallb_forall in H. apply H.
  unfold upto. apply in_map_iff. exists (N.to_nat n). split.
  - apply N2Nat.id.
  - apply in_seq. lia.
Qed.

Lemma sextet_ok_all n : (n < 64)%N -> sextet_ok n = true.
Proof. apply (upto_forallb sextet_ok 64). vm_compute. reflexivity. Qed.

Lemma a2b_b2a n : (n < 64)%N -> table_a2b_base64 (b2a n) = Some n.
Proof.
  intros H. apply sextet_ok_all in H. unfold sextet_ok in H.
  destruct (table_a2b_base64 (b2a n)) as [m|]; simpl in H; [|discriminate].
  apply andb_prop in H as [H _]. apply andb_prop in H as [H _].
  apply N.eqb_eq in H. congruence.
Qed.

Lemma b2a_not_pad n : (n < 64)%N -> Ascii.eqb (b2a n) BASE64_PAD = false.
Proof.
  intros H. apply sextet_ok_all in H. unfold sextet_ok in H.
  apply andb_prop in H as [H _]. apply andb_prop in H as [_ H].
  now apply negb_true_iff in H.
Qed.

Lemma b2a_is_ascii n : (n < 64)%N -> is_ascii (b2a n) = true.
Proof.
  intros H. apply sextet_ok_all in H. unfold sextet_ok in H.
  now apply andb_prop in H as [_ H].
Qed.

Lemma pair_check_sound (P : N -> N -> bool) :
  pair_check P = true ->
  forall a b : byte, P (Byte.to_N a) (Byte.to_N b) = true.
Proof.
  intros H a b.
  assert (Hlt : forall x : byte, (Byte.to_N x < N.of_nat 256)%N).
  { intros x. pose proof (Byte.to_N_bounded x). lia. }
  apply (upto_forallb (P (Byte.to_N a)) 256); [|apply Hlt].
  apply (upto_forallb (fun a => forallb (P a) (upto 256)) 256); [exact H|apply Hlt].
Qed.

Lemma sextets_lt_all : pair_check sextets_lt = true.
Proof. vm_compute. reflexivity. Qed.

Lemma joins_ok_all : pair_check joins_ok = true.
Proof. vm_compute. reflexivity. Qed.

(** Reads a bound or an equation off the exhaustive check at bytes a, b. *)
Ltac from_check chk all a b :=
  let H := fresh in
  pose proof (pair_check_sound chk all a b) as H;
  unfold sextets_lt, joins_ok in H;
  repeat (apply andb_prop in H; destruct H as [H ?]);
  repeat match goal with
         | X : (_ <? _)%N = true |- _ => apply N.ltb_lt in X
         | X : (_ =? _)%N = true |- _ => apply N.eqb_eq in X
         end;
  assumption.

Lemma sx1_lt (a : byte) : (sx1 (Byte.to_N a) < 64)%N.
Proof. from_check sextets_lt sextets_lt_all a a. Qed.

Lemma sx2_lt (a b : byte) : (sx2 (Byte.to_N a) (Byte.to_N b) < 64)%N.
Proof. from_check sextets_lt sextets_lt_all a b. Qed.

Lemma sx3_lt (b c : byte) : (sx3 (Byte.to_N b) (Byte.to_N c) < 64)%N.
Proof. from_check sextets_lt sextets_lt_all b c. Qed.

Lemma sx4_lt (c : byte) : (sx4 (Byte.to_N c) < 64)%N.
Proof. from_check sextets_lt sextets_lt_all c c. Qed.

Lemma sx2'_lt (a : byte) : (sx2' (Byte.to_N a) < 64)%N.
Proof. from_check sextets_lt sextets_lt_all a a. Qed.

Lemma sx3'_lt (b : byte) : (sx3' (Byte.to_N b) < 64)%N.
Proof. from_check sextets_lt sextets_lt_all b b. Qed.

Lemma byte_of_to_N (b : byte) : byte_of_N (Byte.to_N b) = b.
Proof.
  unfold byte_of_N. pose proof (Byte.to_N_bounded b).
  rewrite N.mod_small by lia. now rewrite Byte.of_to_N.
Qed.

Lemma join1 (a b : byte) :
  N.lor (N.shiftl (sx1 (Byte.to_N a)) 2) (N.shiftr (sx2 (Byte.to_N a) (Byte.to_N b)) 4)
  = Byte.to_N a.
Proof. from_check joins_ok joins_ok_all a b. Qed.

Lemma left2 (a b : byte) :
  N.land (sx2 (Byte.to_N a) (Byte.to_N b)) 15 = N.shiftr (Byte.to_N b) 4.
Proof. from_check joins_ok joins_ok_all a b. Qed.

Lemma join2 (b c : byte) :
  N.lor (N.shiftl (N.shiftr (Byte.to_N b) 4) 4)
    (N.shiftr (sx3 (Byte.to_N b) (Byte.to_N c)) 2)
  = Byte.to_N b.
Proof. from_check joins_ok joins_ok_all b c. Qed.

Lemma join3 (b c : byte) :
  N.lor (N.shiftl (N.land (sx3 (Byte.to_N b) (Byte.to_N c)) 3) 6) (sx4 (Byte.to_N c))
  = Byte.to_N c.
Proof. from_check joins_ok joins_ok_all b c. Qed.

Lemma join1' (a : byte) :
  N.lor (N.shiftl (sx1 (Byte.to_N a)) 2) (N.shiftr (sx2' (Byte.to_N a)) 4) = Byte.to_N a.
Proof. from_check joins_ok joins_ok_all a a. Qed.

Lemma join2' (b : byte) :
  N.lor (N.shiftl (N.shiftr (Byte.to_N b) 4) 4) (N.shiftr (sx3' (Byte.to_N b)) 2)
  = Byte.to_N b.
Proof. from_check joins_ok joins_ok_all b b. Qed.

(** The decoder on one character of the alphabet. *)
Lemma a2b_data (n : N) rest q lc pads out :
  (n < 64)%N ->
  a2b_base64 (String (b2a n) rest) q lc pads out =
  match q with
  | 0%N => a2b_base64 rest 1%N n 0%N out
  | 1%N => a2b_base64 rest 2%N (N.land n 15) 0%N
             (out ++ [byte_of_N (N.lor (N.shiftl lc 2) (N.shiftr n 4))])
  | 2%N => a2b_base64 rest 3%N (N.land n 3) 0%N
             (out ++ [byte_of_N (N.lor (N.shiftl lc 4) (N.shiftr n 2))])
  | _ => a2b_base64 rest 0%N 0%N 0%N
             (out ++ [byte_of_N (N.lor (N.shiftl lc 6) n)])
  end.
Proof.
  intros H. cbn [a2b_base64]. rewrite (b2a_not_pad n H), (a2b_b2a n H). reflexivity.
Qed.

Lemma a2b_pad1 lc out :
  a2b_base64 (String BASE64_PAD EmptyString) 3%N lc 0%N out = Some out.
Proof. reflexivity. Qed.

Lemma a2b_pad2 lc out :
  a2b_base64 (String BASE64_PAD (String BASE64_PAD EmptyString)) 2%N lc 0%N out
  = Some out.
Proof. reflexivity. Qed.

(** Induction on a list of bytes, a group of three at a time. *)
Lemma group3_ind {A} (P : list A -> Prop) :
  P [] -> (forall a, P [a]) -> (forall a b, P [a; b]) ->
  (forall a b c l, P l -> P (a :: b :: c :: l)) ->
  forall l, P l.
Proof.
  intros H0 H1 H2 H3.
  fix IH 1. intros [|a [|b [|c l]]]; [exact H0|apply H1|apply H2|apply H3, IH].
Qed.

Lemma a2b_base64_b64encode bs : forall lc pads out,
  a2b_base64 (b64encode bs) 0%N lc pads out = Some (out ++ bs).
Proof.
  induction bs as [|a|a b|a b c l IH] using group3_ind; intros lc pads out.
  - simpl. now rewrite app_nil_r.
  - cbn [b64encode].
    rewrite a2b_data by apply sx1_lt. rewrite a2b_data by apply sx2'_lt.
    rewrite a2b_pad2, join1', byte_of_to_N. reflexivity.
  - cbn [b64encode].
    rewrite a2b_data by apply sx1_lt. rewrite a2b_data by apply sx2_lt.
    rewrite a2b_data by apply sx3'_lt.
    rewrite a2b_pad1, join1, left2, join2', !byte_of_to_N, <- app_assoc. reflexivity.
  - cbn [b64encode].
    rewrite a2b_data by apply sx1_lt. rewrite a2b_data by apply sx2_lt.
    rewrite a2b_data by apply sx3_lt. rewrite a2b_data by apply sx4_lt.
    rewrite join1, left2, join2, join3, !byte_of_to_N, IH, <- !app_assoc. reflexivity.
Qed.

Lemma all_ascii_b64encode bs : all_ascii (b64encode bs) = true.
Proof.
  induction bs as [|a|a b|a b c l IH] using group3_ind; cbn [b64encode all_ascii].
  - reflexivity.
  - rewrite b2a_is_ascii by apply sx1_lt. rewrite b2a_is_ascii by apply sx2'_lt.
    reflexivity.
  - rewrite b2a_is_ascii by apply sx1_lt. rewrite b2a_is_ascii by apply sx2_lt.
    rewrite b2a_is_ascii by apply sx3'_lt. reflexivity.
  - rewrite b2a_is_ascii by apply sx1_lt. rewrite b2a_is_ascii by apply sx2_lt.
    rewrite b2a_is_ascii by apply sx3_lt. rewrite b2a_is_ascii by apply sx4_lt.
    exact IH.
Qed.

Lemma b64decode_b64encode bs : b64decode (b64encode bs) = Some bs.
Proof.
  unfold b64decode. rewrite all_ascii_b64encode. apply a2b_base64_b64encode.
Qed.

End Base64Facts.

(** ** Dictionaries *)

Module DictFacts.
Section DictFacts.
Context {V : Type}.
Implicit Types (d : list (string * V)) (k : string) (v : V).

Lemma get_set_eq k v d : Dict.get k (Dict.set k v d) = Some v.
Proof.
  induction d as [|[k' v'] d IH]; simpl.
  - now rewrite String.eqb_refl.
  - destruct (String.eqb k k') eqn:E; simpl.
    + now rewrite String.eqb_refl.
    + now rewrite E.
Qed.

Lemma get_set_ne k k' v d : k <> k' -> Dict.get k' (Dict.set k v d) = Dict.get k' d.
Proof.
  intros Hne. induction d as [|[k0 v0] d IH]; simpl.
  - apply String.eqb_neq in Hne. rewrite String.eqb_sym in Hne. now rewrite Hne.
  - destruct (String.eqb k k0) eqn:E; simpl.
    + apply String.eqb_eq in E. subst k0.
      assert (String.eqb k' k = false) as -> by (apply String.eqb_neq; congruence).
      reflexivity.
    + destruct (String.eqb k' k0); [reflexivity|exact IH].
Qed.

Lemma get_del_eq k d : Dict.get k (Dict.del k d) = None.
Proof.
  induction d as [|[k' v'] d IH]; simpl; [reflexivity|].
  destruct (String.eqb k k') eqn:E; simpl; [exact IH|]. now rewrite E.
Qed.

Lemma get_del_ne k k' d : k <> k' -> Dict.get k' (Dict.del k d) = Dict.get k' d.
Proof.
  intros Hne. induction d as [|[k0 v0] d IH]; simpl; [reflexivity|].
  destruct (String.eqb k k0) eqn:E; simpl.
  - apply String.eqb_eq in E. subst k0.
    assert (String.eqb k' k = false) as -> by (apply String.eqb_neq; congruence).
    exact IH.
  - destruct (String.eqb k' k0); [reflexivity|exact IH].
Qed.

Lemma get_In k v d : Dict.get k d = Some v -> In v (Dict.values d).
Proof.
  induction d as [|[k' v'] d IH]; simpl; [discriminate|].
  destruct (String.eqb k k'); [intros [= ->]; now left|]. intros H. right. now apply IH.
Qed.

Lemma set_not_nil k v d : Dict.set k v d <> [].
Proof. destruct d as [|[k' v'] d]; simpl; [discriminate|]. now destruct (String.eqb k k'). Qed.

Lemma get_None_keys k d : ~ In k (map fst d) -> Dict.get k d = None.
Proof.
  induction d as [|[k' v'] d IH]; simpl; [reflexivity|]. intros H.
  destruct (String.eqb_spec k k') as [->|Hne]; [tauto|]. apply IH. tauto.
Qed.

Lemma keys_set k v d : forall k', In k' (map fst (Dict.set k v d)) -> k' = k \/ In k' (map fst d).
Proof.
  induction d as [|[k0 v0] d IH]; simpl; intros k'.
  - intros [<-|[]]. now left.
  - destruct (String.eqb_spec k k0) as [->|Hne]; simpl.
    + intros [<-|H]; auto.
    + intros [<-|H]; auto. destruct (IH k' H); auto.
Qed.

Lemma in_set k v d : forall k' v',
  In (k', v') (Dict.set k v d) -> (k', v') = (k, v) \/ In (k', v') d.
Proof.
  induction d as [|[k0 v0] d IH]; intros k' v'; cbn [Dict.set].
  - intros [H|[]]. left. now symmetry.
  - destruct (String.eqb k k0).
    + intros [H|H]; [left; now symmetry|right; now right].
    + intros [H|H]; [right; now left|].
      destruct (IH _ _ H); [now left|right; now right].
Qed.

Lemma NoDup_keys_set k v d :
  List.NoDup (map fst d) -> List.NoDup (map fst (Dict.set k v d)).
Proof.
  induction d as [|[k0 v0] d IH]; simpl; intros H.
  - apply List.NoDup_cons_iff. split; [simpl; tauto|apply List.NoDup_nil].
  - apply List.NoDup_cons_iff in H. destruct H as [Hnin Hnd].
    destruct (String.eqb_spec k k0) as [->|Hne]; simpl.
    + apply List.NoDup_cons_iff. now split.
    + apply List.NoDup_cons_iff. split; [|now apply IH].
      intros Hin. destruct (keys_set k v d k0 Hin); [congruence|tauto].
Qed.

End DictFacts.
End DictFacts.

(** ** The rate limiter *)

Module RateLimitFacts.
Import Backend.

Lemma Qltb_lt (x y : Q) : Qltb x y = true <-> (x < y)%Q.
Proof. unfold Qltb, Qlt. apply Z.ltb_lt. Qed.

Lemma Qltb_ge (x y : Q) : Qltb x y = false <-> (y <= x)%Q.
Proof. unfold Qltb, Qle. apply Z.ltb_ge. Qed.

Lemma kept_In key now rl t :
  In t (kept key now rl) <->
  In t (default [] (rl !! key)) /\ ~ (WINDOW_SEC <= now - t)%Q.
Proof.
  unfold kept. rewrite filter_In, Qltb_lt. split; intros [H1 H2]; split; auto.
  - now apply Qlt_not_le.
  - now apply Qnot_le_lt.
Qed.

Lemma is_rate_limited_eq key now rl :
  is_rate_limited key now rl =
  if (MESSAGE_LIMIT <=? length (kept key now rl))%nat
  then (<[key := kept key now rl]> rl, true)
  else (<[key := kept key now rl ++ [now]]> rl, false).
Proof.
  unfold is_rate_limited, kept.
  destruct (rl !! key) as [l|] eqn:E; cbv zeta.
  - rewrite E. cbn [default].
    destruct (Nat.leb MESSAGE_LIMIT _); [reflexivity|].
    now rewrite insert_insert_eq.
  - rewrite lookup_insert_eq. cbn [default List.filter length].
    rewrite !insert_insert_eq. reflexivity.
Qed.

Lemma filter_keeps_all (f : Q -> bool) (l : list Q) :
  (forall t, In t l -> f t = true) -> List.filter f l = l.
Proof.
  induction l as [|a l IH]; simpl; intros H; [reflexivity|].
  rewrite (H a) by now left. f_equal. apply IH. intros t Ht. apply H. now right.
Qed.

Lemma filter_drops_one (f : Q -> bool) (l : list Q) (t : Q) :
  In t l -> f t = false -> (length (List.filter f l) < length l)%nat.
Proof.
  induction l as [|a l IH]; simpl; [tauto|]. intros [->|Hin] Ht.
  - rewrite Ht. pose proof (List.filter_length_le f l). lia.
  - specialize (IH Hin Ht). destruct (f a); simpl; lia.
Qed.

(** Checks that all fall within one window, from a key that holds [l], are
    all allowed and recorded, as long as there is room. *)
Lemma check_all_within key ts : forall l rl,
  default [] (rl !! key) = l ->
  (length (l ++ ts) <= MESSAGE_LIMIT)%nat ->
  (forall t t', In t (l ++ ts) -> In t' (l ++ ts) -> (t' - t < WINDOW_SEC)%Q) ->
  exists rl', check_all key ts rl = (rl', repeat false (length ts))
              /\ default [] (rl' !! key) = l ++ ts
              /\ (ts <> [] -> rl' !! key = Some (l ++ ts))
              /\ forall k, k <> key -> rl' !! k = rl !! k.
Proof.
  induction ts as [|t ts IH]; intros l rl Hl Hlen Hwin.
  - exists rl. rewrite app_nil_r. simpl. repeat split; auto. congruence.
  - cbn [check_all]. rewrite is_rate_limited_eq.
    assert (Hk : kept key t rl = l).
    { unfold kept. rewrite Hl. apply filter_keeps_all.
      intros t0 Ht0. apply Qltb_lt.
      apply Hwin; apply in_or_app; [now left|right; now left]. }
    rewrite Hk.
    rewrite length_app in Hlen. simpl in Hlen.
    destruct (Nat.leb_spec MESSAGE_LIMIT (length l)) as [Hle|Hlt]; [lia|].
    destruct (IH (l ++ [t]) (<[key := l ++ [t]]> rl)) as (rl' & E & Hdef & Hget & Hoth).
    + now rewrite lookup_insert_eq.
    + rewrite <- app_assoc. simpl. rewrite length_app. simpl. lia.
    + rewrite <- app_assoc. simpl. exact Hwin.
    + rewrite E. exists rl'. split; [reflexivity|].
      rewrite <- app_assoc in Hdef, Hget. simpl in Hdef, Hget.
      split; [exact Hdef|]. split.
      * intros _. destruct ts as [|t' ts'].
        -- simpl in E. injection E as <-. now rewrite lookup_insert_eq.
        -- now apply Hget.
      * intros k Hk'. rewrite Hoth by exact Hk'. now rewrite lookup_insert_ne.
Qed.

(** C3. A check at [now] keeps exactly the recorded timestamps whose age is
    not WINDOW_SEC or more; with MESSAGE_LIMIT or more of them left it
    answers limited and records nothing, otherwise it appends [now] and
    answers allowed. Hence MESSAGE_LIMIT events of a fresh key that lie
    within one window are all allowed, the next check within the window is
    limited, and a check made when WINDOW_SEC (or more) has passed since
    the first event is allowed again. *)
Theorem rate_limiter_sliding_window (key : string) (now later : Q)
    (rl : gmap string (list Q)) (ts : list Q) :
  (forall t, In t (kept key now rl) <->
             In t (default [] (rl !! key)) /\ ~ (WINDOW_SEC <= now - t)%Q)
  /\ ((MESSAGE_LIMIT <= length (kept key now rl))%nat ->
      is_rate_limited key now rl = (<[key := kept key now rl]> rl, true))
  /\ ((length (kept key now rl) < MESSAGE_LIMIT)%nat ->
      is_rate_limited key now rl = (<[key := kept key now rl ++ [now]]> rl, false))
  /\ (default [] (rl !! key) = [] ->
      length ts = MESSAGE_LIMIT ->
      (forall t t', In t ts -> In t' ts -> (t' - t < WINDOW_SEC)%Q) ->
      exists rl',
        check_all key ts rl = (rl', repeat false MESSAGE_LIMIT)
        /\ rl' !! key = Some ts
        /\ ((forall t, In t ts -> (now - t < WINDOW_SEC)%Q) ->
            is_rate_limited key now rl' = (rl', true))
        /\ (forall first, head ts = Some first ->
            (WINDOW_SEC <= later - first)%Q ->
            snd (is_rate_limited key later rl') = false)).
Proof.
  split; [apply kept_In|]. split; [|split].
  - intros H. rewrite is_rate_limited_eq.
    destruct (Nat.leb_spec MESSAGE_LIMIT (length (kept key now rl))); [reflexivity|lia].
  - intros H. rewrite is_rate_limited_eq.
    destruct (Nat.leb_spec MESSAGE_LIMIT (length (kept key now rl))); [lia|reflexivity].
  - intros Hfresh Hlen Hwin.
    destruct (check_all_within key ts [] rl Hfresh) as (rl' & E & Hdef & Hget & _).
    + simpl. lia.
    + exact Hwin.
    + simpl in Hdef, Hget. rewrite Hlen in E.
      assert (Hts : rl' !! key = Some ts).
      { apply Hget. intros ->. discriminate Hlen. }
      exists rl'. split; [exact E|]. split; [exact Hts|]. split.
      * intros Hnow. rewrite is_rate_limited_eq.
        assert (Hk : kept key now rl' = ts).
        { unfold kept. rewrite Hts. apply filter_keeps_all.
          intros t Ht. apply Qltb_lt. now apply Hnow. }
        rewrite Hk, Hlen, Nat.leb_refl. now rewrite insert_id.
      * intros first Hhd Hold. rewrite is_rate_limited_eq.
        assert (Hk : (length (kept key later rl') < length ts)%nat).
        { unfold kept. rewrite Hts. apply (filter_drops_one _ _ first).
          - destruct ts as [|t0 ts']; [discriminate|]. injection Hhd as ->. now left.
          - now apply Qltb_ge. }
        rewrite Hlen in Hk.
        destruct (Nat.leb_spec MESSAGE_LIMIT (length (kept key later rl')));
          [lia|reflexivity].
Qed.

(** Ten events a second apart, an eleventh check at second 10, and a check
    at second 60. *)
Lemma rate_limiter_sliding_window_witness :
  exists rl',
    check_all "alice" [0; 1; 2; 3; 4; 5; 6; 7; 8; 9]%Q ∅ = (rl', repeat false MESSAGE_LIMIT)
    /\ is_rate_limited "alice" 10%Q rl' = (rl', true)
    /\ snd (is_rate_limited "alice" 60%Q rl') = false.
Proof.
  destruct (rate_limiter_sliding_window "alice" 10%Q 60%Q ∅
              [0; 1; 2; 3; 4; 5; 6; 7; 8; 9]%Q) as (_ & _ & _ & H).
  destruct H as (rl' & E & _ & Hlim & Hlater).
  - reflexivity.
  - reflexivity.
  - intros t t' Ht Ht'. simpl in Ht, Ht'.
    repeat (destruct Ht as [<-|Ht]; [|]); try contradiction;
    repeat (destruct Ht' as [<-|Ht']; [|]); try contradiction; reflexivity.
  - exists rl'. split; [exact E|]. split.
    + apply Hlim. intros t Ht. simpl in Ht.
      repeat (destruct Ht as [<-|Ht]; [|]); try contradiction; reflexivity.
    + apply (Hlater 0%Q); [reflexivity|]. unfold WINDOW_SEC, Qle. simpl. lia.
Defined.

End RateLimitFacts.

(** ** The store and its activity stamp *)

Module StoreFacts.
Import Backend.

Lemma servers_update_activity now sid (w : World) :
  servers_col (update_activity now sid w) = alter (touch_server now) sid (servers_col w).
Proof. reflexivity. Qed.

Lemma tokens_update_activity now sid (w : World) :
  member_tokens_col (update_activity now sid w)
  = alter (touch_tokens now) sid (member_tokens_col w).
Proof. reflexivity. Qed.

Lemma lookup_servers_update_activity now sid (w : World) :
  servers_col (update_activity now sid w) !! sid
  = touch_server now <$> servers_col w !! sid.
Proof. rewrite servers_update_activity. apply lookup_alter_eq. Qed.

Lemma lookup_tokens_update_activity now sid (w : World) :
  member_tokens_col (update_activity now sid w) !! sid
  = touch_tokens now <$> member_tokens_col w !! sid.
Proof. rewrite tokens_update_activity. apply lookup_alter_eq. Qed.

Lemma lookup_servers_update_activity_ne now sid sid' (w : World) :
  sid <> sid' ->
  servers_col (update_activity now sid w) !! sid' = servers_col w !! sid'.
Proof. intros H. rewrite servers_update_activity. now apply lookup_alter_ne. Qed.

Lemma lookup_tokens_update_activity_ne now sid sid' (w : World) :
  sid <> sid' ->
  member_tokens_col (update_activity now sid w) !! sid' = member_tokens_col w !! sid'.
Proof. intros H. rewrite tokens_update_activity. now apply lookup_alter_ne. Qed.

Lemma admin_of_update_activity now sid sid' (w : World) :
  admin_of (update_activity now sid w) sid' = admin_of w sid'.
Proof.
  unfold admin_of. destruct (decide (sid = sid')) as [<-|Hne].
  - rewrite lookup_servers_update_activity. now destruct (servers_col w !! sid).
  - now rewrite lookup_servers_update_activity_ne.
Qed.

(** Stamping a room changes no join token, admin, member or token. *)
Lemma update_activity_keeps now sid sid' (w : World) :
  join_token <$> servers_col (update_activity now sid w) !! sid'
    = join_token <$> servers_col w !! sid'
  /\ admin_user_id <$> servers_col (update_activity now sid w) !! sid'
    = admin_user_id <$> servers_col w !! sid'
  /\ members <$> servers_col (update_activity now sid w) !! sid'
    = members <$> servers_col w !! sid'
  /\ tokens <$> member_tokens_col (update_activity now sid w) !! sid'
    = tokens <$> member_tokens_col w !! sid'.
Proof.
  destruct (decide (sid = sid')) as [<-|Hne].
  - rewrite lookup_servers_update_activity, lookup_tokens_update_activity.
    destruct (servers_col w !! sid), (member_tokens_col w !! sid); simpl; auto.
  - rewrite lookup_servers_update_activity_ne, lookup_tokens_update_activity_ne by exact Hne.
    auto.
Qed.

End StoreFacts.

(** ** The admission controller *)

Module AdmissionFacts.
Import Backend.

Lemma admit_ip_full ip (ic : gmap string Z) n :
  ic !! ip = Some n -> (CONN_LIMIT_PER_IP <= n)%Z -> admit_ip ip ic = (ic, false).
Proof.
  intros E Hn. unfold admit_ip. rewrite E. cbv zeta. rewrite E. cbn [default from_option id].
  destruct (Z.leb_spec CONN_LIMIT_PER_IP n); [reflexivity|lia].
Qed.

Lemma admit_ip_room ip (ic : gmap string Z) n :
  ic !! ip = Some n -> (n < CONN_LIMIT_PER_IP)%Z ->
  admit_ip ip ic = (<[ip := (n + 1)%Z]> ic, true).
Proof.
  intros E Hn. unfold admit_ip. rewrite E. cbv zeta. rewrite E. cbn [default from_option id].
  destruct (Z.leb_spec CONN_LIMIT_PER_IP n); [lia|reflexivity].
Qed.

Lemma admit_ip_new ip (ic : gmap string Z) :
  ic !! ip = None -> admit_ip ip ic = (<[ip := 1%Z]> ic, true).
Proof.
  intros E. unfold admit_ip. rewrite E. cbv zeta. rewrite lookup_insert_eq. cbn [default from_option id].
  destruct (Z.leb_spec CONN_LIMIT_PER_IP 0) as [H|H]; [unfold CONN_LIMIT_PER_IP in H; lia|].
  now rewrite insert_insert_eq.
Qed.




Lemma ws_connect_authenticated now ws sid tok cf host (w : World) doc tdoc user :
  servers_col w !! sid = Some doc ->
  member_tokens_col w !! sid = Some tdoc ->
  find_user tok (tokens tdoc) = Some user ->
  ws_connect now ws sid tok cf host w =
  let w1 := update_activity now sid w in
  let ip := default host cf in
  match admit_ip ip (ip_connections w) with
  | (ic, false) => (with_ip_connections ic w1, Closed 1013)
  | (ic, true) =>
      (with_connected (register sid user ws) (with_ip_connections ic w1),
       Accepted {| session_server_id := sid; session_user_id := user;
                   session_ip := ip; session_websocket := ws |})
  end.
Proof.
  intros Hs Ht Hu. unfold ws_connect.
  rewrite StoreFacts.lookup_servers_update_activity, Hs. cbn [fmap option_fmap option_map].
  rewrite StoreFacts.lookup_tokens_update_activity, Ht. cbn [fmap option_fmap option_map].
  cbn [tokens touch_tokens]. rewrite Hu. reflexivity.
Qed.



End AdmissionFacts.

(** ** Sending to a list of sockets *)

Module SendFacts.
Import Backend.

Lemma with_delivered_id (w : World) : with_delivered (delivered w) w = w.
Proof. now destruct w. Qed.

Lemma with_delivered_twice d d' (w : World) :
  with_delivered d (with_delivered d' w) = with_delivered d w.
Proof. reflexivity. Qed.

Lemma send_json_ok ws m (w : World) :
  broken w !! ws = None ->
  send_json ws m w = (with_delivered (delivered w ++ [(ws, m)]) w, None).
Proof. intros H. unfold send_json. now rewrite H. Qed.

Lemma send_json_raises ws m (w : World) e :
  broken w !! ws = Some e -> send_json ws m w = (w, Some e).
Proof. intros H. unfold send_json. now rewrite H. Qed.


(** The first broken socket of the list ends the loop: those before it got
    the message, it and those after it did not. *)
Lemma send_all_raises pre ws post m (w : World) e :
  (forall x, In x pre -> broken w !! x = None) ->
  broken w !! ws = Some e ->
  send_all (pre ++ ws :: post) m w
  = (with_delivered (delivered w ++ map (fun x => (x, m)) pre) w, Some e).
Proof.
  revert w. induction pre as [|p pre IH]; intros w Hpre Hws; cbn [send_all app map].
  - rewrite (send_json_raises ws m w e Hws). now rewrite app_nil_r, with_delivered_id.
  - rewrite send_json_ok by (apply Hpre; now left).
    rewrite IH; [|intros x Hx; apply Hpre; now right|exact Hws].
    cbn [delivered with_delivered]. rewrite <- app_assoc. reflexivity.
Qed.

(** Sending changes nothing but the record of deliveries, and only adds to
    it. *)
Lemma send_all_frame wss m : forall w : World,
  exists d, fst (send_all wss m w) = with_delivered (delivered w ++ d) w.
Proof.
  induction wss as [|ws wss IH]; intros w; cbn [send_all].
  - exists []. now rewrite app_nil_r, with_delivered_id.
  - unfold send_json. destruct (broken w !! ws) as [e|].
    + exists []. simpl. now rewrite app_nil_r, with_delivered_id.
    + destruct (IH (with_delivered (delivered w ++ [(ws, m)]) w)) as [d Hd].
      exists ((ws, m) :: d).
      destruct (send_all wss m _) as [w' [e|]]; simpl in *; rewrite Hd;
        cbn [delivered with_delivered]; now rewrite <- app_assoc.
Qed.

Lemma send_all_raises_inv wss m (w w' : World) e :
  send_all wss m w = (w', Some e) -> exists ws, In ws wss /\ broken w !! ws = Some e.
Proof.
  revert w. induction wss as [|ws wss IH]; intros w; cbn [send_all]; [discriminate|].
  unfold send_json. destruct (broken w !! ws) as [e'|] eqn:E.
  - intros [= <- <-]. exists ws. split; [now left|exact E].
  - intros H. destruct (send_all wss m _) as [w1 [e1|]] eqn:E1; [|discriminate].
    injection H as <- <-. destruct (IH _ E1) as (x & Hx & Hb).
    exists x. split; [now right|exact Hb].
Qed.

End SendFacts.

(** ** Update paths *)

Module PathFacts.
Import Backend.

Lemma split_path_cons path : exists part parts, split_path path = part :: parts.
Proof.
  induction path as [|c rest IH]; cbn [split_path]; [eauto|].
  destruct (Ascii.eqb c "."); [eauto|].
  destruct IH as (part & parts & ->). eauto.
Qed.

(** An update of a path writes one key of the enclosing document: the
    first part of the path. *)
Lemma set_path_head parts v fields fields' :
  set_path parts v fields = Some fields' ->
  exists v', fields' = Dict.set (hd EmptyString parts) v' fields.
Proof.
  destruct parts as [|part rest]; cbn [set_path hd]; [discriminate|].
  destruct rest as [|r rest].
  - intros [= <-]. eauto.
  - destruct (Dict.get part fields) as [[n|bs|s|sub]|]; try discriminate.
    + destruct (set_path (r :: rest) v sub) as [sub'|]; [|discriminate].
      intros [= <-]. eauto.
    + intros [= <-]. eauto.
Qed.

Lemma set_field_head path v fields fields' :
  set_field path v fields = Some fields' ->
  exists v', fields' = Dict.set (head_of path) v' fields.
Proof.
  unfold set_field, head_of.
  destruct (forallb field_name (split_path path)); [apply set_path_head|discriminate].
Qed.

Lemma plain_id_spec uid :
  plain_id uid = true ->
  split_path uid = [uid] /\ field_name uid = true /\ has_nul uid = false.
Proof.
  unfold plain_id. intros H. apply andb_true_iff in H. destruct H as [H Hn].
  apply andb_true_iff in H. destruct H as [Hs Hf].
  apply bool_decide_eq_true_1 in Hs. apply negb_true_iff in Hn. auto.
Qed.

Lemma plain_id_not_empty uid : plain_id uid = true -> uid <> "".
Proof. intros H ->. discriminate H. Qed.

Lemma head_of_plain uid : plain_id uid = true -> head_of uid = uid.
Proof.
  intros H. unfold head_of. now rewrite (proj1 (plain_id_spec uid H)).
Qed.

(** A plain id is written as a key of its own. *)
Lemma set_field_plain uid v fields :
  plain_id uid = true -> set_field uid v fields = Some (Dict.set uid v fields).
Proof.
  intros H. destruct (plain_id_spec uid H) as (Hs & Hf & _).
  unfold set_field. rewrite Hs. cbn [forallb set_path]. now rewrite Hf.
Qed.

(** An id without a dot is written, when the store takes it, as a key of
    its own. *)
Lemma set_field_dotless uid v fields fields' :
  split_path uid = [uid] -> set_field uid v fields = Some fields' ->
  fields' = Dict.set uid v fields.
Proof.
  intros Hs. unfold set_field. rewrite Hs. cbn [forallb set_path].
  destruct (field_name uid && true); [now intros [= <-]|discriminate].
Qed.

(** A key without a dot that the store takes once, it takes always. *)
Lemma set_field_dotless_total uid v fields fields' :
  split_path uid = [uid] -> set_field uid v fields = Some fields' ->
  forall v' fields2, set_field uid v' fields2 = Some (Dict.set uid v' fields2).
Proof.
  intros Hs. unfold set_field. rewrite Hs. cbn [forallb set_path].
  now destruct (field_name uid && true).
Qed.

Lemma head_of_dotless uid : split_path uid = [uid] -> head_of uid = uid.
Proof. intros H. unfold head_of. now rewrite H. Qed.

(** A path of one part is the whole key. *)
Lemma split_path_single s : forall p, split_path s = [p] -> p = s.
Proof.
  induction s as [|c r IH]; intros p; cbn [split_path].
  - now intros [= <-].
  - destruct (Ascii.eqb c ".").
    + destruct (split_path_cons r) as (q & qs & ->). discriminate.
    + destruct (split_path_cons r) as (q & qs & E). rewrite E in IH |- *.
      intros [= <- ->]. now rewrite (IH q eq_refl).
Qed.

(** The first part of a path of several parts is not the whole key. *)
Lemma split_path_head_ne s : forall p q rest, split_path s = p :: q :: rest -> p <> s.
Proof.
  induction s as [|c r IH]; intros p q rest; cbn [split_path]; [discriminate|].
  destruct (Ascii.eqb c "."); [intros [= <- _]; discriminate|].
  destruct (split_path_cons r) as (p' & ps & E). rewrite E in IH |- *.
  intros [= <- ->] [= Heq]. exact (IH p' q rest eq_refl Heq).
Qed.

(** What a path makes of a document without fields. *)
Lemma set_field_nil uid v ms :
  set_field uid v [] = Some ms ->
  (split_path uid = [uid] /\ ms = [(uid, v)])
  \/ exists p q rest, split_path uid = p :: q :: rest /\ p <> uid
                      /\ ms = [(p, nest (q :: rest) v)].
Proof.
  unfold set_field. destruct (forallb field_name (split_path uid)); [|discriminate].
  destruct (split_path uid) as [|p [|q rest]] eqn:E; cbn [set_path Dict.get Dict.set].
  - discriminate.
  - intros [= <-]. left. rewrite (split_path_single uid p E). auto.
  - intros [= <-]. right. exists p, q, rest.
    split; [reflexivity|]. split; [exact (split_path_head_ne uid p q rest E)|reflexivity].
Qed.

Lemma get_path_nest rest v : forall part,
  get_path (part :: rest) [(part, nest rest v)] = Some v.
Proof.
  induction rest as [|r rest IH]; intros part; cbn [get_path nest Dict.get];
    rewrite String.eqb_refl; [reflexivity|apply IH].
Qed.

(** What was set at a path is what is read at that path. *)
Lemma get_set_path parts v : forall fields fields',
  set_path parts v fields = Some fields' -> get_path parts fields' = Some v.
Proof.
  induction parts as [|part rest IH]; intros fields fields'; cbn [set_path get_path];
    [discriminate|].
  destruct rest as [|r rest].
  - intros [= <-]. apply DictFacts.get_set_eq.
  - destruct (Dict.get part fields) as [[n|bs|s|sub]|]; try discriminate.
    + destruct (set_path (r :: rest) v sub) as [sub'|] eqn:E; [|discriminate].
      intros [= <-]. rewrite DictFacts.get_set_eq. now apply (IH sub).
    + intros [= <-]. rewrite DictFacts.get_set_eq. apply get_path_nest.
Qed.

Lemma get_set_field path v fields fields' :
  set_field path v fields = Some fields' -> get_path (split_path path) fields' = Some v.
Proof.
  unfold set_field.
  destruct (forallb field_name (split_path path)); [apply get_set_path|discriminate].
Qed.

(** The keys that an update of a path does not write keep their values. *)
Lemma get_set_field_other path v fields fields' u :
  set_field path v fields = Some fields' -> u <> head_of path ->
  Dict.get u fields' = Dict.get u fields.
Proof.
  intros H Hne. destruct (set_field_head _ _ _ _ H) as [v' ->].
  apply DictFacts.get_set_ne. congruence.
Qed.

Lemma update_one_Some {D} (f : D -> option D) key (col col' : gmap string D) :
  update_one f key col = Some col' ->
  (forall k, k <> key -> col' !! k = col !! k)
  /\ match col !! key with
     | None => col' !! key = None
     | Some d => exists d', f d = Some d' /\ col' !! key = Some d'
     end.
Proof.
  unfold update_one. destruct (col !! key) as [d|] eqn:E.
  - destruct (f d) as [d'|]; [|discriminate]. intros [= <-]. split.
    + intros k Hk. now rewrite lookup_insert_ne.
    + exists d'. split; [reflexivity|apply lookup_insert_eq].
  - intros [= <-]. split; [reflexivity|exact E].
Qed.

Lemma update_one_None {D} (f : D -> option D) key (col : gmap string D) :
  update_one f key col = None -> exists d, col !! key = Some d /\ f d = None.
Proof.
  unfold update_one. destruct (col !! key) as [d|]; [|discriminate].
  destruct (f d) eqn:E; [discriminate|]. eauto.
Qed.

End PathFacts.

(** ** Joining a room *)

Module JoinFacts.
Import Base64 Backend.

Lemma encoded_bundle_doc (b : Bundle) : encoded (bundle_doc b) = inr (encode_bundle b).
Proof. reflexivity. Qed.

Lemma decode_encode_bundle (b : Bundle) :
  decode_bundle (as_request (encode_bundle b)) = Some b.
Proof.
  unfold decode_bundle, as_request, encode_bundle. cbn [pk_registration_id pk_identity
    pk_signed_prekey pk_signed_prekey_sig pk_one_time_prekey enc_registration_id
    enc_identity enc_signed_prekey enc_signed_prekey_sig enc_one_time_prekey
    mbind option_bind].
  rewrite !Base64Facts.b64decode_b64encode. now destruct b.
Qed.

(** What a stored entry holds when lines 129 to 135 raise nothing on it. *)
Lemma encoded_inv v p :
  encoded v = inr p ->
  exists fields i sp sig otp,
    v = VDoc fields
    /\ Dict.get "registration_id" fields = Some (enc_registration_id p)
    /\ Dict.get "identity" fields = Some (VBytes i)
    /\ Dict.get "signed_prekey" fields = Some (VBytes sp)
    /\ Dict.get "signed_prekey_sig" fields = Some (VBytes sig)
    /\ Dict.get "one_time_prekey" fields = Some (VBytes otp)
    /\ enc_identity p = b64encode i
    /\ enc_signed_prekey p = b64encode sp
    /\ enc_signed_prekey_sig p = b64encode sig
    /\ enc_one_time_prekey p = b64encode otp.
Proof.
  unfold encoded, item. destruct v as [n|bs|s|fields]; try discriminate.
  destruct (Dict.get "registration_id" fields) as [r|] eqn:E0; [|discriminate].
  destruct (Dict.get "identity" fields) as [[?|i|?|?]|] eqn:E1; try discriminate.
  destruct (Dict.get "signed_prekey" fields) as [[?|sp|?|?]|] eqn:E2; try discriminate.
  destruct (Dict.get "signed_prekey_sig" fields) as [[?|sig|?|?]|] eqn:E3;
    try discriminate.
  destruct (Dict.get "one_time_prekey" fields) as [[?|otp|?|?]|] eqn:E4;
    try discriminate.
  cbn. intros [= <-]. exists fields, i, sp, sig, otp. cbn.
  repeat split; assumption.
Qed.

(** The documents a path creates on its way hold one field: lines 129 to
    135 raise on them. *)
Lemma encoded_nest q rest v : exists e, encoded (nest (q :: rest) v) = inl e.
Proof.
  cbn [nest]. unfold encoded, item. cbn [Dict.get and_then].
  destruct (String.eqb_spec "registration_id" q) as [<-|_]; cbn; eauto.
Qed.

Lemma decode_bundle_Some p b :
  decode_bundle p = Some b ->
  pk_registration_id p = Some (registration_id b)
  /\ pk_identity p ≫= b64decode = Some (identity b)
  /\ pk_signed_prekey p ≫= b64decode = Some (signed_prekey b)
  /\ pk_signed_prekey_sig p ≫= b64decode = Some (signed_prekey_sig b)
  /\ pk_one_time_prekey p ≫= b64decode = Some (one_time_prekey b).
Proof.
  unfold decode_bundle.
  destruct (pk_registration_id p); [|discriminate].
  destruct (pk_identity p ≫= b64decode); [|discriminate].
  destruct (pk_signed_prekey p ≫= b64decode); [|discriminate].
  destruct (pk_signed_prekey_sig p ≫= b64decode); [|discriminate].
  destruct (pk_one_time_prekey p ≫= b64decode); [|discriminate].
  intros [= <-]. simpl. auto.
Qed.

(** A bundle with a key missing or a key field that does not decode is
    not accepted. *)
Lemma decode_bundle_None p :
  pk_registration_id p = None
  \/ pk_identity p ≫= b64decode = None
  \/ pk_signed_prekey p ≫= b64decode = None
  \/ pk_signed_prekey_sig p ≫= b64decode = None
  \/ pk_one_time_prekey p ≫= b64decode = None ->
  decode_bundle p = None.
Proof.
  unfold decode_bundle. intros H.
  destruct (pk_registration_id p); [|reflexivity].
  destruct (pk_identity p ≫= b64decode); [|reflexivity].
  destruct (pk_signed_prekey p ≫= b64decode); [|reflexivity].
  destruct (pk_signed_prekey_sig p ≫= b64decode); [|reflexivity].
  destruct (pk_one_time_prekey p ≫= b64decode); [|reflexivity].
  exfalso. intuition discriminate.
Qed.

Lemma prekey_missing_decode p : prekey_missing (Some p) = true -> decode_bundle p = None.
Proof.
  destruct p as [[r|] i sp sig otp]; simpl; [discriminate|reflexivity].
Qed.

Lemma join_server_missing now tok sid body (w : World) :
  servers_col w !! sid = None ->
  join_server now tok sid body w
  = (update_activity now sid w, HTTPException 404 "Server not found").
Proof.
  intros H. unfold join_server.
  now rewrite StoreFacts.lookup_servers_update_activity, H.
Qed.

(** *** The two updates of the store *)

Lemma store_member_Some uid bundle flag d d' :
  store_member uid bundle flag d = Some d' ->
  join_token d' = join_token d /\ created_at d' = created_at d
  /\ last_activity d' = last_activity d
  /\ admin_user_id d' = (if flag then Some uid else admin_user_id d)
  /\ set_field uid (bundle_doc bundle) (members d) = Some (members d').
Proof.
  unfold store_member.
  destruct (set_field uid (bundle_doc bundle) (members d)) as [ms|]; [|discriminate].
  intros [= <-]. cbn. auto.
Qed.

Lemma store_token_Some uid tok d d' :
  store_token uid tok d = Some d' ->
  tokens_created_at d' = tokens_created_at d
  /\ tokens_last_activity d' = tokens_last_activity d
  /\ set_field uid (VStr tok) (tokens d) = Some (tokens d').
Proof.
  unfold store_token.
  destruct (set_field uid (VStr tok) (tokens d)) as [ts|]; [|discriminate].
  intros [= <-]. cbn. auto.
Qed.

(** The server document that a join leaves when the store took its first
    update. *)
Lemma stored_doc_Some now uid bundle doc server :
  stored_doc now uid bundle doc = Some server ->
  join_token server = join_token doc /\ created_at server = created_at doc
  /\ last_activity server = now
  /\ admin_user_id server = Some (default uid (admin_user_id doc))
  /\ set_field uid (bundle_doc bundle) (members doc) = Some (members server).
Proof.
  unfold stored_doc. intros H. apply store_member_Some in H.
  destruct H as (Hj & Hc & Hl & Ha & Hm). cbn in *.
  repeat (split; [assumption|]). split; [|exact Hm].
  rewrite Ha. now destruct (admin_user_id doc).
Qed.

(** A plain id with a registration id of eight bytes is always stored. *)
Lemma stored_doc_plain now uid bundle doc :
  plain_id uid = true ->
  stored_doc now uid bundle doc
  = Some {| join_token := join_token doc;
            admin_user_id := Some (default uid (admin_user_id doc));
            members := Dict.set uid (bundle_doc bundle) (members doc);
            created_at := created_at doc; last_activity := now |}.
Proof.
  intros H. unfold stored_doc, store_member. cbn [members touch_server].
  rewrite (PathFacts.set_field_plain _ _ _ H). cbn.
  now destruct (admin_user_id doc).
Qed.

Lemma store_token_plain uid tok d :
  plain_id uid = true ->
  store_token uid tok d
  = Some {| tokens := Dict.set uid (VStr tok) (tokens d);
            tokens_created_at := tokens_created_at d;
            tokens_last_activity := tokens_last_activity d |}.
Proof.
  intros H. unfold store_token. now rewrite (PathFacts.set_field_plain _ _ _ H).
Qed.

(** Every run of lines 114 to 122, for a room that is there: the runtime
    tables and the other rooms are not touched; either nothing is stored,
    or the server document is updated and then the tokens document is, or
    is refused. *)
Lemma committed_cases now tok sid uid bundle doc (w w2 : World) oc :
  servers_col w !! sid = Some doc ->
  committed now tok sid uid bundle doc w = (w2, oc) ->
  (connected w2 = connected w /\ rate_limits w2 = rate_limits w
   /\ ip_connections w2 = ip_connections w /\ broken w2 = broken w
   /\ delivered w2 = delivered w)
  /\ (forall sid', sid' <> sid ->
        servers_col w2 !! sid' = servers_col w !! sid'
        /\ member_tokens_col w2 !! sid' = member_tokens_col w !! sid')
  /\ ((w2 = update_activity now sid w
       /\ (oc = Some InvalidDocument \/ oc = Some OverflowError \/ oc = Some WriteError))
      \/ exists server,
           stored_doc now uid bundle doc = Some server
           /\ servers_col w2 !! sid = Some server
           /\ ((oc = Some WriteError
                /\ member_tokens_col w2 !! sid
                   = touch_tokens now <$> member_tokens_col w !! sid)
               \/ (oc = None
                   /\ match member_tokens_col w !! sid with
                      | None => member_tokens_col w2 !! sid = None
                      | Some tdoc =>
                          exists tdoc',
                            store_token uid tok (touch_tokens now tdoc) = Some tdoc'
                            /\ member_tokens_col w2 !! sid = Some tdoc'
                      end))).
Proof.
  intros Hdoc H.
  assert (Hstamp : forall sid', sid' <> sid ->
            servers_col (update_activity now sid w) !! sid' = servers_col w !! sid'
            /\ member_tokens_col (update_activity now sid w) !! sid'
               = member_tokens_col w !! sid').
  { intros sid' Hne. split.
    - apply StoreFacts.lookup_servers_update_activity_ne. congruence.
    - apply StoreFacts.lookup_tokens_update_activity_ne. congruence. }
  unfold committed, join_commit in H.
  destruct (has_nul uid).
  { injection H as <- <-. split; [repeat split|]. split; [exact Hstamp|]. left. auto. }
  destruct (negb (fits_int64 (registration_id bundle))).
  { injection H as <- <-. split; [repeat split|]. split; [exact Hstamp|]. left. auto. }
  destruct (update_one _ sid (servers_col (update_activity now sid w))) as [col|] eqn:E1.
  2: { injection H as <- <-. split; [repeat split|]. split; [exact Hstamp|]. left. auto. }
  apply PathFacts.update_one_Some in E1. destruct E1 as [Ho1 Hs1].
  rewrite StoreFacts.lookup_servers_update_activity, Hdoc in Hs1.
  cbn [fmap option_fmap option_map] in Hs1. destruct Hs1 as (server & Hst & Hs1).
  cbn [member_tokens_col with_servers_col] in H.
  destruct (update_one _ sid (member_tokens_col (update_activity now sid w)))
    as [tcol|] eqn:E2.
  - injection H as <- <-. apply PathFacts.update_one_Some in E2. destruct E2 as [Ho2 Hs2].
    rewrite StoreFacts.lookup_tokens_update_activity in Hs2.
    split; [repeat split|]. split.
    + intros sid' Hne. cbn [servers_col member_tokens_col with_member_tokens_col
        with_servers_col]. rewrite Ho1, Ho2 by exact Hne. now apply Hstamp.
    + right. exists server. split; [exact Hst|]. split; [exact Hs1|]. right.
      split; [reflexivity|].
      cbn [member_tokens_col with_member_tokens_col].
      destruct (member_tokens_col w !! sid) as [tdoc|]; exact Hs2.
  - injection H as <- <-. apply PathFacts.update_one_None in E2.
    split; [repeat split|]. split.
    + intros sid' Hne. cbn [servers_col member_tokens_col with_servers_col].
      rewrite Ho1 by exact Hne. now apply Hstamp.
    + right. exists server. split; [exact Hst|]. split; [exact Hs1|]. left.
      split; [reflexivity|]. cbn [member_tokens_col with_servers_col].
      apply StoreFacts.lookup_tokens_update_activity.
Qed.

Lemma join_server_found now tok sid body (w : World) doc :
  servers_col w !! sid = Some doc ->
  join_server now tok sid body w =
  let w1 := update_activity now sid w in
  if negb (bool_decide (body_join_token body = Some (join_token doc))) then
    (w1, HTTPException 401 "Invalid join token")
  else if negb (truthy (body_user_id body)) then
    (w1, HTTPException 400 "Missing user_id")
  else if prekey_missing (body_prekey_bundle body) then
    (w1, HTTPException 400 "Missing prekey_bundle")
  else
    match body_prekey_bundle body ≫= decode_bundle with
    | None => (w1, HTTPException 400 "Invalid prekey format")
    | Some bundle =>
        let uid := default "" (body_user_id body) in
        match committed now tok sid uid bundle doc w with
        | (w2, Some e) => (w2, Raise e)
        | (w2, None) =>
            match servers_col w2 !! sid with
            | None => (w2, Raise TypeError)
            | Some server =>
                match others_of uid (members server) with
                | inl e => (w2, Raise e)
                | inr ots =>
                    match join_broadcast sid uid w2 with
                    | (w3, Some e) => (w3, Raise e)
                    | (w3, None) =>
                        (w3, Return {| member_token := tok; others := ots;
                                       response_admin_user_id := admin_user_id server |})
                    end
                end
            end
        end
    end.
Proof.
  intros H. unfold join_server.
  rewrite StoreFacts.lookup_servers_update_activity, H.
  cbn [fmap option_fmap option_map join_token touch_server]. cbv zeta.
  reflexivity.
Qed.

(** Every run of [join_server]: an error answer and nothing but the stamp;
    or the checks pass and the run ends in the updates of the store, in
    the loop over the members, or in the broadcast. *)
Lemma join_server_cases now tok sid body (w w' : World) r :
  join_server now tok sid body w = (w', r) ->
  (w' = update_activity now sid w /\ exists code detail, r = HTTPException code detail)
  \/ exists doc uid bundle w2 oc,
       servers_col w !! sid = Some doc
       /\ body_join_token body = Some (join_token doc)
       /\ body_user_id body = Some uid /\ uid <> ""
       /\ body_prekey_bundle body ≫= decode_bundle = Some bundle
       /\ committed now tok sid uid bundle doc w = (w2, oc)
       /\ match oc with
          | Some e => w' = w2 /\ r = Raise e
          | None =>
              exists server,
                servers_col w2 !! sid = Some server
                /\ match others_of uid (members server) with
                   | inl e => w' = w2 /\ r = Raise e
                   | inr ots =>
                       exists oe,
                         join_broadcast sid uid w2 = (w', oe)
                         /\ r = match oe with
                                | Some e => Raise e
                                | None =>
                                    Return {| member_token := tok; others := ots;
                                              response_admin_user_id :=
                                                admin_user_id server |}
                                end
                   end
          end.
Proof.
  intros H. destruct (servers_col w !! sid) as [doc|] eqn:Hdoc.
  2: { rewrite join_server_missing in H by exact Hdoc. injection H as <- <-.
       left. eauto. }
  rewrite (join_server_found _ _ _ _ _ doc Hdoc) in H. cbv zeta in H.
  destruct (bool_decide _) eqn:Htok; cbn [negb] in H;
    [|injection H as <- <-; left; eauto].
  apply bool_decide_eq_true_1 in Htok.
  destruct (truthy (body_user_id body)) eqn:Hu; cbn [negb] in H;
    [|injection H as <- <-; left; eauto].
  destruct (prekey_missing _); [injection H as <- <-; left; eauto|].
  destruct (body_prekey_bundle body ≫= decode_bundle) as [bundle|] eqn:Hd;
    [|injection H as <- <-; left; eauto].
  destruct (body_user_id body) as [uid|] eqn:Huid; [|discriminate].
  cbn [default from_option id] in H.
  right. exists doc, uid, bundle.
  destruct (committed now tok sid uid bundle doc w) as [w2 oc] eqn:Hc.
  exists w2, oc.
  do 3 (split; [first [assumption|reflexivity]|]).
  split; [intros ->; discriminate|].
  do 2 (split; [first [assumption|reflexivity]|]).
  destruct oc as [e|]; [injection H as <- <-; auto|].
  destruct (committed_cases _ _ _ _ _ _ _ _ _ Hdoc Hc)
    as (_ & _ & [[_ [?|[?|?]]]|(server & _ & Hs & _)]); try discriminate.
  rewrite Hs in H. exists server. split; [exact Hs|].
  destruct (others_of uid (members server)) as [e|ots]; [injection H as <- <-; auto|].
  destruct (join_broadcast sid uid w2) as [w3 oe] eqn:Hb. exists oe.
  destruct oe as [e|]; injection H as <- <-; split; reflexivity.
Qed.

Lemma join_broadcast_store sid uid (w : World) :
  servers_col (fst (join_broadcast sid uid w)) = servers_col w
  /\ member_tokens_col (fst (join_broadcast sid uid w)) = member_tokens_col w
  /\ connected (fst (join_broadcast sid uid w)) = connected w.
Proof.
  unfold join_broadcast. destruct (connected w !! sid) as [room|]; [|auto].
  destruct (SendFacts.send_all_frame (Dict.values room) (JoinNotification uid) w)
    as [d ->]. auto.
Qed.

Lemma join_broadcast_frame sid uid (w : World) :
  exists d, fst (join_broadcast sid uid w) = with_delivered (delivered w ++ d) w.
Proof.
  unfold join_broadcast. destruct (connected w !! sid) as [room|].
  - apply SendFacts.send_all_frame.
  - exists []. simpl. now rewrite app_nil_r, SendFacts.with_delivered_id.
Qed.

(** What a join that returns its response has done and returned. *)
Lemma join_server_returns now tok sid body (w w' : World) resp :
  join_server now tok sid body w = (w', Return resp) ->
  exists doc uid bundle w2 server,
    servers_col w !! sid = Some doc
    /\ body_join_token body = Some (join_token doc)
    /\ body_user_id body = Some uid /\ uid <> ""
    /\ body_prekey_bundle body ≫= decode_bundle = Some bundle
    /\ committed now tok sid uid bundle doc w = (w2, None)
    /\ stored_doc now uid bundle doc = Some server
    /\ servers_col w2 !! sid = Some server
    /\ others_of uid (members server) = inr (others resp)
    /\ join_broadcast sid uid w2 = (w', None)
    /\ member_token resp = tok
    /\ response_admin_user_id resp = admin_user_id server.
Proof.
  intros H. apply join_server_cases in H.
  destruct H as [[_ (code & detail & [=])]
                |(doc & uid & bundle & w2 & oc & Hdoc & Htok & Huid & Hne & Hd & Hc & H)].
  destruct oc as [e|]; [destruct H as [_ [=]]|].
  destruct H as (server & Hs & H).
  destruct (others_of uid (members server)) as [e|ots] eqn:Ho; [destruct H as [_ [=]]|].
  destruct H as (oe & Hb & Hr). destruct oe as [e|]; [discriminate|].
  injection Hr as ->.
  destruct (committed_cases _ _ _ _ _ _ _ _ _ Hdoc Hc)
    as (_ & _ & [[_ [?|[?|?]]]|(server' & Hst & Hs' & _)]); try discriminate.
  assert (server' = server) as -> by congruence.
  exists doc, uid, bundle, w2, server. cbn. repeat (split; [assumption|]).
  split; reflexivity.
Qed.

(** What any join does to the state: the runtime tables and the other
    rooms are as they were but for the deliveries; in its room either the
    two documents are stamped and no more, or the server document is the
    stored one and the tokens document is stamped or holds the token. *)
Lemma join_server_effect now tok sid body (w w' : World) r :
  join_server now tok sid body w = (w', r) ->
  (connected w' = connected w /\ rate_limits w' = rate_limits w
   /\ ip_connections w' = ip_connections w /\ broken w' = broken w
   /\ exists d, delivered w' = delivered w ++ d)
  /\ (forall sid', sid' <> sid ->
        servers_col w' !! sid' = servers_col w !! sid'
        /\ member_tokens_col w' !! sid' = member_tokens_col w !! sid')
  /\ ((servers_col w' !! sid = touch_server now <$> servers_col w !! sid
       /\ member_tokens_col w' !! sid = touch_tokens now <$> member_tokens_col w !! sid
       /\ forall resp, r <> Return resp)
      \/ exists doc uid bundle server,
           servers_col w !! sid = Some doc
           /\ body_user_id body = Some uid
           /\ body_prekey_bundle body ≫= decode_bundle = Some bundle
           /\ stored_doc now uid bundle doc = Some server
           /\ servers_col w' !! sid = Some server
           /\ ((member_tokens_col w' !! sid
                = touch_tokens now <$> member_tokens_col w !! sid
                /\ r = Raise WriteError)
               \/ match member_tokens_col w !! sid with
                  | None => member_tokens_col w' !! sid = None
                  | Some tdoc =>
                      exists tdoc',
                        store_token uid tok (touch_tokens now tdoc) = Some tdoc'
                        /\ member_tokens_col w' !! sid = Some tdoc'
                  end)).
Proof.
  intros H.
  assert (Hstamp : forall w0 : World, w0 = update_activity now sid w ->
            (connected w0 = connected w /\ rate_limits w0 = rate_limits w
             /\ ip_connections w0 = ip_connections w /\ broken w0 = broken w
             /\ exists d, delivered w0 = delivered w ++ d)
            /\ (forall sid', sid' <> sid ->
                  servers_col w0 !! sid' = servers_col w !! sid'
                  /\ member_tokens_col w0 !! sid' = member_tokens_col w !! sid')
            /\ servers_col w0 !! sid = touch_server now <$> servers_col w !! sid
            /\ member_tokens_col w0 !! sid
               = touch_tokens now <$> member_tokens_col w !! sid).
  { intros w0 ->. split.
    - repeat split. exists []. now rewrite app_nil_r.
    - split; [|split].
      + intros sid' Hne. split.
        * apply StoreFacts.lookup_servers_update_activity_ne. congruence.
        * apply StoreFacts.lookup_tokens_update_activity_ne. congruence.
      + apply StoreFacts.lookup_servers_update_activity.
      + apply StoreFacts.lookup_tokens_update_activity. }
  apply join_server_cases in H.
  destruct H as [[Hw (code & detail & ->)]
                |(doc & uid & bundle & w2 & oc & Hdoc & _ & Huid & _ & Hd & Hc & H)].
  { destruct (Hstamp w' Hw) as (Hf & Ho & Hs & Ht).
    split; [exact Hf|]. split; [exact Ho|]. left. split; [exact Hs|]. split; [exact Ht|].
    discriminate. }
  destruct (committed_cases _ _ _ _ _ _ _ _ _ Hdoc Hc)
    as ((Hc2 & Hr2 & Hi2 & Hb2 & Hd2) & Ho2 & Hcases).
  assert (Hw' : connected w' = connected w2 /\ rate_limits w' = rate_limits w2
                /\ ip_connections w' = ip_connections w2 /\ broken w' = broken w2
                /\ (exists d, delivered w' = delivered w2 ++ d)
                /\ servers_col w' = servers_col w2
                /\ member_tokens_col w' = member_tokens_col w2
                /\ (oc = Some WriteError -> r = Raise WriteError)
                /\ ((exists resp, r = Return resp) -> oc = None)).
  { assert (Hid : connected w2 = connected w2 /\ rate_limits w2 = rate_limits w2
                  /\ ip_connections w2 = ip_connections w2 /\ broken w2 = broken w2
                  /\ (exists d, delivered w2 = delivered w2 ++ d)
                  /\ servers_col w2 = servers_col w2
                  /\ member_tokens_col w2 = member_tokens_col w2).
    { repeat split. exists []. now rewrite app_nil_r. }
    destruct oc as [e|].
    - destruct H as [-> ->]. destruct Hid as (?&?&?&?&?&?&?).
      repeat (split; [assumption|]). split; [congruence|]. intros [resp [=]].
    - destruct H as (server & Hs & H).
      destruct (others_of uid (members server)) as [e|ots].
      + destruct H as [-> ->]. destruct Hid as (?&?&?&?&?&?&?).
        repeat (split; [assumption|]). split; [discriminate|reflexivity].
      + destruct H as (oe & Hb & _).
        destruct (join_broadcast_frame sid uid w2) as [d Hfr].
        rewrite Hb in Hfr. cbn [fst] in Hfr. subst w'.
        repeat split. exists d. reflexivity. discriminate. }
  destruct Hw' as (Hc' & Hr' & Hi' & Hb' & [d Hd'] & Hs' & Ht' & Hwe & Hret).
  split.
  { rewrite Hc', Hr', Hi', Hb', Hd', Hd2. repeat split; try assumption. eauto. }
  split.
  { intros sid' Hne. rewrite Hs', Ht'. now apply Ho2. }
  rewrite Hs', Ht'.
  destruct Hcases as [[-> Hoc]|(server & Hst & Hs2 & Htok)].
  - left. split; [apply StoreFacts.lookup_servers_update_activity|].
    split; [apply StoreFacts.lookup_tokens_update_activity|].
    intros resp Hr. assert (oc = None) by (apply Hret; eauto).
    destruct Hoc as [?|[?|?]]; congruence.
  - right. exists doc, uid, bundle, server.
    repeat (split; [assumption|]).
    destruct Htok as [[Hoc Ht2]|[_ Ht2]]; [left|right; exact Ht2].
    split; [exact Ht2|now apply Hwe].
Qed.

(** A join whose checks pass, whose two updates the store takes and whose
    loop over the members raises nothing, broadcasts. *)
Lemma join_server_accepted now tok sid body (w w2 : World) doc uid bundle server ots :
  servers_col w !! sid = Some doc ->
  body_join_token body = Some (join_token doc) ->
  body_user_id body = Some uid -> uid <> "" ->
  body_prekey_bundle body ≫= decode_bundle = Some bundle ->
  committed now tok sid uid bundle doc w = (w2, None) ->
  servers_col w2 !! sid = Some server ->
  others_of uid (members server) = inr ots ->
  join_server now tok sid body w =
  match join_broadcast sid uid w2 with
  | (w3, Some e) => (w3, Raise e)
  | (w3, None) =>
      (w3, Return {| member_token := tok; others := ots;
                     response_admin_user_id := admin_user_id server |})
  end.
Proof.
  intros Hdoc Htok Huid Hne Hd Hc Hs Ho. rewrite (join_server_found _ _ _ _ _ doc Hdoc).
  cbv zeta. rewrite bool_decide_eq_true_2 by exact Htok. cbn [negb]. rewrite Huid.
  assert (truthy (Some uid) = true) as ->.
  { unfold truthy. destruct (String.eqb_spec uid ""); [contradiction|reflexivity]. }
  cbn [negb].
  assert (prekey_missing (body_prekey_bundle body) = false) as ->.
  { destruct (body_prekey_bundle body) as [p|]; [|discriminate].
    destruct (prekey_missing (Some p)) eqn:E; [|reflexivity].
    simpl in Hd. rewrite (prekey_missing_decode p E) in Hd. discriminate. }
  rewrite Hd. cbn [default from_option id]. rewrite Hc, Hs, Ho. reflexivity.
Qed.

(** The store takes the two updates of a join as a plain id, with a
    registration id of eight bytes. *)
Lemma committed_plain now tok sid uid bundle doc (w : World) :
  plain_id uid = true -> fits_int64 (registration_id bundle) = true ->
  servers_col w !! sid = Some doc ->
  exists w2,
    committed now tok sid uid bundle doc w = (w2, None)
    /\ servers_col w2 !! sid
       = Some {| join_token := join_token doc;
                 admin_user_id := Some (default uid (admin_user_id doc));
                 members := Dict.set uid (bundle_doc bundle) (members doc);
                 created_at := created_at doc; last_activity := now |}
    /\ member_tokens_col w2 !! sid
       = (fun tdoc => {| tokens := Dict.set uid (VStr tok) (tokens tdoc);
                         tokens_created_at := tokens_created_at tdoc;
                         tokens_last_activity := now |}) <$> member_tokens_col w !! sid.
Proof.
  intros Hplain Hfits Hdoc.
  assert (Hex : exists w2, committed now tok sid uid bundle doc w = (w2, None)).
  { unfold committed, join_commit.
    rewrite (proj2 (proj2 (PathFacts.plain_id_spec uid Hplain))), Hfits. cbn [negb].
    destruct (update_one _ sid (servers_col (update_activity now sid w)))
      as [col|] eqn:E1.
    2: { apply PathFacts.update_one_None in E1. destruct E1 as (d & Hd & Hf).
         rewrite StoreFacts.lookup_servers_update_activity, Hdoc in Hd.
         injection Hd as <-. change (stored_doc now uid bundle doc = None) in Hf.
         rewrite (stored_doc_plain now uid bundle doc Hplain) in Hf. discriminate. }
    cbn [member_tokens_col with_servers_col].
    destruct (update_one _ sid (member_tokens_col (update_activity now sid w)))
      as [tcol|] eqn:E2; [eauto|].
    apply PathFacts.update_one_None in E2. destruct E2 as (d & _ & Hf).
    rewrite (store_token_plain uid tok d Hplain) in Hf. discriminate. }
  destruct Hex as [w2 Hc]. exists w2. split; [exact Hc|].
  destruct (committed_cases _ _ _ _ _ _ _ _ _ Hdoc Hc)
    as (_ & _ & [[_ [?|[?|?]]]|(server & Hst & Hs & [[? _]|[_ Ht]])]); try discriminate.
  rewrite (stored_doc_plain now uid bundle doc Hplain) in Hst. injection Hst as <-.
  split; [exact Hs|].
  destruct (member_tokens_col w !! sid) as [tdoc|]; [|exact Ht].
  destruct Ht as (tdoc' & Hstore & ->).
  rewrite (store_token_plain uid tok _ Hplain) in Hstore. injection Hstore as <-.
  reflexivity.
Qed.

(** For a user id without a dot, the store that took the first update of
    a join takes the second. *)
Lemma committed_dotless now tok sid uid bundle doc (w w2 : World) e server :
  split_path uid = [uid] ->
  servers_col w !! sid = Some doc ->
  stored_doc now uid bundle doc = Some server ->
  committed now tok sid uid bundle doc w = (w2, Some e) ->
  w2 = update_activity now sid w /\ (e = InvalidDocument \/ e = OverflowError).
Proof.
  intros Hplain Hdoc Hst H. unfold committed, join_commit in H.
  destruct (has_nul uid); [injection H as <- <-; auto|].
  destruct (negb (fits_int64 (registration_id bundle))); [injection H as <- <-; auto|].
  exfalso.
  destruct (update_one _ sid (servers_col (update_activity now sid w))) as [col|] eqn:E1.
  2: { apply PathFacts.update_one_None in E1. destruct E1 as (d & Hd & Hf).
       rewrite StoreFacts.lookup_servers_update_activity, Hdoc in Hd.
       injection Hd as <-. change (stored_doc now uid bundle doc = None) in Hf.
       congruence. }
  cbn [member_tokens_col with_servers_col] in H.
  destruct (update_one _ sid (member_tokens_col (update_activity now sid w)))
    as [tcol|] eqn:E2; [discriminate|].
  apply PathFacts.update_one_None in E2. destruct E2 as (d & _ & Hf).
  destruct (stored_doc_Some _ _ _ _ _ Hst) as (_ & _ & _ & _ & Hset).
  unfold store_token in Hf.
  now rewrite (PathFacts.set_field_dotless_total _ _ _ _ Hplain Hset) in Hf.
Qed.

(** What the store holds once it has taken the two updates of a join. *)
Lemma committed_stored now tok sid uid bundle doc (w w2 : World) :
  servers_col w !! sid = Some doc ->
  committed now tok sid uid bundle doc w = (w2, None) ->
  exists server,
    stored_doc now uid bundle doc = Some server
    /\ servers_col w2 !! sid = Some server
    /\ admin_user_id server = Some (default uid (admin_user_id doc))
    /\ get_path (split_path uid) (members server) = Some (bundle_doc bundle)
    /\ (forall tdoc, member_tokens_col w !! sid = Some tdoc ->
          exists tdoc', member_tokens_col w2 !! sid = Some tdoc'
                        /\ get_path (split_path uid) (tokens tdoc') = Some (VStr tok)).
Proof.
  intros Hdoc Hc.
  destruct (committed_cases _ _ _ _ _ _ _ _ _ Hdoc Hc)
    as (_ & _ & [[_ [?|[?|?]]]|(server & Hst & Hs & [[? _]|[_ Ht]])]); try discriminate.
  exists server. split; [exact Hst|]. split; [exact Hs|].
  destruct (stored_doc_Some _ _ _ _ _ Hst) as (_ & _ & _ & Ha & Hset).
  split; [exact Ha|]. split; [exact (PathFacts.get_set_field _ _ _ _ Hset)|].
  intros tdoc Htd. rewrite Htd in Ht. destruct Ht as (tdoc' & Hstore & Hl).
  exists tdoc'. split; [exact Hl|].
  apply store_token_Some in Hstore. destruct Hstore as (_ & _ & Hset').
  exact (PathFacts.get_set_field _ _ _ _ Hset').
Qed.

(** A join answered with an HTTP error has failed one of the checks of
    lines 90 to 112: it has done nothing but stamp the room. *)
Lemma join_server_rejected now tok sid body (w w' : World) code detail :
  join_server now tok sid body w = (w', HTTPException code detail) ->
  (code = 404 \/ code = 401 \/ code = 400)%Z /\ w' = update_activity now sid w.
Proof.
  intros H. destruct (servers_col w !! sid) as [doc|] eqn:Hdoc.
  - rewrite (join_server_found _ _ _ _ _ doc Hdoc) in H. cbv zeta in H.
    destruct (negb (bool_decide _)); [injection H as <- <- _; auto|].
    destruct (negb (truthy _)); [injection H as <- <- _; auto|].
    destruct (prekey_missing _); [injection H as <- <- _; auto|].
    destruct (body_prekey_bundle body ≫= decode_bundle);
      [|injection H as <- <- _; auto].
    destruct (committed _ _ _ _ _ _ _) as [w2 [e|]]; [discriminate|].
    destruct (servers_col w2 !! sid) as [server|]; [|discriminate].
    destruct (others_of _ _); [discriminate|].
    destruct (join_broadcast _ _ _) as [w3 [e|]]; discriminate.
  - rewrite join_server_missing in H by exact Hdoc. injection H as <- <- _. auto.
Qed.

(** C6 (as the code has it). A join of an unknown room is answered 404;
    of a known room with another join token than the stored one, 401;
    with the right token but no user_id, no prekey bundle, or a bundle
    with a key missing or a key field that does not decode, 400; in that
    order of precedence. A join answered with one of these errors has
    changed nothing in the store but the activity stamp of the room: no
    member, admin or token of any room. *)
Theorem join_rejections now tok sid body (w : World) :
  (servers_col w !! sid = None ->
   join_server now tok sid body w
   = (update_activity now sid w, HTTPException 404 "Server not found"))
  /\ (forall doc, servers_col w !! sid = Some doc ->
      body_join_token body <> Some (join_token doc) ->
      join_server now tok sid body w
      = (update_activity now sid w, HTTPException 401 "Invalid join token"))
  /\ (forall doc, servers_col w !! sid = Some doc ->
      body_join_token body = Some (join_token doc) ->
      (body_user_id body = None \/ body_user_id body = Some ""
       \/ body_prekey_bundle body = None
       \/ exists p, body_prekey_bundle body = Some p
                    /\ (pk_registration_id p = None
                        \/ pk_identity p ≫= b64decode = None
                        \/ pk_signed_prekey p ≫= b64decode = None
                        \/ pk_signed_prekey_sig p ≫= b64decode = None
                        \/ pk_one_time_prekey p ≫= b64decode = None)) ->
      exists detail,
        join_server now tok sid body w
        = (update_activity now sid w, HTTPException 400 detail))
  /\ (forall w' code detail,
      join_server now tok sid body w = (w', HTTPException code detail) ->
      (code = 404 \/ code = 401 \/ code = 400)%Z
      /\ w' = update_activity now sid w
      /\ delivered w' = delivered w
      /\ forall sid',
          admin_user_id <$> servers_col w' !! sid' = admin_user_id <$> servers_col w !! sid'
          /\ members <$> servers_col w' !! sid' = members <$> servers_col w !! sid'
          /\ tokens <$> member_tokens_col w' !! sid'
             = tokens <$> member_tokens_col w !! sid').
Proof.
  repeat apply conj.
  - apply join_server_missing.
  - intros doc Hdoc Htok. rewrite (join_server_found _ _ _ _ _ doc Hdoc). cbv zeta.
    rewrite bool_decide_eq_false_2 by exact Htok. reflexivity.
  - intros doc Hdoc Htok Hbad. rewrite (join_server_found _ _ _ _ _ doc Hdoc). cbv zeta.
    rewrite bool_decide_eq_true_2 by exact Htok. cbn [negb].
    destruct (truthy (body_user_id body)) eqn:Hu; cbn [negb]; [|eauto].
    destruct (prekey_missing (body_prekey_bundle body)) eqn:Hp; [eauto|].
    destruct (body_prekey_bundle body ≫= decode_bundle) as [bundle|] eqn:Hd; [|eauto].
    exfalso. destruct Hbad as [H|[H|[H|(p & H & Hf)]]].
    + rewrite H in Hu. discriminate.
    + rewrite H in Hu. discriminate.
    + rewrite H in Hp. discriminate.
    + rewrite H in Hd. simpl in Hd. rewrite (decode_bundle_None p Hf) in Hd. discriminate.
  - intros w' code detail H.
    destruct (join_server_rejected _ _ _ _ _ _ _ _ H) as [Hc ->].
    split; [exact Hc|]. split; [reflexivity|].
    split; [reflexivity|]. intros sid'.
    destruct (StoreFacts.update_activity_keeps now sid sid' w) as (_ & Ha & Hm & Ht).
    auto.
Qed.

(** The loop of lines 126 to 135, from any dictionary built so far, when
    it raises nothing. *)
Lemma others_loop_get uid (ms : list (string * Value)) : forall acc ots,
  List.NoDup (map fst ms) ->
  others_loop uid ms acc = inr ots ->
  Dict.get uid ots = Dict.get uid acc
  /\ forall u, u <> uid ->
       match Dict.get u ms with
       | Some v => exists p, encoded v = inr p /\ Dict.get u ots = Some p
       | None => Dict.get u ots = Dict.get u acc
       end.
Proof.
  induction ms as [|[k b] ms IH]; intros acc ots Hnd; cbn [others_loop Dict.get].
  - intros [= <-]. auto.
  - cbn [map fst] in Hnd. apply List.NoDup_cons_iff in Hnd. destruct Hnd as [Hk Hnd].
    destruct (String.eqb_spec k uid) as [->|Hku]; cbn [negb].
    + intros H. destruct (IH acc ots Hnd H) as [Hself Hoth]. split; [exact Hself|].
      intros u Hu. destruct (String.eqb_spec u uid); [contradiction|]. now apply Hoth.
    + unfold and_then. destruct (encoded b) as [e|p] eqn:Eb; [discriminate|].
      intros H. destruct (IH _ ots Hnd H) as [Hself Hoth]. split.
      * rewrite Hself. apply DictFacts.get_set_ne. exact Hku.
      * intros u Hu. destruct (String.eqb_spec u k) as [->|Huk].
        -- exists p. split; [exact Eb|]. specialize (Hoth k Hu).
           rewrite (DictFacts.get_None_keys k ms Hk) in Hoth. rewrite Hoth.
           apply DictFacts.get_set_eq.
        -- specialize (Hoth u Hu). destruct (Dict.get u ms); [exact Hoth|].
           rewrite Hoth. apply DictFacts.get_set_ne. congruence.
Qed.

Lemma others_of_get uid (ms : list (string * Value)) ots :
  List.NoDup (map fst ms) ->
  others_of uid ms = inr ots ->
  Dict.get uid ots = None
  /\ forall u, u <> uid ->
       match Dict.get u ms with
       | Some v => exists p, encoded v = inr p /\ Dict.get u ots = Some p
       | None => Dict.get u ots = None
       end.
Proof. intros Hnd H. exact (others_loop_get uid ms [] ots Hnd H). Qed.

(** The servers collection after a join that returned. *)
Lemma join_server_returns_doc now tok sid body (w w' : World) resp :
  join_server now tok sid body w = (w', Return resp) ->
  exists doc uid bundle server,
    servers_col w !! sid = Some doc
    /\ body_user_id body = Some uid /\ uid <> ""
    /\ body_prekey_bundle body ≫= decode_bundle = Some bundle
    /\ stored_doc now uid bundle doc = Some server
    /\ servers_col w' !! sid = Some server
    /\ others_of uid (members server) = inr (others resp)
    /\ member_token resp = tok
    /\ response_admin_user_id resp = Some (default uid (admin_user_id doc)).
Proof.
  intros H. apply join_server_returns in H.
  destruct H as (doc & uid & bundle & w2 & server & Hdoc & _ & Huid & Hne & Hd & _
                 & Hst & Hs & Ho & Hb & Hm & Ha).
  exists doc, uid, bundle, server.
  destruct (join_broadcast_store sid uid w2) as (Hs2 & _ & _).
  rewrite Hb in Hs2. cbn [fst] in Hs2. rewrite Hs2.
  repeat (split; [assumption|]).
  rewrite Ha. now apply (stored_doc_Some now uid bundle doc server).
Qed.

(** C7. The [others] of a join response has no entry for the member who
    joined and, for every other key of the members dictionary that the
    room records after the join, the base64 form of what is recorded
    under that key, and nothing else; an entry carries the recorded
    registration id, and its four key fields decode to the recorded
    bytes, byte for byte; for a member recorded by a join it decodes to
    the bundle that join decoded. (The members dictionary of the room has
    distinct keys, as it has in every state the requests can reach.) *)
Theorem join_response_others now tok sid body (w w' : World) resp :
  (forall doc, servers_col w !! sid = Some doc -> List.NoDup (map fst (members doc))) ->
  join_server now tok sid body w = (w', Return resp) ->
  exists uid server,
    body_user_id body = Some uid
    /\ servers_col w' !! sid = Some server
    /\ Dict.get uid (others resp) = None
    /\ (forall u, u <> uid ->
          match Dict.get u (members server) with
          | Some v => exists p, encoded v = inr p /\ Dict.get u (others resp) = Some p
          | None => Dict.get u (others resp) = None
          end)
    /\ (forall u p, Dict.get u (others resp) = Some p ->
          exists fields i sp sig otp,
            Dict.get u (members server) = Some (VDoc fields)
            /\ Dict.get "registration_id" fields = Some (enc_registration_id p)
            /\ Dict.get "identity" fields = Some (VBytes i)
            /\ Dict.get "signed_prekey" fields = Some (VBytes sp)
            /\ Dict.get "signed_prekey_sig" fields = Some (VBytes sig)
            /\ Dict.get "one_time_prekey" fields = Some (VBytes otp)
            /\ b64decode (enc_identity p) = Some i
            /\ b64decode (enc_signed_prekey p) = Some sp
            /\ b64decode (enc_signed_prekey_sig p) = Some sig
            /\ b64decode (enc_one_time_prekey p) = Some otp)
    /\ (forall u b, u <> uid -> Dict.get u (members server) = Some (bundle_doc b) ->
          Dict.get u (others resp) = Some (encode_bundle b)
          /\ decode_bundle (as_request (encode_bundle b)) = Some b).
Proof.
  intros Hwf H.
  destruct (join_server_returns_doc _ _ _ _ _ _ _ H)
    as (doc & uid & bundle & server & Hdoc & Huid & _ & _ & Hst & Hs & Ho & _).
  assert (Hnd : List.NoDup (map fst (members server))).
  { destruct (stored_doc_Some _ _ _ _ _ Hst) as (_ & _ & _ & _ & Hset).
    destruct (PathFacts.set_field_head _ _ _ _ Hset) as [v' ->].
    apply DictFacts.NoDup_keys_set. exact (Hwf doc Hdoc). }
  destruct (others_of_get uid (members server) (others resp) Hnd Ho) as [Hself Hoth].
  exists uid, server. split; [exact Huid|]. split; [exact Hs|]. split; [exact Hself|].
  split; [exact Hoth|]. split.
  - intros u p Hp. destruct (String.eqb_spec u uid) as [->|Hu]; [congruence|].
    specialize (Hoth u Hu). destruct (Dict.get u (members server)) as [v|]; [|congruence].
    destruct Hoth as (p' & Hp' & Hg). assert (p' = p) as -> by congruence.
    destruct (encoded_inv v p Hp')
      as (fields & i & sp & sig & otp & -> & H0 & H1 & H2 & H3 & H4 & E1 & E2 & E3 & E4).
    exists fields, i, sp, sig, otp. rewrite E1, E2, E3, E4.
    rewrite !Base64Facts.b64decode_b64encode. repeat split; assumption.
  - intros u b Hu Hb. specialize (Hoth u Hu). rewrite Hb in Hoth.
    destruct Hoth as (p & Hp & Hg). rewrite encoded_bundle_doc in Hp.
    injection Hp as <-. split; [exact Hg|apply decode_encode_bundle].
Qed.

End JoinFacts.
(** ** The activity stamp of a request *)

Module ActivityFacts.
Import Backend.

(** Whatever a join does, the documents of its room carry the time of the
    request afterwards. *)
Lemma join_server_stamps now tok sid body (w w' : World) r :
  join_server now tok sid body w = (w', r) ->
  (forall doc, servers_col w !! sid = Some doc ->
     exists doc', servers_col w' !! sid = Some doc' /\ last_activity doc' = now)
  /\ (forall tdoc, member_tokens_col w !! sid = Some tdoc ->
     exists tdoc', member_tokens_col w' !! sid = Some tdoc'
                   /\ tokens_last_activity tdoc' = now).
Proof.
  intros H. apply JoinFacts.join_server_effect in H.
  destruct H as (_ & _ & [(Hs & Ht & _)
                         |(doc & uid & bundle & server & Hdoc & _ & _ & Hst & Hs & Ht)]).
  - split.
    + intros doc Hdoc. rewrite Hs, Hdoc. eexists. split; reflexivity.
    + intros tdoc Htd. rewrite Ht, Htd. eexists. split; reflexivity.
  - split.
    + intros doc0 _. exists server. split; [exact Hs|].
      now apply (JoinFacts.stored_doc_Some now uid bundle doc server).
    + intros tdoc Htd. rewrite Htd in Ht. destruct Ht as [[Ht _]|(tdoc' & Hstore & Ht)].
      * rewrite Ht. eexists. split; reflexivity.
      * exists tdoc'. split; [exact Ht|].
        apply JoinFacts.store_token_Some in Hstore. now destruct Hstore as (_ & -> & _).
Qed.

(** A connection request writes nothing to the store but the stamp. *)
Lemma ws_connect_store now ws sid tok cf host (w : World) :
  servers_col (fst (ws_connect now ws sid tok cf host w))
  = servers_col (update_activity now sid w)
  /\ member_tokens_col (fst (ws_connect now ws sid tok cf host w))
    = member_tokens_col (update_activity now sid w).
Proof.
  unfold ws_connect.
  destruct (servers_col (update_activity now sid w) !! sid); [|auto].
  destruct (match member_tokens_col (update_activity now sid w) !! sid with
            | Some tokens_doc => find_user tok (tokens tokens_doc)
            | None => None
            end); [|auto].
  destruct (admit_ip _ _) as [ic [|]]; auto.
Qed.

Lemma ws_connect_closed_1008 now ws sid tok cf host (w w' : World) :
  ws_connect now ws sid tok cf host w = (w', Closed 1008) ->
  w' = update_activity now sid w.
Proof.
  unfold ws_connect.
  destruct (servers_col (update_activity now sid w) !! sid); [|congruence].
  destruct (match member_tokens_col (update_activity now sid w) !! sid with
            | Some tokens_doc => find_user tok (tokens tokens_doc)
            | None => None
            end); [|congruence].
  destruct (admit_ip _ _) as [ic [|]]; discriminate.
Qed.

Lemma activity_stamp_lookup now sid uid (w : World) :
  fst (get_prekey now sid uid w) = update_activity now sid w.
Proof.
  unfold get_prekey.
  destruct (servers_col (update_activity now sid w) !! sid) as [server|]; [|reflexivity].
  destruct (Dict.get uid (members server)) as [b|]; [|reflexivity].
  destruct (encoded b); reflexivity.
Qed.

(** C10. A join, a prekey lookup and a connection request stamp the room
    with the time of the request before anything is checked: the two
    documents of an existing room carry that time afterwards whatever the
    outcome, and a join answered with an error, a prekey lookup (found or
    not), and a connection request leave the store as the stamp alone
    leaves it; a connection closed for an unknown room or member token
    leaves the whole state so. *)
Theorem activity_stamp_first now sid (w : World) :
  (forall doc, servers_col w !! sid = Some doc ->
     servers_col (update_activity now sid w) !! sid = Some (touch_server now doc)
     /\ last_activity (touch_server now doc) = now)
  /\ (forall tdoc, member_tokens_col w !! sid = Some tdoc ->
     member_tokens_col (update_activity now sid w) !! sid = Some (touch_tokens now tdoc)
     /\ tokens_last_activity (touch_tokens now tdoc) = now)
  /\ (forall tok body w' r, join_server now tok sid body w = (w', r) ->
     (forall doc, servers_col w !! sid = Some doc ->
        exists doc', servers_col w' !! sid = Some doc' /\ last_activity doc' = now)
     /\ (forall tdoc, member_tokens_col w !! sid = Some tdoc ->
        exists tdoc', member_tokens_col w' !! sid = Some tdoc'
                      /\ tokens_last_activity tdoc' = now)
     /\ (forall code detail, r = HTTPException code detail ->
        w' = update_activity now sid w))
  /\ (forall uid, fst (get_prekey now sid uid w) = update_activity now sid w)
  /\ (forall ws tok cf host,
     servers_col (fst (ws_connect now ws sid tok cf host w))
     = servers_col (update_activity now sid w)
     /\ member_tokens_col (fst (ws_connect now ws sid tok cf host w))
       = member_tokens_col (update_activity now sid w)
     /\ (forall w', ws_connect now ws sid tok cf host w = (w', Closed 1008) ->
         w' = update_activity now sid w)).
Proof.
  repeat apply conj.
  - intros doc H. rewrite StoreFacts.lookup_servers_update_activity, H. split; reflexivity.
  - intros tdoc H. rewrite StoreFacts.lookup_tokens_update_activity, H. split; reflexivity.
  - intros tok body w' r H.
    destruct (join_server_stamps _ _ _ _ _ _ _ H) as [Hs Ht].
    split; [exact Hs|]. split; [exact Ht|].
    intros code detail ->.
    exact (proj2 (JoinFacts.join_server_rejected _ _ _ _ _ _ _ _ H)).
  - intros uid. apply activity_stamp_lookup.
  - intros ws tok cf host.
    destruct (ws_connect_store now ws sid tok cf host w) as [Hs Ht].
    split; [exact Hs|]. split; [exact Ht|].
    intros w'. apply ws_connect_closed_1008.
Qed.

End ActivityFacts.

(** ** The WebSocket endpoint *)

Module EndpointFacts.
Import Backend.

Lemma connected_ws_teardown s (w : World) :
  connected (fst (ws_teardown s w))
  = unregister (session_server_id s) (session_user_id s) (connected w).
Proof.
  unfold ws_teardown. cbn [ip_connections with_connected].
  destruct (release_ip _ _); reflexivity.
Qed.

Lemma unregister_same sid uid (c : gmap string (list (string * WebSocket))) :
  unregister sid uid c !! sid ≫= Dict.get uid = None.
Proof.
  unfold unregister. destruct (c !! sid) as [room|] eqn:E.
  - unfold Dict.mem. destruct (Dict.get uid room) eqn:G.
    + rewrite lookup_alter_eq, E. simpl. apply DictFacts.get_del_eq.
    + rewrite E. simpl. exact G.
  - now rewrite E.
Qed.

Lemma unregister_other sid uid sid' uid' (c : gmap string (list (string * WebSocket))) :
  (sid', uid') <> (sid, uid) ->
  unregister sid uid c !! sid' ≫= Dict.get uid' = c !! sid' ≫= Dict.get uid'.
Proof.
  intros Hne. unfold unregister. destruct (c !! sid) as [room|] eqn:E; [|reflexivity].
  destruct (Dict.mem uid room); [|reflexivity].
  destruct (decide (sid = sid')) as [<-|Hs].
  - rewrite lookup_alter_eq, E. simpl. apply DictFacts.get_del_ne. congruence.
  - now rewrite lookup_alter_ne.
Qed.

(** C1 (as the code has it). A teardown removes the registry entry of its
    (room, member) key whenever there is one, whichever socket the entry
    holds; the entries of all other keys stay as they are. *)
Theorem teardown_removes_by_key s (w : World) :
  conn_of (fst (ws_teardown s w)) (session_server_id s) (session_user_id s) = None
  /\ forall sid uid,
       (sid, uid) <> (session_server_id s, session_user_id s) ->
       conn_of (fst (ws_teardown s w)) sid uid = conn_of w sid uid.
Proof.
  unfold conn_of. rewrite connected_ws_teardown. split.
  - apply unregister_same.
  - intros sid uid. apply unregister_other.
Qed.

Section Endpoint.
Variable str_len : Frame -> Z.


(** A frame that passes the size check and both rate checks is dispatched
    from the world with the two timestamps recorded and the room stamped. *)
Lemma ws_receive_accepted s data now utcnow (w : World) rl1 rl2 :
  (str_len data <= SIZE_LIMIT)%Z ->
  is_rate_limited (session_user_id s) now (rate_limits w) = (rl1, false) ->
  is_rate_limited (session_ip s) now rl1 = (rl2, false) ->
  ws_receive str_len s data now utcnow w
  = dispatch (session_server_id s) data
      (update_activity utcnow (session_server_id s) (with_rate_limits rl2 w)).
Proof.
  intros Hsz H1 H2. unfold ws_receive.
  destruct (Z.ltb_spec SIZE_LIMIT (str_len data)); [lia|].
  rewrite H1. cbn [rate_limits with_rate_limits]. rewrite H2. reflexivity.
Qed.




Lemma dispatch_broadcast sid data (w : World) room :
  frame_type data = Some "group" \/ frame_type data = Some "join_notification" ->
  connected w !! sid = Some room ->
  dispatch sid data w = send_all (Dict.values room) (Relay data) w.
Proof.
  intros Ht Hr. unfold dispatch. rewrite Hr. destruct Ht as [-> | ->]; reflexivity.
Qed.



(** C2 (as the code has it). The sockets of a room are sent to in registry
    order and the first send that raises ends the loop: the sockets before
    it have been sent the frame, it and the sockets after it have not. In
    the receive loop the exception leaves the iteration and the loop, so
    the frames that follow are not read. In a join that has come to its
    broadcast (the store took its two updates and the loop over the
    members raised nothing) it leaves the handler in place of the
    response, with the bundle, the admin and the token already stored. *)
Theorem broadcast_stops_at_first_failure pre ws post e (w : World) :
  (forall x, In x pre -> broken w !! x = None) ->
  broken w !! ws = Some e ->
  (forall m,
     send_all (pre ++ ws :: post) m w
     = (with_delivered (delivered w ++ map (fun x => (x, m)) pre) w, Some e))
  /\ (forall s data now utcnow rl1 rl2 room rest,
      (str_len data <= SIZE_LIMIT)%Z ->
      is_rate_limited (session_user_id s) now (rate_limits w) = (rl1, false) ->
      is_rate_limited (session_ip s) now rl1 = (rl2, false) ->
      frame_type data = Some "group" \/ frame_type data = Some "join_notification" ->
      connected w !! session_server_id s = Some room ->
      Dict.values room = pre ++ ws :: post ->
      let w3 := update_activity utcnow (session_server_id s) (with_rate_limits rl2 w) in
      let w4 := with_delivered (delivered w ++ map (fun x => (x, Relay data)) pre) w3 in
      ws_receive str_len s data now utcnow w = (w4, Some e)
      /\ ws_loop str_len s (Recv data now utcnow :: rest) w = (w4, Some e))
  /\ (forall now tok sid body doc uid bundle room w2 server ots,
      servers_col w !! sid = Some doc ->
      body_join_token body = Some (join_token doc) ->
      body_user_id body = Some uid -> uid <> "" ->
      body_prekey_bundle body ≫= decode_bundle = Some bundle ->
      committed now tok sid uid bundle doc w = (w2, None) ->
      servers_col w2 !! sid = Some server ->
      others_of uid (members server) = inr ots ->
      connected w !! sid = Some room ->
      Dict.values room = pre ++ ws :: post ->
      join_server now tok sid body w
      = (with_delivered (delivered w ++ map (fun x => (x, JoinNotification uid)) pre) w2,
         Raise e)
      /\ admin_of w2 sid = Some (default uid (admin_user_id doc))
      /\ get_path (split_path uid) (members server) = Some (bundle_doc bundle)
      /\ (forall tdoc, member_tokens_col w !! sid = Some tdoc ->
            exists tdoc', member_tokens_col w2 !! sid = Some tdoc'
                          /\ get_path (split_path uid) (tokens tdoc')
                             = Some (VStr tok))).
Proof.
  intros Hpre Hws. split; [|split].
  - intros m. now apply SendFacts.send_all_raises.
  - intros s data now utcnow rl1 rl2 room rest Hsz H1 H2 Ht Hroom Hvals w3 w4.
    assert (E : ws_receive str_len s data now utcnow w = (w4, Some e)).
    { rewrite (ws_receive_accepted s data now utcnow w rl1 rl2 Hsz H1 H2). fold w3.
      rewrite (dispatch_broadcast (session_server_id s) data w3 room Ht Hroom), Hvals.
      now rewrite (SendFacts.send_all_raises pre ws post (Relay data) w3 e Hpre Hws). }
    split; [exact E|]. cbn [ws_loop]. now rewrite E.
  - intros now tok sid body doc uid bundle room w2 server ots
      Hdoc Htok Huid Hne Hd Hc Hs Ho Hroom Hvals.
    destruct (JoinFacts.committed_cases _ _ _ _ _ _ _ _ _ Hdoc Hc)
      as ((Hc2 & _ & _ & Hb2 & Hd2) & _ & _).
    destruct (JoinFacts.committed_stored _ _ _ _ _ _ _ _ Hdoc Hc)
      as (server' & _ & Hs' & Ha & Hm & Ht).
    assert (server' = server) as -> by congruence.
    split; [|split; [|split; [exact Hm|exact Ht]]].
    + rewrite (JoinFacts.join_server_accepted now tok sid body w w2 doc uid bundle
                 server ots Hdoc Htok Huid Hne Hd Hc Hs Ho).
      unfold join_broadcast. rewrite Hc2, Hroom, Hvals.
      rewrite (SendFacts.send_all_raises pre ws post (JoinNotification uid) w2 e).
      * now rewrite Hd2.
      * intros x Hx. rewrite Hb2. now apply Hpre.
      * now rewrite Hb2.
    + unfold admin_of. rewrite Hs. exact Ha.
Qed.

End Endpoint.
End EndpointFacts.

(** ** The admin of a room *)

Module AdminFacts.
Import Backend.

Lemma same_rooms_refl (w : World) : same_rooms w w.
Proof. repeat split. Qed.

Lemma same_rooms_trans (w1 w2 w3 : World) :
  same_rooms w1 w2 -> same_rooms w2 w3 -> same_rooms w1 w3.
Proof.
  intros (A1 & T1 & C1 & M1) (A2 & T2 & C2 & M2). repeat split.
  - intros sid. now rewrite A2, A1.
  - intros sid. now rewrite T2, T1.
  - now rewrite C2, C1.
  - intros sid. now rewrite M2, M1.
Qed.

Lemma same_rooms_update_activity now sid (w : World) :
  same_rooms w (update_activity now sid w).
Proof.
  repeat split.
  - intros sid'. apply StoreFacts.admin_of_update_activity.
  - intros sid'. apply StoreFacts.update_activity_keeps.
  - intros sid'. apply StoreFacts.update_activity_keeps.
Qed.

Lemma same_rooms_send_all wss m (w : World) : same_rooms w (fst (send_all wss m w)).
Proof.
  destruct (SendFacts.send_all_frame wss m w) as [d ->]. repeat split.
Qed.

Lemma same_rooms_send_json ws m (w : World) : same_rooms w (fst (send_json ws m w)).
Proof. unfold send_json. destruct (broken w !! ws); repeat split. Qed.

Lemma same_rooms_dispatch sid data (w : World) : same_rooms w (fst (dispatch sid data w)).
Proof.
  unfold dispatch.
  destruct (bool_decide (frame_type data = Some "private")).
  - destruct (truthy (frame_to data)); [|apply same_rooms_refl].
    destruct (connected w !! sid) as [room|]; [|apply same_rooms_refl].
    destruct (Dict.get _ room); [apply same_rooms_send_json|apply same_rooms_refl].
  - destruct (_ || _); [|apply same_rooms_refl].
    destruct (connected w !! sid) as [room|]; [|apply same_rooms_refl].
    apply same_rooms_send_all.
Qed.

Lemma no_admin_no_member_same (w w' : World) :
  same_rooms w w' -> no_admin_no_member w -> no_admin_no_member w'.
Proof.
  intros (A & T & C & _) Inv sid Hnone. rewrite A in Hnone.
  destruct (Inv sid Hnone) as [It Ic]. split.
  - intros tdoc Ht. specialize (T sid). rewrite Ht in T.
    destruct (member_tokens_col w !! sid) as [tdoc0|] eqn:E; [|discriminate].
    simpl in T. injection T as ->. now apply It.
  - intros room Hr. rewrite C in Hr. now apply Ic.
Qed.

Lemma admin_of_insert_fresh sid sid' doc (w : World) :
  servers_col w !! sid = None -> admin_user_id doc = None ->
  admin_of (with_servers_col (insert sid doc) w) sid' = admin_of w sid'.
Proof.
  intros Hnone Hadm. unfold admin_of. cbn [servers_col with_servers_col].
  destruct (decide (sid = sid')) as [<-|Hne].
  - rewrite lookup_insert_eq, Hnone. simpl. exact Hadm.
  - now rewrite lookup_insert_ne.
Qed.

Lemma admin_of_create_server sid tok now (w : World) sid' :
  admin_of (fst (create_server sid tok now w)) sid' = admin_of w sid'.
Proof.
  unfold create_server. destruct (servers_col w !! sid) eqn:Hs; [reflexivity|].
  cbn [member_tokens_col with_servers_col].
  destruct (member_tokens_col w !! sid);
    [now apply admin_of_insert_fresh|].
  cbn [connected with_member_tokens_col with_servers_col].
  destruct (connected w !! sid); cbn [fst]; now apply (admin_of_insert_fresh sid sid').
Qed.

Lemma no_admin_no_member_create_server sid tok now (w : World) :
  no_admin_no_member w -> no_admin_no_member (fst (create_server sid tok now w)).
Proof.
  intros Inv sid' Hnone. rewrite admin_of_create_server in Hnone.
  destruct (Inv sid' Hnone) as [It Ic].
  unfold create_server. destruct (servers_col w !! sid) eqn:Hs; [now split|].
  cbn [member_tokens_col with_servers_col].
  destruct (member_tokens_col w !! sid) eqn:Ht; [now split|].
  cbn [connected with_member_tokens_col with_servers_col].
  destruct (connected w !! sid) eqn:Hc; cbn [fst member_tokens_col connected
    with_connected with_member_tokens_col with_servers_col]; split.
  - intros tdoc. destruct (decide (sid = sid')) as [<-|Hne].
    + rewrite lookup_insert_eq. now intros [= <-].
    + rewrite lookup_insert_ne by exact Hne. apply It.
  - exact Ic.
  - intros tdoc. destruct (decide (sid = sid')) as [<-|Hne].
    + rewrite lookup_insert_eq. now intros [= <-].
    + rewrite lookup_insert_ne by exact Hne. apply It.
  - intros room. destruct (decide (sid = sid')) as [<-|Hne].
    + rewrite lookup_insert_eq. now intros [= <-].
    + rewrite lookup_insert_ne by exact Hne. apply Ic.
Qed.

Lemma same_rooms_join_broadcast sid uid (w : World) :
  same_rooms w (fst (join_broadcast sid uid w)).
Proof.
  unfold join_broadcast. destruct (connected w !! sid);
    [apply same_rooms_send_all|apply same_rooms_refl].
Qed.

(** The admin of a room over one join: the admin of another room and an
    admin that is set are kept; the member of a join that returns in a
    room without an admin is its admin afterwards. *)
Lemma join_server_admin now tok sid body (w w' : World) r :
  join_server now tok sid body w = (w', r) ->
  (forall sid', sid' <> sid -> admin_of w' sid' = admin_of w sid')
  /\ (forall a, admin_of w sid = Some a -> admin_of w' sid = Some a)
  /\ (forall resp, r = Return resp -> admin_of w sid = None ->
        admin_of w' sid = body_user_id body).
Proof.
  intros H. apply JoinFacts.join_server_effect in H.
  destruct H as (_ & Hoth & Hcases). unfold admin_of. split; [|split].
  - intros sid' Hne. now rewrite (proj1 (Hoth sid' Hne)).
  - intros a Ha.
    destruct Hcases as [(Hs & _ & _)|(doc & uid & bundle & server & Hdoc & _ & _ & Hst & Hs & _)].
    + rewrite Hs. destruct (servers_col w !! sid) as [doc|]; [|discriminate]. exact Ha.
    + rewrite Hs. rewrite Hdoc in Ha. cbn in *.
      rewrite (proj1 (proj2 (proj2 (proj2 (JoinFacts.stored_doc_Some _ _ _ _ _ Hst))))).
      now rewrite Ha.
  - intros resp -> Hn.
    destruct Hcases as [(_ & _ & Hr)|(doc & uid & bundle & server & Hdoc & Huid & _ & Hst & Hs & _)].
    + now destruct (Hr resp).
    + rewrite Hs. rewrite Hdoc in Hn. cbn in *.
      rewrite (proj1 (proj2 (proj2 (proj2 (JoinFacts.stored_doc_Some _ _ _ _ _ Hst))))).
      now rewrite Hn, Huid.
Qed.

Lemma no_admin_no_member_join_server now tok sid body (w : World) :
  no_admin_no_member w ->
  no_admin_no_member (fst (join_server now tok sid body w)).
Proof.
  intros Inv. destruct (join_server now tok sid body w) as [w' r] eqn:H. cbn [fst].
  apply JoinFacts.join_server_effect in H.
  destruct H as ((Hc & _) & Hoth & Hcases). intros sid' Hnone. rewrite Hc.
  destruct (decide (sid' = sid)) as [->|Hne].
  - destruct Hcases as [(Hs & Ht & _)|(doc & uid & bundle & server & Hdoc & _ & _ & Hst & Hs & _)].
    + assert (Hn : admin_of w sid = None).
      { unfold admin_of in *. rewrite Hs in Hnone.
        now destruct (servers_col w !! sid). }
      destruct (Inv sid Hn) as [It Ic]. split; [|exact Ic].
      intros tdoc. rewrite Ht.
      destruct (member_tokens_col w !! sid) as [t|] eqn:E; [|discriminate].
      intros [= <-]. cbn. now apply It.
    + exfalso. unfold admin_of in Hnone. rewrite Hs in Hnone. cbn in Hnone.
      rewrite (proj1 (proj2 (proj2 (proj2 (JoinFacts.stored_doc_Some _ _ _ _ _ Hst)))))
        in Hnone. discriminate.
  - destruct (Hoth sid' Hne) as [Hs Ht].
    assert (Hn : admin_of w sid' = None).
    { unfold admin_of in *. now rewrite Hs in Hnone. }
    destruct (Inv sid' Hn) as [It Ic]. split; [|exact Ic].
    intros tdoc. rewrite Ht. apply It.
Qed.

Lemma find_user_Some tok ts u : find_user tok ts = Some u -> ts <> [].
Proof. destruct ts; [discriminate|discriminate]. Qed.

Lemma same_rooms_with_ip_connections ic (w : World) :
  same_rooms w (with_ip_connections ic w).
Proof. repeat split. Qed.

Lemma ws_connect_admin now ws sid tok cf host (w : World) sid' :
  admin_of (fst (ws_connect now ws sid tok cf host w)) sid' = admin_of w sid'.
Proof.
  unfold admin_of.
  rewrite (proj1 (ActivityFacts.ws_connect_store now ws sid tok cf host w)).
  apply StoreFacts.admin_of_update_activity.
Qed.

Lemma no_admin_no_member_ws_connect now ws sid tok cf host (w : World) :
  no_admin_no_member w ->
  no_admin_no_member (fst (ws_connect now ws sid tok cf host w)).
Proof.
  intros Inv.
  pose proof (no_admin_no_member_same _ _ (same_rooms_update_activity now sid w) Inv)
    as Inv1.
  unfold ws_connect.
  destruct (servers_col (update_activity now sid w) !! sid) as [server|]; [|exact Inv1].
  destruct (member_tokens_col (update_activity now sid w) !! sid) as [tdoc|] eqn:Ht;
    [|exact Inv1].
  destruct (find_user tok (tokens tdoc)) as [user|] eqn:Hu; [|exact Inv1].
  destruct (admit_ip _ _) as [ic [|]]; cbn [fst].
  2: { exact (no_admin_no_member_same _ _ (same_rooms_with_ip_connections ic _) Inv1). }
  intros sid' Hnone.
  change (admin_of (update_activity now sid w) sid' = None) in Hnone.
  destruct (Inv1 sid' Hnone) as [It Ic]. split; [exact It|].
  cbn [connected with_connected with_ip_connections].
  destruct (decide (sid = sid')) as [<-|Hne].
  - exfalso. apply (find_user_Some _ _ _ Hu). now apply It.
  - unfold register. rewrite lookup_alter_ne by exact Hne.
    destruct (connected (update_activity now sid w) !! sid); [exact Ic|].
    rewrite lookup_insert_ne by exact Hne. exact Ic.
Qed.

Lemma no_admin_no_member_ws_teardown s (w : World) :
  no_admin_no_member w -> no_admin_no_member (fst (ws_teardown s w)).
Proof.
  intros Inv sid' Hnone.
  assert (Hn : admin_of w sid' = None).
  { unfold ws_teardown in Hnone. cbn [ip_connections with_connected] in Hnone.
    destruct (release_ip _ _) in Hnone; exact Hnone. }
  destruct (Inv sid' Hn) as [It Ic]. split.
  - unfold ws_teardown. cbn [ip_connections with_connected].
    destruct (release_ip _ _); exact It.
  - rewrite EndpointFacts.connected_ws_teardown. unfold unregister.
    destruct (connected w !! session_server_id s) as [room|] eqn:Hr; [|exact Ic].
    destruct (Dict.mem (session_user_id s) room); [|exact Ic].
    destruct (decide (session_server_id s = sid')) as [<-|Hne].
    + rewrite lookup_alter_eq, Hr. simpl. intros room' [= <-].
      now rewrite (Ic room Hr).
    + rewrite lookup_alter_ne by exact Hne. exact Ic.
Qed.

Lemma admin_of_ws_teardown s (w : World) sid :
  admin_of (fst (ws_teardown s w)) sid = admin_of w sid.
Proof.
  unfold ws_teardown. cbn [ip_connections with_connected].
  destruct (release_ip _ _); reflexivity.
Qed.

Lemma members_distinct_same (w w' : World) :
  same_rooms w w' -> members_distinct w -> members_distinct w'.
Proof.
  intros (_ & _ & _ & M) Inv sid doc H. specialize (M sid). rewrite H in M.
  destruct (servers_col w !! sid) as [doc0|] eqn:E; [|discriminate].
  simpl in M. injection M as ->. now apply (Inv sid doc0).
Qed.

Lemma members_distinct_create_server sid tok now (w : World) :
  members_distinct w -> members_distinct (fst (create_server sid tok now w)).
Proof.
  intros Inv.
  assert (Hins : members_distinct
                   (with_servers_col
                      (insert sid {| join_token := tok; admin_user_id := None;
                                     members := []; created_at := now;
                                     last_activity := now |}) w)).
  { intros sid' doc. cbn [servers_col with_servers_col].
    destruct (decide (sid = sid')) as [<-|Hne].
    - rewrite lookup_insert_eq. intros [= <-]. apply List.NoDup_nil.
    - rewrite lookup_insert_ne by exact Hne. apply Inv. }
  unfold create_server. destruct (servers_col w !! sid); [exact Inv|].
  cbn [member_tokens_col with_servers_col].
  destruct (member_tokens_col w !! sid); [exact Hins|].
  cbn [connected with_member_tokens_col with_servers_col].
  destruct (connected w !! sid); exact Hins.
Qed.

Lemma members_distinct_join_server now tok sid body (w : World) :
  members_distinct w -> members_distinct (fst (join_server now tok sid body w)).
Proof.
  intros Inv. destruct (join_server now tok sid body w) as [w' r] eqn:H. cbn [fst].
  apply JoinFacts.join_server_effect in H.
  destruct H as (_ & Hoth & Hcases). intros sid' doc'.
  destruct (decide (sid' = sid)) as [->|Hne].
  - destruct Hcases as [(Hs & _ & _)|(doc & uid & bundle & server & Hdoc & _ & _ & Hst & Hs & _)];
      rewrite Hs.
    + destruct (servers_col w !! sid) as [doc|] eqn:E; [|discriminate].
      intros [= <-]. cbn. now apply (Inv sid doc).
    + intros [= <-].
      destruct (JoinFacts.stored_doc_Some _ _ _ _ _ Hst) as (_ & _ & _ & _ & Hset).
      destruct (PathFacts.set_field_head _ _ _ _ Hset) as [v' ->].
      apply DictFacts.NoDup_keys_set. exact (Inv sid doc Hdoc).
  - rewrite (proj1 (Hoth sid' Hne)). apply Inv.
Qed.

Lemma members_distinct_ws_connect now ws sid tok cf host (w : World) :
  members_distinct w -> members_distinct (fst (ws_connect now ws sid tok cf host w)).
Proof.
  intros Inv sid' doc.
  rewrite (proj1 (ActivityFacts.ws_connect_store now ws sid tok cf host w)).
  apply (members_distinct_same _ _ (same_rooms_update_activity now sid w) Inv).
Qed.

Lemma members_distinct_ws_teardown s (w : World) :
  members_distinct w -> members_distinct (fst (ws_teardown s w)).
Proof.
  intros Inv. unfold ws_teardown. cbn [ip_connections with_connected].
  destruct (release_ip _ _); exact Inv.
Qed.

Lemma no_admin_no_member_empty : no_admin_no_member empty_world.
Proof.
  intros sid _. split.
  - intros tdoc H. cbn in H. now rewrite lookup_empty in H.
  - intros room H. cbn in H. now rewrite lookup_empty in H.
Qed.

Section Traces.
Variable str_len : Frame -> Z.

Lemma same_rooms_ws_receive s data now utcnow (w : World) :
  same_rooms w (fst (ws_receive str_len s data now utcnow w)).
Proof.
  unfold ws_receive.
  destruct (SIZE_LIMIT <? str_len data)%Z; [apply same_rooms_refl|].
  destruct (is_rate_limited (session_user_id s) now (rate_limits w)) as [rl1 [|]];
    [repeat split|].
  cbn [rate_limits with_rate_limits].
  destruct (is_rate_limited (session_ip s) now rl1) as [rl2 [|]]; [repeat split|].
  eapply same_rooms_trans; [|apply same_rooms_dispatch].
  eapply same_rooms_trans; [|apply same_rooms_update_activity].
  repeat split.
Qed.

Lemma step_no_admin_no_member ev (w : World) :
  no_admin_no_member w -> no_admin_no_member (step str_len ev w).
Proof.
  intros Inv. destruct ev; cbn [step].
  - now apply no_admin_no_member_create_server.
  - now apply no_admin_no_member_join_server.
  - refine (no_admin_no_member_same _ _ _ Inv).
    rewrite (ActivityFacts.activity_stamp_lookup now server_id user_id w).
    apply same_rooms_update_activity.
  - now apply no_admin_no_member_ws_connect.
  - exact (no_admin_no_member_same _ _ (same_rooms_ws_receive s data now utcnow w) Inv).
  - now apply no_admin_no_member_ws_teardown.
  - refine (no_admin_no_member_same _ _ _ Inv). repeat split.
Qed.

Lemma run_no_admin_no_member evs : forall w : World,
  no_admin_no_member w -> no_admin_no_member (run str_len evs w).
Proof.
  induction evs as [|ev evs IH]; intros w Inv; [exact Inv|].
  apply IH. now apply step_no_admin_no_member.
Qed.

Lemma step_members_distinct ev (w : World) :
  members_distinct w -> members_distinct (step str_len ev w).
Proof.
  intros Inv. destruct ev; cbn [step].
  - now apply members_distinct_create_server.
  - now apply members_distinct_join_server.
  - refine (members_distinct_same _ _ _ Inv).
    rewrite (ActivityFacts.activity_stamp_lookup now server_id user_id w).
    apply same_rooms_update_activity.
  - now apply members_distinct_ws_connect.
  - exact (members_distinct_same _ _ (same_rooms_ws_receive s data now utcnow w) Inv).
  - now apply members_distinct_ws_teardown.
  - refine (members_distinct_same _ _ _ Inv). repeat split.
Qed.

(** In every state the requests can reach, the members dictionaries have
    distinct keys. *)
Lemma run_members_distinct evs : forall w : World,
  members_distinct w -> members_distinct (run str_len evs w).
Proof.
  induction evs as [|ev evs IH]; intros w Inv; [exact Inv|].
  apply IH. now apply step_members_distinct.
Qed.

Lemma reachable_members_distinct evs : members_distinct (run str_len evs empty_world).
Proof.
  apply run_members_distinct. intros sid doc H. cbn in H.
  now rewrite lookup_empty in H.
Qed.

(** No event replaces an admin. *)
Lemma step_admin_kept ev (w : World) sid a :
  admin_of w sid = Some a -> admin_of (step str_len ev w) sid = Some a.
Proof.
  intros Ha.
  assert (Same : forall w' : World, same_rooms w w' -> admin_of w' sid = Some a).
  { intros w' (A & _ & _ & _). now rewrite A. }
  destruct ev as [sid0 tok now|now tok sid0 body|now sid0 uid|now ws sid0 tok cf host
                 |s data now utcnow|s|ws e]; cbn [step].
  - now rewrite admin_of_create_server.
  - destruct (join_server now tok sid0 body w) as [w' r] eqn:H. cbn [fst].
    destruct (join_server_admin _ _ _ _ _ _ _ H) as (Hoth & Hkept & _).
    destruct (decide (sid = sid0)) as [->|Hne]; [now apply Hkept|].
    now rewrite Hoth.
  - apply Same. rewrite (ActivityFacts.activity_stamp_lookup now sid0 uid w).
    apply same_rooms_update_activity.
  - now rewrite ws_connect_admin.
  - apply Same, same_rooms_ws_receive.
  - now rewrite admin_of_ws_teardown.
  - apply Same. repeat split.
Qed.

Lemma run_admin_kept evs sid a : forall w : World,
  admin_of w sid = Some a -> admin_of (run str_len evs w) sid = Some a.
Proof.
  induction evs as [|ev evs IH]; intros w Ha; [exact Ha|].
  apply IH. now apply step_admin_kept.
Qed.

Lemma members_readable_same (w w' : World) :
  same_rooms w w' -> members_readable w -> members_readable w'.
Proof.
  intros (_ & _ & _ & M) Inv sid doc u v H. specialize (M sid). rewrite H in M.
  destruct (servers_col w !! sid) as [doc0|] eqn:E; [|discriminate].
  simpl in M. injection M as ->. now apply (Inv sid doc0).
Qed.

Lemma members_readable_create_server sid tok now (w : World) :
  members_readable w -> members_readable (fst (create_server sid tok now w)).
Proof.
  intros Inv.
  assert (Hins : members_readable
                   (with_servers_col
                      (insert sid {| join_token := tok; admin_user_id := None;
                                     members := []; created_at := now;
                                     last_activity := now |}) w)).
  { intros sid' doc u v. cbn [servers_col with_servers_col].
    destruct (decide (sid = sid')) as [<-|Hne].
    - rewrite lookup_insert_eq. now intros [= <-] [].
    - rewrite lookup_insert_ne by exact Hne. apply Inv. }
  unfold create_server. destruct (servers_col w !! sid); [exact Inv|].
  cbn [member_tokens_col with_servers_col].
  destruct (member_tokens_col w !! sid); [exact Hins|].
  cbn [connected with_member_tokens_col with_servers_col].
  destruct (connected w !! sid); exact Hins.
Qed.

(** A join as a user id without a dot leaves entries that the loop of
    lines 126 to 135 reads. *)
Lemma members_readable_join_server now tok sid body (w : World) :
  (forall uid, body_user_id body = Some uid -> split_path uid = [uid]) ->
  members_readable w -> members_readable (fst (join_server now tok sid body w)).
Proof.
  intros Hplain Inv. destruct (join_server now tok sid body w) as [w' r] eqn:H. cbn [fst].
  apply JoinFacts.join_server_effect in H.
  destruct H as (_ & Hoth & Hcases). intros sid' doc' u v.
  destruct (decide (sid' = sid)) as [->|Hne].
  - destruct Hcases as [(Hs & _ & _)|(doc & uid & bundle & server & Hdoc & Huid & _ & Hst & Hs & _)];
      rewrite Hs.
    + destruct (servers_col w !! sid) as [doc|] eqn:E; [|discriminate].
      intros [= <-]. cbn. now apply (Inv sid doc).
    + intros [= <-] Hin.
      destruct (JoinFacts.stored_doc_Some _ _ _ _ _ Hst) as (_ & _ & _ & _ & Hset).
      rewrite (PathFacts.set_field_dotless _ _ _ _ (Hplain uid Huid) Hset) in Hin.
      destruct (DictFacts.in_set _ _ _ _ _ Hin) as [[= _ ->]|Hold].
      * exists (encode_bundle bundle). apply JoinFacts.encoded_bundle_doc.
      * exact (Inv sid doc u v Hdoc Hold).
  - rewrite (proj1 (Hoth sid' Hne)). apply Inv.
Qed.

Lemma step_members_readable ev (w : World) :
  dotless ev = true -> members_readable w -> members_readable (step str_len ev w).
Proof.
  intros Hd Inv.
  destruct ev as [sid0 tok now|now tok sid0 body|now sid0 uid|now ws sid0 tok cf host
                 |s data now utcnow|s|ws e]; cbn [step].
  - now apply members_readable_create_server.
  - apply members_readable_join_server; [|exact Inv].
    intros uid Huid. cbn [dotless] in Hd. rewrite Huid in Hd.
    now apply bool_decide_eq_true_1 in Hd.
  - refine (members_readable_same _ _ _ Inv).
    rewrite (ActivityFacts.activity_stamp_lookup now sid0 uid w).
    apply same_rooms_update_activity.
  - intros sid' doc.
    rewrite (proj1 (ActivityFacts.ws_connect_store now ws sid0 tok cf host w)).
    apply (members_readable_same _ _ (same_rooms_update_activity now sid0 w) Inv).
  - exact (members_readable_same _ _ (same_rooms_ws_receive s data now utcnow w) Inv).
  - unfold ws_teardown. cbn [ip_connections with_connected].
    destruct (release_ip _ _); exact Inv.
  - refine (members_readable_same _ _ _ Inv). repeat split.
Qed.

(** The loop of lines 126 to 135 raises nothing on entries it can read. *)
Lemma others_loop_readable uid (ms : list (string * Value)) : forall acc,
  (forall u v, In (u, v) ms -> exists p, encoded v = inr p) ->
  exists ots, others_loop uid ms acc = inr ots.
Proof.
  induction ms as [|[u v] ms IH]; intros acc Hr; cbn [others_loop]; [eauto|].
  destruct (negb (String.eqb u uid)).
  - destruct (Hr u v (or_introl eq_refl)) as [p ->].
    apply IH. intros u' v' Hin. apply (Hr u' v'). now right.
  - apply IH. intros u' v' Hin. apply (Hr u' v'). now right.
Qed.

(** A join as a user id without a dot, of a room that has no admin yet:
    either it does not return and the room has no admin still, or it
    returns and its member is the admin. *)
Lemma join_server_first now tok sid body (w w' : World) r :
  no_admin_no_member w -> members_readable w -> admin_of w sid = None ->
  (forall uid, body_user_id body = Some uid -> split_path uid = [uid]) ->
  join_server now tok sid body w = (w', r) ->
  (admin_of w' sid = None /\ forall resp, r <> Return resp)
  \/ (admin_of w' sid = body_user_id body /\ body_user_id body <> None
      /\ exists resp, r = Return resp).
Proof.
  intros Inv Hread Hnone Hplain H.
  assert (Hstamp : admin_of (update_activity now sid w) sid = None).
  { destruct (same_rooms_update_activity now sid w) as [A _]. now rewrite A. }
  pose proof (members_readable_join_server now tok sid body w Hplain Hread) as Hread'.
  rewrite H in Hread'. cbn [fst] in Hread'.
  destruct (JoinFacts.join_server_cases _ _ _ _ _ _ _ H)
    as [[-> (code & detail & ->)]
       |(doc & uid & bundle & w2 & oc & Hdoc & _ & Huid & _ & _ & Hc & Hm)].
  { left. split; [exact Hstamp|]. intros resp. discriminate. }
  destruct (JoinFacts.committed_cases _ _ _ _ _ _ _ _ _ Hdoc Hc)
    as ((Hcon & _) & _ & Hcases).
  destruct oc as [e|].
  { destruct Hm as [-> ->]. left. split; [|intros resp; discriminate].
    destruct Hcases as [[-> _]|(server & Hst & _)]; [exact Hstamp|].
    destruct (JoinFacts.committed_dotless _ _ _ _ _ _ _ _ _ _ (Hplain uid Huid) Hdoc Hst Hc)
      as [-> _].
    exact Hstamp. }
  destruct Hm as (server & Hs2 & Hm).
  destruct Hcases as [[_ [?|[?|?]]]|(server' & Hst & Hs2' & _)]; try discriminate.
  assert (server' = server) as -> by congruence.
  destruct (JoinFacts.stored_doc_Some _ _ _ _ _ Hst) as (_ & _ & _ & Hadm & _).
  assert (Hdn : admin_user_id doc = None).
  { unfold admin_of in Hnone. now rewrite Hdoc in Hnone. }
  rewrite Hdn in Hadm. cbn [default from_option] in Hadm.
  destruct (others_of uid (members server)) as [e|ots] eqn:Ho.
  { exfalso. destruct Hm as [-> _].
    destruct (others_loop_readable uid (members server) []) as [ots Hots].
    - intros u v. exact (Hread' sid server u v Hs2).
    - unfold others_of in Ho. congruence. }
  destruct Hm as (oe & Hb & ->).
  assert (Hw : w' = w2 /\ oe = None).
  { unfold join_broadcast in Hb. rewrite Hcon in Hb.
    destruct (connected w !! sid) as [room|] eqn:Hroom.
    - rewrite (proj2 (Inv sid Hnone) room Hroom) in Hb. cbn in Hb.
      now injection Hb as <- <-.
    - now injection Hb as <- <-. }
  destruct Hw as [-> ->]. right.
  split; [unfold admin_of; rewrite Hs2; cbn; now rewrite Hadm, Huid|].
  split; [now rewrite Huid|eauto].
Qed.

(** One event of a room that has no admin yet: the admin afterwards is
    the member of the event, if it is a join of the room that returns. *)
Lemma step_admin_first ev (w : World) sid :
  no_admin_no_member w -> members_readable w -> admin_of w sid = None ->
  dotless ev = true ->
  admin_of (step str_len ev w) sid = joined sid ev w.
Proof.
  intros Inv Hread Hnone Hd.
  assert (Same : forall w' : World, same_rooms w w' -> admin_of w' sid = None).
  { intros w' (A & _ & _ & _). now rewrite A. }
  destruct ev as [sid0 tok now|now tok sid0 body|now sid0 uid|now ws sid0 tok cf host
                 |s data now utcnow|s|ws e]; cbn [step joined].
  - now rewrite admin_of_create_server.
  - destruct (join_server now tok sid0 body w) as [w' r] eqn:H. cbn [fst].
    destruct (decide (sid0 = sid)) as [->|Hne].
    + rewrite bool_decide_eq_true_2 by reflexivity.
      assert (Hplain : forall uid, body_user_id body = Some uid -> split_path uid = [uid]).
      { intros uid Huid. cbn [dotless] in Hd. rewrite Huid in Hd.
        now apply bool_decide_eq_true_1 in Hd. }
      destruct (join_server_first _ _ _ _ _ _ _ Inv Hread Hnone Hplain H)
        as [[Ha Hr]|(Ha & _ & resp & ->)]; [|exact Ha].
      rewrite Ha. destruct r as [resp| |]; [now destruct (Hr resp)|reflexivity|reflexivity].
    + rewrite bool_decide_eq_false_2 by exact Hne.
      destruct (join_server_admin _ _ _ _ _ _ _ H) as (Hoth & _).
      rewrite Hoth by congruence. exact Hnone.
  - apply Same. rewrite (ActivityFacts.activity_stamp_lookup now sid0 uid w).
    apply same_rooms_update_activity.
  - now rewrite ws_connect_admin.
  - apply Same, same_rooms_ws_receive.
  - now rewrite admin_of_ws_teardown.
  - apply Same. repeat split.
Qed.

Lemma run_admin_first evs sid : forall w : World,
  no_admin_no_member w -> members_readable w -> admin_of w sid = None ->
  forallb dotless evs = true ->
  admin_of (run str_len evs w) sid = first_joined str_len sid evs w.
Proof.
  induction evs as [|ev evs IH]; intros w Inv Hread Hnone Hd; [exact Hnone|].
  cbn [forallb] in Hd. apply andb_prop in Hd. destruct Hd as [Hev Hd].
  cbn [first_joined]. change (run str_len (ev :: evs) w) with (run str_len evs (step str_len ev w)).
  pose proof (step_admin_first ev w sid Inv Hread Hnone Hev) as Hstep.
  destruct (joined sid ev w) as [u|].
  - now apply run_admin_kept.
  - apply IH; [now apply step_no_admin_no_member|now apply step_members_readable
              |exact Hstep|exact Hd].
Qed.

(** X19. Over every sequence of requests from the empty state in which no
    join carries a user id with a dot, the admin of a room is at every
    time the member of the first join of the room that returned its
    response, and no admin before any has. *)
Theorem admin_is_first_dotless_joiner evs sid :
  forallb dotless evs = true ->
  admin_of (run str_len evs empty_world) sid = first_joined str_len sid evs empty_world.
Proof.
  apply run_admin_first.
  - exact no_admin_no_member_empty.
  - intros sid' doc u v H. cbn in H. now rewrite lookup_empty in H.
  - unfold admin_of. cbn. now rewrite lookup_empty.
Qed.

End Traces.
End AdminFacts.

(** ** The scenario, run *)

Module ScenarioFacts.
Import Backend Scenario.

Example alice_connected_registry :
  connected alice_connected = {[ "room" := [("alice", 1%nat)] ]}
  /\ ip_connections alice_connected = {[ "10.0.0.1" := 1%Z ]}
  /\ admin_of alice_connected "room" = Some "alice".
Proof. vm_compute. repeat split. Qed.

Example both_connected_registry :
  connected both_connected = {[ "room" := [("alice", 1%nat); ("bob", 2%nat)] ]}
  /\ delivered both_connected = [(1%nat, JoinNotification "bob")].
Proof. vm_compute. repeat split. Qed.

(** C1 fails on the code. Alice connects on socket 1 and again on socket
    2, which takes her place in the registry; the teardown of the first
    connection then removes the entry that holds socket 2. *)
Lemma stale_teardown_evicts_newer :
  ws_connect 2 1%nat "room" "token-a" None "10.0.0.1"
    (run payload_len (firstn 2 alice_arrives) empty_world)
  = (alice_connected, Accepted alice_session)
  /\ conn_of alice_reconnected "room" "alice" = Some 2%nat
  /\ session_websocket alice_session = 1%nat
  /\ conn_of (fst (ws_teardown alice_session alice_reconnected)) "room" "alice" = None.
Proof. vm_compute. repeat split. Qed.

(** C2 fails on the code. With alice gone and still registered before
    bob, a group frame of bob raises at her socket and the healthy socket
    of bob is not sent the frame; a join of carol raises instead of
    returning its response. *)
Lemma broadcast_failure_not_isolated :
  conn_of alice_gone "room" "bob" = Some 2%nat
  /\ broken alice_gone !! 2%nat = None
  /\ snd (ws_receive payload_len bob_session hello 10%Q 10 alice_gone) = Some RuntimeError
  /\ delivered (fst (ws_receive payload_len bob_session hello 10%Q 10 alice_gone))
     = delivered alice_gone
  /\ snd (join_server 11 "token-c" "room" (join_as "secret" "carol" 3) alice_gone)
     = Raise RuntimeError.
Proof. vm_compute. repeat split. Qed.

(** C4, where the code departs from it. In a new room a join as a.b has
    its update taken by the store, which records a.b as the admin and
    nests the bundle under the member key a; the loop over the members
    then raises KeyError on that entry, and the join fails. A join as a
    follows and returns its response: it is the first join of the room
    to do so, a is its member, and the admin of the room is a.b, before
    and after it. *)
Theorem first_joiner_not_admin :
  let w1 := run payload_len (firstn 1 dotted_arrives) empty_world in
  let w2 := run payload_len (firstn 2 dotted_arrives) empty_world in
  join_server 1 "token-ab" "room" (join_as "secret" "a.b" 1) w1 = (w2, Raise KeyError)
  /\ admin_of w1 "room" = None
  /\ admin_of w2 "room" = Some "a.b"
  /\ (servers_col w2 !! "room" ≫= fun doc => Dict.get "a.b" (members doc)) = None
  /\ snd (join_server 2 "token-a" "room" (join_as "secret" "a" 2) w2)
     = Return {| member_token := "token-a"; others := [];
                 response_admin_user_id := Some "a.b" |}
  /\ first_joined payload_len "room" dotted_arrives empty_world = Some "a"
  /\ admin_of (run payload_len dotted_arrives empty_world) "room" = Some "a.b".
Proof. vm_compute. repeat split. Qed.

(** C6 fails on the code. With alice gone and still registered, the join
    of carol passes its checks, stores her bundle and her token, and then
    fails: the send of its notification raises. The failing join has
    changed the members and the tokens of the room. *)
Lemma failed_join_has_stored :
  let w' := fst (join_server 11 "token-c" "room" (join_as "secret" "carol" 3) alice_gone) in
  snd (join_server 11 "token-c" "room" (join_as "secret" "carol" 3) alice_gone)
  = Raise RuntimeError
  /\ (servers_col alice_gone !! "room" ≫= fun doc => Dict.get "carol" (members doc)) = None
  /\ (servers_col w' !! "room" ≫= fun doc => Dict.get "carol" (members doc))
     = Some (VDoc [("registration_id", VInt 3);
                   ("identity", VBytes ["i"%byte; "d"%byte]);
                   ("signed_prekey", VBytes ["s"%byte; "p"%byte; "k"%byte]);
                   ("signed_prekey_sig", VBytes ["s"%byte; "i"%byte; "g"%byte]);
                   ("one_time_prekey", VBytes ["o"%byte; "t"%byte; "p"%byte])])
  /\ (member_tokens_col alice_gone !! "room" ≫= fun doc => Dict.get "carol" (tokens doc))
     = None
  /\ (member_tokens_col w' !! "room" ≫= fun doc => Dict.get "carol" (tokens doc))
     = Some (VStr "token-c")
  /\ members <$> servers_col w' !! "room" <> members <$> servers_col alice_gone !! "room"
  /\ tokens <$> member_tokens_col w' !! "room"
     <> tokens <$> member_tokens_col alice_gone !! "room".
Proof. vm_compute. repeat split; discriminate. Qed.

(** Tearing down the connection of alice leaves the entry of bob. *)
Lemma teardown_removes_by_key_witness :
  conn_of (fst (ws_teardown alice_session both_connected)) "room" "alice" = None
  /\ conn_of (fst (ws_teardown alice_session both_connected)) "room" "bob" = Some 2%nat.
Proof.
  destruct (EndpointFacts.teardown_removes_by_key alice_session both_connected)
    as [Hgone Hkept].
  split; [exact Hgone|].
  rewrite Hkept; [reflexivity|]. intros H. discriminate H.
Defined.

(** The group frame of bob, with alice gone: her socket is the first of
    the room. So it is for the join of carol. *)
Lemma broadcast_stops_at_first_failure_witness :
  ws_loop payload_len bob_session [Recv hello 10%Q 10; Recv hello 11%Q 11] alice_gone
  = (update_activity 10 "room"
       (with_rate_limits {[ "bob" := [10%Q]; "10.0.0.2" := [10%Q] ]} alice_gone),
     Some RuntimeError)
  /\ snd (join_server 11 "token-c" "room" (join_as "secret" "carol" 3) alice_gone)
     = Raise RuntimeError.
Proof.
  destruct (EndpointFacts.broadcast_stops_at_first_failure payload_len
              [] 1%nat [2%nat] RuntimeError alice_gone) as (_ & Hrelay & Hjoin).
  - intros x [].
  - reflexivity.
  - split.
    + destruct (Hrelay bob_session hello 10%Q 10%Z {[ "bob" := [10%Q] ]}
                  {[ "bob" := [10%Q]; "10.0.0.2" := [10%Q] ]}
                  [("alice", 1%nat); ("bob", 2%nat)] [Recv hello 11%Q 11]) as [_ Hloop].
      * vm_compute. discriminate.
      * reflexivity.
      * reflexivity.
      * left. reflexivity.
      * reflexivity.
      * reflexivity.
      * rewrite Hloop. vm_compute. reflexivity.
    + edestruct (Hjoin 11%Z "token-c" "room" (join_as "secret" "carol" 3)) as [Hj _].
      * vm_compute. reflexivity.
      * reflexivity.
      * reflexivity.
      * discriminate.
      * vm_compute. reflexivity.
      * vm_compute. reflexivity.
      * vm_compute. reflexivity.
      * vm_compute. reflexivity.
      * vm_compute. reflexivity.
      * reflexivity.
      * rewrite Hj. reflexivity.
Defined.

(** A join with another join token than that of the room, and a join whose
    identity key is not base64. *)
Lemma join_rejections_witness :
  join_server 5 "token-c" "room" (join_as "guess" "carol" 3) alice_connected
  = (update_activity 5 "room" alice_connected, HTTPException 401 "Invalid join token")
  /\ exists detail,
       join_server 5 "token-c" "room"
         {| body_join_token := Some "secret"; body_user_id := Some "carol";
            body_prekey_bundle :=
              Some {| pk_registration_id := Some 3%Z; pk_identity := Some "a";
                      pk_signed_prekey := Some "c3Br";
                      pk_signed_prekey_sig := Some "c2ln";
                      pk_one_time_prekey := Some "b3Rw" |} |}
         alice_connected
       = (update_activity 5 "room" alice_connected, HTTPException 400 detail).
Proof.
  split.
  - destruct (JoinFacts.join_rejections 5 "token-c" "room" (join_as "guess" "carol" 3)
                alice_connected) as (_ & H401 & _).
    eapply H401; [reflexivity|]. intros H. discriminate H.
  - destruct (JoinFacts.join_rejections 5 "token-c" "room"
                {| body_join_token := Some "secret"; body_user_id := Some "carol";
                   body_prekey_bundle :=
                     Some {| pk_registration_id := Some 3%Z; pk_identity := Some "a";
                             pk_signed_prekey := Some "c3Br";
                             pk_signed_prekey_sig := Some "c2ln";
                             pk_one_time_prekey := Some "b3Rw" |} |}
                alice_connected) as (_ & _ & H400 & _).
    eapply H400; [reflexivity|reflexivity|].
    right. right. right. eexists. split; [reflexivity|]. right. left. reflexivity.
Defined.

(** The response to the join of bob: the bundle of alice and no other. *)
Lemma join_response_others_witness :
  Dict.get "bob" (others bob_response) = None
  /\ Dict.get "alice" (others bob_response) = Some (encoded_of 1)
  /\ Base64.b64decode (enc_identity (encoded_of 1)) = Some ["i"%byte; "d"%byte].
Proof.
  destruct (JoinFacts.join_response_others 3 "token-b" "room" (join_as "secret" "bob" 2)
              alice_connected bob_joined bob_response)
    as (uid & server & Hu & Hs & Hself & Hoth & Hback & _).
  - intros doc H.
    exact (AdminFacts.reachable_members_distinct payload_len alice_arrives "room" doc H).
  - vm_compute. reflexivity.
  - injection Hu as <-. split; [exact Hself|].
    vm_compute in Hs. injection Hs as <-.
    assert (Ha : Dict.get "alice" (others bob_response) = Some (encoded_of 1)).
    { specialize (Hoth "alice"). cbn in Hoth.
      destruct Hoth as (p & Hp & Hg); [discriminate|].
      vm_compute in Hp. injection Hp as <-. exact Hg. }
    split; [exact Ha|].
    destruct (Hback "alice" (encoded_of 1) Ha)
      as (fields & i & sp & sig & otp & Hm & _ & Hi & _ & _ & _ & Hd & _).
    vm_compute in Hm. injection Hm as <-. vm_compute in Hi. injection Hi as <-.
    exact Hd.
Defined.



(** A join of the room with a wrong join token stamps the room and does
    nothing else. *)
Lemma activity_stamp_first_witness :
  (exists doc', servers_col
                  (fst (join_server 5 "token-c" "room" (join_as "guess" "carol" 3)
                          alice_connected)) !! "room" = Some doc'
                /\ last_activity doc' = 5%Z)
  /\ fst (join_server 5 "token-c" "room" (join_as "guess" "carol" 3) alice_connected)
     = update_activity 5 "room" alice_connected.
Proof.
  destruct (ActivityFacts.activity_stamp_first 5 "room" alice_connected)
    as (_ & _ & Hjoin & _).
  destruct (Hjoin "token-c" (join_as "guess" "carol" 3)
              (fst (join_server 5 "token-c" "room" (join_as "guess" "carol" 3)
                      alice_connected))
              (HTTPException 401 "Invalid join token")) as (Hs & _ & Hw).
  - vm_compute. reflexivity.
  - split.
    + eapply Hs. vm_compute. reflexivity.
    + eapply Hw. reflexivity.
Defined.

End ScenarioFacts.

(** ** What the handlers leave alone *)

Module FrameFacts.
Import Backend.

Lemma send_json_frame ws m (w : World) :
  exists d, fst (send_json ws m w) = with_delivered (delivered w ++ d) w.
Proof.
  unfold send_json. destruct (broken w !! ws).
  - exists []. simpl. now rewrite app_nil_r, SendFacts.with_delivered_id.
  - exists [(ws, m)]. reflexivity.
Qed.

Lemma dispatch_frame sid data (w : World) :
  exists d, fst (dispatch sid data w) = with_delivered (delivered w ++ d) w.
Proof.
  assert (Hid : exists d, w = with_delivered (delivered w ++ d) w).
  { exists []. now rewrite app_nil_r, SendFacts.with_delivered_id. }
  unfold dispatch. destruct (bool_decide (frame_type data = Some "private")).
  - destruct (truthy (frame_to data)); [|exact Hid].
    destruct (connected w !! sid) as [room|]; [|exact Hid].
    destruct (Dict.get _ room); [apply send_json_frame|exact Hid].
  - destruct (_ || _); [|exact Hid].
    destruct (connected w !! sid) as [room|]; [|exact Hid].
    apply SendFacts.send_all_frame.
Qed.

(** The tables of the process that a join does not touch. *)
Lemma join_server_runtime now tok sid body (w : World) :
  let w' := fst (join_server now tok sid body w) in
  connected w' = connected w /\ rate_limits w' = rate_limits w
  /\ ip_connections w' = ip_connections w /\ broken w' = broken w.
Proof.
  cbv zeta. destruct (join_server now tok sid body w) as [w' r] eqn:H. cbn [fst].
  apply JoinFacts.join_server_effect in H.
  destruct H as ((Hc & Hr & Hi & Hb & _) & _). auto.
Qed.

Lemma create_server_runtime sid tok now (w : World) :
  let w' := fst (create_server sid tok now w) in
  rate_limits w' = rate_limits w /\ ip_connections w' = ip_connections w
  /\ broken w' = broken w /\ delivered w' = delivered w.
Proof.
  cbv zeta. unfold create_server. destruct (servers_col w !! sid); [repeat split|].
  cbn [member_tokens_col with_servers_col].
  destruct (member_tokens_col w !! sid); [repeat split|].
  cbn [connected with_member_tokens_col with_servers_col].
  destruct (connected w !! sid); repeat split.
Qed.

Section Receive.
Variable str_len : Frame -> Z.

(** The tables of the process that a received frame does not touch. *)
Lemma ws_receive_runtime s data now utcnow (w : World) :
  let w' := fst (ws_receive str_len s data now utcnow w) in
  connected w' = connected w /\ ip_connections w' = ip_connections w
  /\ broken w' = broken w.
Proof.
  cbv zeta. unfold ws_receive.
  destruct (SIZE_LIMIT <? str_len data)%Z; [repeat split|].
  destruct (is_rate_limited (session_user_id s) now (rate_limits w)) as [rl1 [|]];
    [repeat split|].
  cbn [rate_limits with_rate_limits].
  destruct (is_rate_limited (session_ip s) now rl1) as [rl2 [|]]; [repeat split|].
  match goal with
  | |- context [dispatch ?a ?b ?c] => destruct (dispatch_frame a b c) as [d ->]
  end.
  repeat split.
Qed.

End Receive.
End FrameFacts.

(** ** The counts of connections per origin *)

Module CountFacts.
Import Backend Invariants.

Lemma admit_ip_in_range ip (ic : gmap string Z) :
  (forall k n, ic !! k = Some n -> (1 <= n <= CONN_LIMIT_PER_IP)%Z) ->
  forall k n, fst (admit_ip ip ic) !! k = Some n -> (1 <= n <= CONN_LIMIT_PER_IP)%Z.
Proof.
  intros Inv k n. destruct (ic !! ip) as [m|] eqn:E.
  - destruct (Z.le_gt_cases CONN_LIMIT_PER_IP m) as [H|H].
    + rewrite (AdmissionFacts.admit_ip_full ip ic m E H). apply Inv.
    + rewrite (AdmissionFacts.admit_ip_room ip ic m E) by lia. cbn [fst].
      destruct (decide (ip = k)) as [<-|Hne].
      * rewrite lookup_insert_eq. intros [= <-]. specialize (Inv ip m E). lia.
      * rewrite lookup_insert_ne by exact Hne. apply Inv.
  - rewrite (AdmissionFacts.admit_ip_new ip ic E). cbn [fst].
    destruct (decide (ip = k)) as [<-|Hne].
    + rewrite lookup_insert_eq. intros [= <-]. unfold CONN_LIMIT_PER_IP. lia.
    + rewrite lookup_insert_ne by exact Hne. apply Inv.
Qed.

Lemma release_ip_in_range ip (ic ic' : gmap string Z) :
  (forall k n, ic !! k = Some n -> (1 <= n <= CONN_LIMIT_PER_IP)%Z) ->
  release_ip ip ic = Some ic' ->
  forall k n, ic' !! k = Some n -> (1 <= n <= CONN_LIMIT_PER_IP)%Z.
Proof.
  intros Inv H k n. unfold release_ip in H. destruct (ic !! ip) as [m|] eqn:E; [|discriminate].
  specialize (Inv ip m E) as Hm.
  destruct (Z.eqb_spec (m - 1) 0) as [H0|H0]; injection H as <-.
  - destruct (decide (ip = k)) as [<-|Hne].
    + now rewrite lookup_delete_eq.
    + rewrite lookup_delete_ne, lookup_insert_ne by exact Hne. apply Inv.
  - destruct (decide (ip = k)) as [<-|Hne].
    + rewrite lookup_insert_eq. intros [= <-]. lia.
    + rewrite lookup_insert_ne by exact Hne. apply Inv.
Qed.

Lemma counts_in_range_ws_connect now ws sid tok cf host (w : World) :
  counts_in_range w -> counts_in_range (fst (ws_connect now ws sid tok cf host w)).
Proof.
  intros Inv. unfold ws_connect.
  destruct (servers_col (update_activity now sid w) !! sid); [|exact Inv].
  destruct (match member_tokens_col (update_activity now sid w) !! sid with
            | Some tokens_doc => find_user tok (tokens tokens_doc)
            | None => None
            end); [|exact Inv].
  change (ip_connections (update_activity now sid w)) with (ip_connections w).
  pose proof (admit_ip_in_range (default host cf) (ip_connections w) Inv) as H.
  destruct (admit_ip _ _) as [ic [|]]; exact H.
Qed.

Lemma counts_in_range_ws_teardown s (w : World) :
  counts_in_range w -> counts_in_range (fst (ws_teardown s w)).
Proof.
  intros Inv. unfold ws_teardown. cbn [ip_connections with_connected].
  destruct (release_ip (session_ip s) (ip_connections w)) as [ic|] eqn:E; [|exact Inv].
  exact (release_ip_in_range _ _ _ Inv E).
Qed.

Section Traces.
Variable str_len : Frame -> Z.

Lemma step_counts_in_range ev (w : World) :
  counts_in_range w -> counts_in_range (step str_len ev w).
Proof.
  intros Inv.
  destruct ev as [sid tok now|now tok sid body|now sid uid|now ws sid tok cf host
                 |s data now utcnow|s|ws e]; cbn [step]; unfold counts_in_range.
  - now rewrite (proj1 (proj2 (FrameFacts.create_server_runtime sid tok now w))).
  - now rewrite (proj1 (proj2 (proj2 (FrameFacts.join_server_runtime now tok sid body w)))).
  - now rewrite (ActivityFacts.activity_stamp_lookup now sid uid w).
  - now apply counts_in_range_ws_connect.
  - now rewrite (proj1 (proj2 (FrameFacts.ws_receive_runtime str_len s data now utcnow w))).
  - now apply counts_in_range_ws_teardown.
  - exact Inv.
Qed.

Lemma run_counts_in_range evs : forall w : World,
  counts_in_range w -> counts_in_range (run str_len evs w).
Proof.
  induction evs as [|ev evs IH]; intros w Inv; [exact Inv|].
  apply IH. now apply step_counts_in_range.
Qed.

Lemma reachable_counts_in_range evs : counts_in_range (run str_len evs empty_world).
Proof.
  apply run_counts_in_range. intros ip n E. cbn in E. now rewrite lookup_empty in E.
Qed.

(** X7. Whatever requests, frames, disconnections and teardowns have come,
    in whatever order, every origin in [ip_connections] is counted between
    1 and CONN_LIMIT_PER_IP: no entry stays at zero, none goes negative,
    none passes the limit. *)
Theorem counts_always_in_range (evs : list Event) (ip : string) (n : Z) :
  ip_connections (run str_len evs empty_world) !! ip = Some n ->
  (1 <= n <= CONN_LIMIT_PER_IP)%Z.
Proof. apply (reachable_counts_in_range evs). Qed.

End Traces.
End CountFacts.

(** ** Opening and closing a connection *)

Module ConnectFacts.
Import Backend Invariants.

Lemma is_token_spec tok t : is_token tok t = true <-> t = VStr tok.
Proof.
  destruct t as [n|bs|s|d]; cbn [is_token]; try (split; discriminate).
  destruct (String.eqb_spec s tok) as [->|Hne]; split; congruence.
Qed.

Lemma find_user_In tok ts u : find_user tok ts = Some u -> In (u, VStr tok) ts.
Proof.
  induction ts as [|[u0 t0] ts IH]; cbn [find_user]; [discriminate|].
  destruct (is_token tok t0) eqn:E.
  - apply is_token_spec in E. subst t0. intros [= ->]. now left.
  - intros H. right. now apply IH.
Qed.

Lemma find_user_None tok ts :
  find_user tok ts = None <-> forall u, ~ In (u, VStr tok) ts.
Proof.
  induction ts as [|[u0 t0] ts IH]; cbn [find_user].
  - split; [intros _ u []|reflexivity].
  - destruct (is_token tok t0) eqn:E.
    + apply is_token_spec in E. subst t0.
      split; [discriminate|]. intros H. exfalso. apply (H u0). now left.
    + rewrite IH. split.
      * intros H u [[= _ Ht]|Hin]; [|now apply (H u)].
        subst t0. rewrite (proj2 (is_token_spec tok (VStr tok)) eq_refl) in E.
        discriminate.
      * intros H u Hin. apply (H u). now right.
Qed.

Lemma find_user_mem tok ts u : find_user tok ts = Some u -> Dict.mem u ts = true.
Proof.
  unfold Dict.mem. induction ts as [|[u0 t0] ts IH]; cbn [find_user Dict.get];
    [discriminate|].
  destruct (is_token tok t0).
  - intros [= ->]. now rewrite String.eqb_refl.
  - intros H. destruct (String.eqb u u0); [reflexivity|]. now apply IH.
Qed.

(** What an accepted connection request has found and done. *)
Lemma ws_connect_accepted_inv now ws sid tok cf host (w w1 : World) s :
  ws_connect now ws sid tok cf host w = (w1, Accepted s) ->
  exists doc tdoc user ic,
    servers_col w !! sid = Some doc
    /\ member_tokens_col w !! sid = Some tdoc
    /\ find_user tok (tokens tdoc) = Some user
    /\ admit_ip (default host cf) (ip_connections w) = (ic, true)
    /\ s = {| session_server_id := sid; session_user_id := user;
              session_ip := default host cf; session_websocket := ws |}
    /\ w1 = with_connected (register sid user ws)
              (with_ip_connections ic (update_activity now sid w)).
Proof.
  intros H. unfold ws_connect in H.
  rewrite StoreFacts.lookup_servers_update_activity in H.
  destruct (servers_col w !! sid) as [doc|]; [|discriminate].
  cbn [fmap option_fmap option_map] in H.
  rewrite StoreFacts.lookup_tokens_update_activity in H.
  destruct (member_tokens_col w !! sid) as [tdoc|]; [|discriminate].
  cbn [fmap option_fmap option_map tokens touch_tokens] in H.
  destruct (find_user tok (tokens tdoc)) as [user|] eqn:Hu; [|discriminate].
  change (ip_connections (update_activity now sid w)) with (ip_connections w) in H.
  destruct (admit_ip (default host cf) (ip_connections w)) as [ic [|]] eqn:Ha;
    [|discriminate].
  injection H as <- <-. exists doc, tdoc, user, ic. repeat split; assumption.
Qed.

Lemma register_same sid uid ws (c : gmap string (list (string * WebSocket))) :
  register sid uid ws c !! sid ≫= Dict.get uid = Some ws.
Proof.
  unfold register. rewrite lookup_alter_eq.
  destruct (c !! sid) as [room|] eqn:E.
  - rewrite E. simpl. apply DictFacts.get_set_eq.
  - rewrite lookup_insert_eq. simpl. now rewrite String.eqb_refl.
Qed.

Lemma register_other sid uid ws sid' uid' (c : gmap string (list (string * WebSocket))) :
  (sid', uid') <> (sid, uid) ->
  register sid uid ws c !! sid' ≫= Dict.get uid' = c !! sid' ≫= Dict.get uid'.
Proof.
  intros Hne. unfold register. destruct (decide (sid = sid')) as [<-|Hs].
  - rewrite lookup_alter_eq. destruct (c !! sid) as [room|] eqn:E.
    + rewrite E. simpl. apply DictFacts.get_set_ne. congruence.
    + rewrite lookup_insert_eq. simpl.
      destruct (String.eqb_spec uid' uid); [congruence|reflexivity].
  - rewrite lookup_alter_ne by exact Hs.
    destruct (c !! sid); [reflexivity|]. now rewrite lookup_insert_ne.
Qed.

(** X5. A connection request is accepted only for an existing room and a
    member token stored, as a string, under a key of that room's tokens
    document, as the member of that key, on the socket and from the
    origin of the request (the cf-connecting-ip header when present, else
    the client host); it is closed with 1008 exactly when the room is
    unknown or no key of the room's tokens holds the string presented. *)
Theorem connect_authenticates now ws sid tok cf host (w : World) :
  (forall w1 s, ws_connect now ws sid tok cf host w = (w1, Accepted s) ->
     session_server_id s = sid /\ session_websocket s = ws
     /\ session_ip s = default host cf
     /\ is_Some (servers_col w !! sid)
     /\ exists tdoc, member_tokens_col w !! sid = Some tdoc
                     /\ In (session_user_id s, VStr tok) (tokens tdoc))
  /\ ((exists w1, ws_connect now ws sid tok cf host w = (w1, Closed 1008)) <->
      servers_col w !! sid = None
      \/ forall tdoc, member_tokens_col w !! sid = Some tdoc ->
                      forall u, ~ In (u, VStr tok) (tokens tdoc)).
Proof.
  split.
  - intros w1 s H.
    destruct (ws_connect_accepted_inv _ _ _ _ _ _ _ _ _ H)
      as (doc & tdoc & user & ic & Hs & Ht & Hu & _ & -> & _).
    cbn. repeat split; [eauto|]. exists tdoc. split; [exact Ht|].
    now apply find_user_In.
  - unfold ws_connect. rewrite StoreFacts.lookup_servers_update_activity.
    destruct (servers_col w !! sid) as [doc|]; cbn [fmap option_fmap option_map].
    2: { split; [now left|eauto]. }
    rewrite StoreFacts.lookup_tokens_update_activity.
    destruct (member_tokens_col w !! sid) as [tdoc|];
      cbn [fmap option_fmap option_map tokens touch_tokens].
    2: { split; [|eauto]. intros _. right. discriminate. }
    destruct (find_user tok (tokens tdoc)) as [user|] eqn:Hu.
    + split.
      * intros [w1 H]. destruct (admit_ip _ _) as [ic [|]]; discriminate.
      * intros [H|H]; [discriminate|]. exfalso.
        apply (H tdoc eq_refl user). now apply find_user_In.
    + split; [|eauto]. intros _. right. intros tdoc' [= <-].
      now apply find_user_None.
Qed.

(** X18. An accepted connection takes the registry entry of its (room,
    member) key, whatever socket held it before; the entries of all other
    keys, the record of deliveries and the rate windows are as they
    were. *)
Theorem connect_registers_last_writer now ws sid tok cf host (w w1 : World) s :
  ws_connect now ws sid tok cf host w = (w1, Accepted s) ->
  conn_of w1 sid (session_user_id s) = Some ws
  /\ (forall sid' uid', (sid', uid') <> (sid, session_user_id s) ->
                        conn_of w1 sid' uid' = conn_of w sid' uid')
  /\ delivered w1 = delivered w
  /\ rate_limits w1 = rate_limits w.
Proof.
  intros H.
  destruct (ws_connect_accepted_inv _ _ _ _ _ _ _ _ _ H)
    as (doc & tdoc & user & ic & _ & _ & _ & _ & -> & ->).
  unfold conn_of. cbn [session_user_id connected with_connected with_ip_connections].
  change (connected (update_activity now sid w)) with (connected w).
  split; [apply register_same|]. split; [|split; reflexivity].
  intros sid' uid'. apply register_other.
Qed.

(** X8. Tearing down a connection right after it was accepted gives the
    origin its count back: [ip_connections] is again what it was before
    the request (an origin that was not in the table is not in it again),
    the teardown raises nothing, and the member is no longer registered. *)
Theorem connect_then_teardown now ws sid tok cf host (w w1 : World) s :
  counts_in_range w ->
  ws_connect now ws sid tok cf host w = (w1, Accepted s) ->
  ip_connections (fst (ws_teardown s w1)) = ip_connections w
  /\ snd (ws_teardown s w1) = None
  /\ conn_of (fst (ws_teardown s w1)) sid (session_user_id s) = None.
Proof.
  intros Inv H.
  destruct (ws_connect_accepted_inv _ _ _ _ _ _ _ _ _ H)
    as (doc & tdoc & user & ic & _ & _ & _ & Ha & -> & ->).
  set (ip := default host cf) in *.
  assert (Hrel : release_ip ip ic = Some (ip_connections w)).
  { destruct (ip_connections w !! ip) as [n|] eqn:E.
    - destruct (Z.le_gt_cases CONN_LIMIT_PER_IP n) as [Hn|Hn].
      + rewrite (AdmissionFacts.admit_ip_full ip _ n E Hn) in Ha. discriminate.
      + rewrite (AdmissionFacts.admit_ip_room ip _ n E) in Ha by lia.
        injection Ha as <-. unfold release_ip. rewrite lookup_insert_eq.
        replace (n + 1 - 1)%Z with n by lia.
        specialize (Inv ip n E).
        destruct (Z.eqb_spec n 0); [lia|].
        now rewrite insert_insert_eq, insert_id.
    - rewrite (AdmissionFacts.admit_ip_new ip _ E) in Ha. injection Ha as <-.
      unfold release_ip. rewrite lookup_insert_eq.
      change (1 - 1 =? 0)%Z with true. cbv iota.
      now rewrite !delete_insert_eq, delete_id. }
  unfold ws_teardown.
  cbn [session_ip session_server_id session_user_id ip_connections with_connected
       with_ip_connections].
  fold ip. rewrite Hrel. cbn [fst snd ip_connections with_ip_connections].
  split; [reflexivity|]. split; [reflexivity|].
  unfold conn_of. cbn [connected with_connected with_ip_connections].
  apply EndpointFacts.unregister_same.
Qed.

End ConnectFacts.

(** ** Members, bundles and tokens *)

Module MembershipFacts.
Import Base64 Backend.

(** The store after a join that returned its response. *)
Lemma join_server_store now tok sid body (w w' : World) resp :
  join_server now tok sid body w = (w', Return resp) ->
  exists doc uid bundle server,
    servers_col w !! sid = Some doc
    /\ body_user_id body = Some uid /\ uid <> ""
    /\ body_prekey_bundle body ≫= decode_bundle = Some bundle
    /\ stored_doc now uid bundle doc = Some server
    /\ servers_col w' !! sid = Some server
    /\ (forall tdoc, member_tokens_col w !! sid = Some tdoc ->
          exists tdoc', store_token uid tok (touch_tokens now tdoc) = Some tdoc'
                        /\ member_tokens_col w' !! sid = Some tdoc')
    /\ (forall sid', sid' <> sid ->
          servers_col w' !! sid' = servers_col w !! sid'
          /\ member_tokens_col w' !! sid' = member_tokens_col w !! sid')
    /\ member_token resp = tok
    /\ response_admin_user_id resp = Some (default uid (admin_user_id doc)).
Proof.
  intros H.
  pose proof (JoinFacts.join_server_effect _ _ _ _ _ _ _ H) as (_ & Hoth & Hcases).
  destruct (JoinFacts.join_server_returns_doc _ _ _ _ _ _ _ H)
    as (doc & uid & bundle & server & Hdoc & Huid & Hne & Hd & Hst & Hs & _ & Hm & Ha).
  exists doc, uid, bundle, server. repeat (split; [assumption|]).
  split; [|split; [exact Hoth|split; assumption]].
  destruct Hcases as [(_ & _ & Hr)
                     |(doc0 & uid0 & bundle0 & server0 & _ & Huid0 & _ & _ & _ & Ht)].
  - now destruct (Hr resp).
  - assert (uid0 = uid) as -> by congruence.
    intros tdoc Htd. destruct Ht as [[_ [=]]|Ht]. now rewrite Htd in Ht.
Qed.

(** A lookup of a key that the members of the room hold: lines 158 to
    164 on the entry. *)
Lemma get_prekey_found now sid uid (w : World) doc v :
  servers_col w !! sid = Some doc ->
  Dict.get uid (members doc) = Some v ->
  snd (get_prekey now sid uid w)
  = match encoded v with
    | inr p => Return p
    | inl e => Raise e
    end.
Proof.
  intros Hdoc Hg. unfold get_prekey.
  rewrite StoreFacts.lookup_servers_update_activity, Hdoc.
  cbn [fmap option_fmap option_map members touch_server]. rewrite Hg.
  now destruct (encoded v).
Qed.

(** X2. A prekey lookup answers 404 exactly when the room is unknown or
    the members dictionary of the room has no such key; otherwise it
    returns what lines 158 to 164 make of the entry under that key, or
    raises what they raise. For an entry that a join stored, that is the
    base64 form of the stored bundle, which decodes to the stored
    registration id and the stored bytes of the four key fields. *)
Theorem get_prekey_returns_stored now sid uid (w : World) :
  (snd (get_prekey now sid uid w) = HTTPException 404 "Not found" <->
   servers_col w !! sid = None
   \/ exists doc, servers_col w !! sid = Some doc /\ Dict.get uid (members doc) = None)
  /\ (forall doc v, servers_col w !! sid = Some doc ->
        Dict.get uid (members doc) = Some v ->
        snd (get_prekey now sid uid w)
        = match encoded v with
          | inr p => Return p
          | inl e => Raise e
          end)
  /\ (forall doc b, servers_col w !! sid = Some doc ->
        Dict.get uid (members doc) = Some (bundle_doc b) ->
        snd (get_prekey now sid uid w) = Return (encode_bundle b)
        /\ decode_bundle (as_request (encode_bundle b)) = Some b).
Proof.
  pose proof (get_prekey_found now sid uid w) as Hv.
  split; [|split; [exact Hv|]].
  - destruct (servers_col w !! sid) as [doc|] eqn:Hdoc.
    + destruct (Dict.get uid (members doc)) as [v|] eqn:Hg.
      * rewrite (Hv doc v eq_refl Hg). split.
        -- destruct (encoded v); discriminate.
        -- intros [H|(doc' & [= <-] & H)]; congruence.
      * split; [intros _; right; eauto|]. intros _. unfold get_prekey.
        rewrite StoreFacts.lookup_servers_update_activity, Hdoc.
        cbn [fmap option_fmap option_map members touch_server]. now rewrite Hg.
    + split; [now left|]. intros _. unfold get_prekey.
      now rewrite StoreFacts.lookup_servers_update_activity, Hdoc.
  - intros doc b Hdoc Hg. rewrite (Hv doc _ Hdoc Hg), JoinFacts.encoded_bundle_doc.
    split; [reflexivity|apply JoinFacts.decode_encode_bundle].
Qed.

(** X3. After a join that returned its response: when the user id of the
    join has no dot, a prekey lookup of that member returns a bundle that
    decodes to what the bundle of the join request decodes to; and the
    lookup of any key other than the one the join wrote (the user id up to
    its first dot) answers what it answered before the join. *)
Theorem join_then_get_prekey now tok sid body (w w' : World) resp now' uid :
  join_server now tok sid body w = (w', Return resp) ->
  body_user_id body = Some uid ->
  (split_path uid = [uid] ->
   exists p q b,
     body_prekey_bundle body = Some p
     /\ snd (get_prekey now' sid uid w') = Return q
     /\ decode_bundle p = Some b /\ decode_bundle (as_request q) = Some b)
  /\ (forall u, u <> head_of uid ->
        snd (get_prekey now' sid u w') = snd (get_prekey now' sid u w)).
Proof.
  intros H Huid.
  destruct (join_server_store _ _ _ _ _ _ _ H)
    as (doc & uid' & bundle & server & Hdoc & Huid' & _ & Hd & Hst & Hs & _).
  assert (uid' = uid) as -> by congruence.
  destruct (JoinFacts.stored_doc_Some _ _ _ _ _ Hst) as (_ & _ & _ & _ & Hset).
  split.
  - intros Hplain.
    destruct (body_prekey_bundle body) as [p|] eqn:Hp; [|discriminate].
    simpl in Hd. exists p, (encode_bundle bundle), bundle.
    split; [reflexivity|].
    rewrite (get_prekey_found now' sid uid w' server (bundle_doc bundle) Hs).
    2: { rewrite (PathFacts.set_field_dotless _ _ _ _ Hplain Hset).
         apply DictFacts.get_set_eq. }
    rewrite JoinFacts.encoded_bundle_doc.
    split; [reflexivity|]. split; [exact Hd|apply JoinFacts.decode_encode_bundle].
  - intros u Hu. unfold get_prekey.
    rewrite !StoreFacts.lookup_servers_update_activity, Hs, Hdoc.
    cbn [fmap option_fmap option_map members touch_server].
    rewrite (PathFacts.get_set_field_other _ _ _ _ u Hset Hu).
    destruct (Dict.get u (members doc)) as [b|]; [|reflexivity].
    now destruct (encoded b).
Qed.

(** X4. A join that returned its response has recorded the decoded bundle
    of the request at the path of its user id in the members of the room,
    and the fresh token at that path in the tokens of the room, in place
    of whatever was there; what the room records under every key but the
    one written (the user id up to its first dot), its join token and its
    creation time, and the documents of every other room, are what they
    were. For a user id without a dot the path is the key of the member:
    the bundle and the token are recorded for that member, and the
    bundles and tokens of the other members are what they were. *)
Theorem join_replaces_own_entry now tok sid body (w w' : World) resp :
  join_server now tok sid body w = (w', Return resp) ->
  exists uid bundle doc doc',
    body_user_id body = Some uid
    /\ body_prekey_bundle body ≫= decode_bundle = Some bundle
    /\ servers_col w !! sid = Some doc /\ servers_col w' !! sid = Some doc'
    /\ get_path (split_path uid) (members doc') = Some (bundle_doc bundle)
    /\ (forall u, u <> head_of uid -> Dict.get u (members doc') = Dict.get u (members doc))
    /\ join_token doc' = join_token doc /\ created_at doc' = created_at doc
    /\ (forall tdoc, member_tokens_col w !! sid = Some tdoc ->
          exists tdoc', member_tokens_col w' !! sid = Some tdoc'
                        /\ get_path (split_path uid) (tokens tdoc') = Some (VStr tok)
                        /\ forall u, u <> head_of uid ->
                             Dict.get u (tokens tdoc') = Dict.get u (tokens tdoc))
    /\ (forall sid', sid' <> sid ->
          servers_col w' !! sid' = servers_col w !! sid'
          /\ member_tokens_col w' !! sid' = member_tokens_col w !! sid')
    /\ (split_path uid = [uid] ->
        Dict.get uid (members doc') = Some (bundle_doc bundle)
        /\ (forall u, u <> uid -> Dict.get u (members doc') = Dict.get u (members doc))
        /\ forall tdoc, member_tokens_col w !! sid = Some tdoc ->
             exists tdoc', member_tokens_col w' !! sid = Some tdoc'
                           /\ Dict.get uid (tokens tdoc') = Some (VStr tok)
                           /\ forall u, u <> uid ->
                                Dict.get u (tokens tdoc') = Dict.get u (tokens tdoc)).
Proof.
  intros H.
  destruct (join_server_store _ _ _ _ _ _ _ H)
    as (doc & uid & bundle & server & Hdoc & Huid & _ & Hd & Hst & Hs & Ht & Hoth & _).
  destruct (JoinFacts.stored_doc_Some _ _ _ _ _ Hst) as (Hj & Hc & _ & _ & Hset).
  assert (Htok : forall tdoc, member_tokens_col w !! sid = Some tdoc ->
            exists tdoc', member_tokens_col w' !! sid = Some tdoc'
                          /\ set_field uid (VStr tok) (tokens tdoc) = Some (tokens tdoc')).
  { intros tdoc Htd. destruct (Ht tdoc Htd) as (tdoc' & Hstore & Hl).
    exists tdoc'. split; [exact Hl|].
    now apply JoinFacts.store_token_Some in Hstore. }
  exists uid, bundle, doc, server.
  split; [exact Huid|]. split; [exact Hd|]. split; [exact Hdoc|]. split; [exact Hs|].
  split; [exact (PathFacts.get_set_field _ _ _ _ Hset)|].
  split; [intros u Hu; exact (PathFacts.get_set_field_other _ _ _ _ u Hset Hu)|].
  split; [exact Hj|]. split; [exact Hc|]. split; [|split; [exact Hoth|]].
  - intros tdoc Htd. destruct (Htok tdoc Htd) as (tdoc' & Hl & Hset').
    exists tdoc'. split; [exact Hl|].
    split; [exact (PathFacts.get_set_field _ _ _ _ Hset')|].
    intros u Hu. exact (PathFacts.get_set_field_other _ _ _ _ u Hset' Hu).
  - intros Hplain. pose proof (PathFacts.head_of_dotless uid Hplain) as Hh.
    rewrite (PathFacts.set_field_dotless _ _ _ _ Hplain Hset).
    split; [apply DictFacts.get_set_eq|].
    split; [intros u Hu; apply DictFacts.get_set_ne; congruence|].
    intros tdoc Htd. destruct (Htok tdoc Htd) as (tdoc' & Hl & Hset').
    exists tdoc'. split; [exact Hl|].
    rewrite (PathFacts.set_field_dotless _ _ _ _ Hplain Hset').
    split; [apply DictFacts.get_set_eq|].
    intros u Hu. apply DictFacts.get_set_ne. congruence.
Qed.

Lemma find_user_set_new uid tok (ts : list (string * Value)) :
  (forall u, In (u, VStr tok) ts -> u = uid) ->
  find_user tok (Dict.set uid (VStr tok) ts) = Some uid.
Proof.
  induction ts as [|[u0 t0] ts IH]; intros H; cbn [Dict.set find_user is_token].
  - now rewrite String.eqb_refl.
  - destruct (String.eqb_spec uid u0) as [<-|Hne]; cbn [find_user is_token].
    + now rewrite String.eqb_refl.
    + destruct (is_token tok t0) eqn:E.
      * apply ConnectFacts.is_token_spec in E. subst t0.
        exfalso. apply Hne. symmetry. apply H. now left.
      * apply IH. intros u Hu. apply H. now right.
Qed.

Lemma find_user_set_old uid tok old (ts : list (string * Value)) :
  old <> tok -> List.NoDup (map fst ts) ->
  (forall u, In (u, VStr old) ts -> u = uid) ->
  find_user old (Dict.set uid (VStr tok) ts) = None.
Proof.
  intros Hold. induction ts as [|[u0 t0] ts IH]; intros Hnd H;
    cbn [Dict.set find_user is_token].
  - destruct (String.eqb_spec tok old); [congruence|reflexivity].
  - cbn [map fst] in Hnd. apply List.NoDup_cons_iff in Hnd. destruct Hnd as [Hnin Hnd].
    destruct (String.eqb_spec uid u0) as [<-|Hne]; cbn [find_user is_token].
    + destruct (String.eqb_spec tok old); [congruence|].
      apply ConnectFacts.find_user_None. intros u Hu.
      assert (u = uid) as -> by (apply H; now right).
      apply Hnin. apply (in_map fst) in Hu. exact Hu.
    + destruct (is_token old t0) eqn:E.
      * apply ConnectFacts.is_token_spec in E. subst t0.
        exfalso. apply Hne. symmetry. apply H. now left.
      * apply IH; [exact Hnd|]. intros u Hu. apply H. now right.
Qed.

Lemma ws_connect_unknown_token now ws sid tok cf host (w : World) tdoc :
  member_tokens_col w !! sid = Some tdoc ->
  find_user tok (tokens tdoc) = None ->
  ws_connect now ws sid tok cf host w = (update_activity now sid w, Closed 1008).
Proof.
  intros Ht Hu. unfold ws_connect.
  destruct (servers_col (update_activity now sid w) !! sid); [|reflexivity].
  rewrite StoreFacts.lookup_tokens_update_activity, Ht.
  cbn [fmap option_fmap option_map tokens touch_tokens]. now rewrite Hu.
Qed.

(** X6. After a join, of a user id without a dot, that returned its
    response, the fresh token connects as the member who joined (the
    request is accepted as that member or refused for the origin's count,
    never closed with 1008), provided no other key of the room's tokens
    holds the same token string; and a token that was stored for that
    member alone before the join, other than the fresh one, no longer
    connects: the request is closed with 1008. *)
Theorem rejoin_rotates_token now tok sid body (w w' : World) resp uid tdoc :
  join_server now tok sid body w = (w', Return resp) ->
  body_user_id body = Some uid ->
  split_path uid = [uid] ->
  member_tokens_col w !! sid = Some tdoc ->
  ((forall u, In (u, VStr tok) (tokens tdoc) -> u = uid) ->
   forall now' ws cf host w1 out,
     ws_connect now' ws sid tok cf host w' = (w1, out) ->
     out = Closed 1013
     \/ out = Accepted {| session_server_id := sid; session_user_id := uid;
                          session_ip := default host cf; session_websocket := ws |})
  /\ (forall old, old <> tok ->
        List.NoDup (map fst (tokens tdoc)) ->
        (forall u, In (u, VStr old) (tokens tdoc) -> u = uid) ->
        forall now' ws cf host,
          ws_connect now' ws sid old cf host w'
          = (update_activity now' sid w', Closed 1008)).
Proof.
  intros H Huid Hplain Htd.
  destruct (join_server_store _ _ _ _ _ _ _ H)
    as (doc & uid' & bundle & server & Hdoc & Huid' & _ & _ & _ & Hl & Ht & _).
  assert (uid' = uid) as -> by congruence.
  destruct (Ht tdoc Htd) as (tdoc' & Hstore & Hlt).
  apply JoinFacts.store_token_Some in Hstore. destruct Hstore as (_ & _ & Hset).
  apply (PathFacts.set_field_dotless _ _ _ _ Hplain) in Hset.
  cbn [tokens touch_tokens] in Hset.
  split.
  - intros Hfresh now' ws cf host w1 out Hc.
    rewrite (AdmissionFacts.ws_connect_authenticated now' ws sid tok cf host w' _ _ uid
               Hl Hlt) in Hc.
    + cbv zeta in Hc. destruct (admit_ip _ _) as [ic [|]]; injection Hc as _ <-; auto.
    + rewrite Hset. now apply find_user_set_new.
  - intros old Hold Hnd Honly now' ws cf host.
    apply (ws_connect_unknown_token _ _ _ _ _ _ _ _ Hlt).
    rewrite Hset. now apply find_user_set_old.
Qed.

End MembershipFacts.

(** ** The rate windows of the receive loop *)

Module WindowFacts.
Import Backend Invariants.

Lemma kept_length key now (rl : gmap string (list Q)) :
  (length (kept key now rl) <= length (default [] (rl !! key)))%nat.
Proof. unfold kept. apply List.filter_length_le. Qed.

Lemma is_rate_limited_other key now (rl : gmap string (list Q)) k :
  k <> key -> fst (is_rate_limited key now rl) !! k = rl !! k.
Proof.
  intros Hne. rewrite RateLimitFacts.is_rate_limited_eq.
  destruct (Nat.leb _ _); cbn [fst]; now rewrite lookup_insert_ne.
Qed.

Lemma is_rate_limited_same key now (rl : gmap string (list Q)) :
  fst (is_rate_limited key now rl) !! key
  = Some (if snd (is_rate_limited key now rl) then kept key now rl
          else kept key now rl ++ [now]).
Proof.
  rewrite RateLimitFacts.is_rate_limited_eq.
  destruct (Nat.leb _ _); cbn [fst snd]; now rewrite lookup_insert_eq.
Qed.

Lemma is_rate_limited_bounded key now (rl : gmap string (list Q)) :
  (forall k l, rl !! k = Some l -> (length l <= MESSAGE_LIMIT)%nat) ->
  forall k l, fst (is_rate_limited key now rl) !! k = Some l ->
              (length l <= MESSAGE_LIMIT)%nat.
Proof.
  intros Inv k l. destruct (decide (k = key)) as [->|Hne].
  - rewrite RateLimitFacts.is_rate_limited_eq.
    destruct (Nat.leb_spec MESSAGE_LIMIT (length (kept key now rl))) as [Hle|Hlt];
      cbn [fst]; rewrite lookup_insert_eq; intros [= <-].
    + pose proof (kept_length key now rl) as Hk.
      destruct (rl !! key) as [l0|] eqn:E; cbn in Hk; [|lia].
      specialize (Inv key l0 E). lia.
    + rewrite length_app. cbn. lia.
  - rewrite is_rate_limited_other by exact Hne. apply Inv.
Qed.

Lemma now_in_window (now : Q) : Qltb (now - now)%Q WINDOW_SEC = true.
Proof. apply RateLimitFacts.Qltb_lt. unfold WINDOW_SEC. lra. Qed.

Section Receive.
Variable str_len : Frame -> Z.

Lemma windows_bounded_ws_receive s data now utcnow (w : World) :
  windows_bounded w -> windows_bounded (fst (ws_receive str_len s data now utcnow w)).
Proof.
  intros Inv. unfold ws_receive.
  destruct (SIZE_LIMIT <? str_len data)%Z; [exact Inv|].
  pose proof (is_rate_limited_bounded (session_user_id s) now (rate_limits w) Inv) as B1.
  destruct (is_rate_limited (session_user_id s) now (rate_limits w)) as [rl1 [|]];
    [exact B1|].
  cbn [rate_limits with_rate_limits fst] in *.
  pose proof (is_rate_limited_bounded (session_ip s) now rl1 B1) as B2.
  destruct (is_rate_limited (session_ip s) now rl1) as [rl2 [|]]; [exact B2|].
  cbn [fst] in B2.
  match goal with
  | |- context [dispatch ?a ?b ?c] =>
      destruct (FrameFacts.dispatch_frame a b c) as [d ->]
  end.
  exact B2.
Qed.

Lemma step_windows_bounded ev (w : World) :
  windows_bounded w -> windows_bounded (step str_len ev w).
Proof.
  intros Inv.
  destruct ev as [sid tok now|now tok sid body|now sid uid|now ws sid tok cf host
                 |s data now utcnow|s|ws e]; cbn [step]; unfold windows_bounded.
  - now rewrite (proj1 (FrameFacts.create_server_runtime sid tok now w)).
  - now rewrite (proj1 (proj2 (FrameFacts.join_server_runtime now tok sid body w))).
  - now rewrite (ActivityFacts.activity_stamp_lookup now sid uid w).
  - unfold ws_connect.
    destruct (servers_col (update_activity now sid w) !! sid); [|exact Inv].
    destruct (match member_tokens_col (update_activity now sid w) !! sid with
              | Some tokens_doc => find_user tok (tokens tokens_doc)
              | None => None
              end); [|exact Inv].
    destruct (admit_ip _ _) as [ic [|]]; exact Inv.
  - now apply windows_bounded_ws_receive.
  - unfold ws_teardown. cbn [ip_connections with_connected].
    destruct (release_ip _ _); exact Inv.
  - exact Inv.
Qed.

(** X9. Whatever has been received, from whomever, no key of
    [rate_limits] ever holds more than MESSAGE_LIMIT timestamps. *)
Theorem windows_always_bounded (evs : list Event) (key : string) (l : list Q) :
  rate_limits (run str_len evs empty_world) !! key = Some l ->
  (length l <= MESSAGE_LIMIT)%nat.
Proof.
  revert key l. change (windows_bounded (run str_len evs empty_world)).
  assert (H : forall w : World, windows_bounded w -> windows_bounded (run str_len evs w)).
  { induction evs as [|ev evs IH]; intros w Inv; [exact Inv|].
    apply IH. now apply step_windows_bounded. }
  apply H. intros key l E. cbn in E. now rewrite lookup_empty in E.
Qed.

(** X10. A frame of allowed size that a rate limiter stops is dropped
    without a trace outside [rate_limits]: nothing is sent, nothing is
    raised, the store is not stamped and the loop goes on. When it is the
    limiter of the member that stops it, the time of the frame is not
    recorded. When the member passes and the limiter of the origin stops
    it, the time of the frame stays recorded in the window of the member
    although the frame was not relayed. *)
Theorem rate_limited_frame_dropped s data now utcnow rest (w : World) :
  (str_len data <= SIZE_LIMIT)%Z ->
  (forall rl1, is_rate_limited (session_user_id s) now (rate_limits w) = (rl1, true) ->
     ws_receive str_len s data now utcnow w = (with_rate_limits rl1 w, None)
     /\ rl1 !! session_user_id s = Some (kept (session_user_id s) now (rate_limits w))
     /\ ws_loop str_len s (Recv data now utcnow :: rest) w
        = ws_loop str_len s rest (with_rate_limits rl1 w))
  /\ (forall rl1 rl2,
        is_rate_limited (session_user_id s) now (rate_limits w) = (rl1, false) ->
        is_rate_limited (session_ip s) now rl1 = (rl2, true) ->
        ws_receive str_len s data now utcnow w = (with_rate_limits rl2 w, None)
        /\ (exists l, rl2 !! session_user_id s = Some l /\ In now l)
        /\ ws_loop str_len s (Recv data now utcnow :: rest) w
           = ws_loop str_len s rest (with_rate_limits rl2 w)).
Proof.
  intros Hsz. split.
  - intros rl1 H1.
    assert (E : ws_receive str_len s data now utcnow w = (with_rate_limits rl1 w, None)).
    { unfold ws_receive. destruct (Z.ltb_spec SIZE_LIMIT (str_len data)); [lia|].
      now rewrite H1. }
    split; [exact E|]. split.
    + pose proof (is_rate_limited_same (session_user_id s) now (rate_limits w)) as Hs.
      now rewrite H1 in Hs.
    + cbn [ws_loop]. now rewrite E.
  - intros rl1 rl2 H1 H2.
    assert (E : ws_receive str_len s data now utcnow w = (with_rate_limits rl2 w, None)).
    { unfold ws_receive. destruct (Z.ltb_spec SIZE_LIMIT (str_len data)); [lia|].
      rewrite H1. cbn [rate_limits with_rate_limits]. now rewrite H2. }
    split; [exact E|]. split.
    + pose proof (is_rate_limited_same (session_user_id s) now (rate_limits w)) as Hs1.
      rewrite H1 in Hs1. cbn [fst snd] in Hs1.
      destruct (decide (session_user_id s = session_ip s)) as [Heq|Hne].
      * pose proof (is_rate_limited_same (session_ip s) now rl1) as Hs2.
        rewrite H2 in Hs2. cbn [fst snd] in Hs2. rewrite Heq.
        eexists. split; [exact Hs2|].
        unfold kept. rewrite <- Heq, Hs1. cbn [default from_option id].
        apply filter_In. split; [apply in_or_app; right; now left|].
        apply now_in_window.
      * pose proof (is_rate_limited_other (session_ip s) now rl1 (session_user_id s) Hne)
          as Ho.
        rewrite H2 in Ho. cbn [fst] in Ho. rewrite Ho, Hs1.
        eexists. split; [reflexivity|]. apply in_or_app. right. now left.
    + cbn [ws_loop]. now rewrite E.
Qed.

(** X17. Members and origins share the keys of [rate_limits]. For a
    session whose member id is the same string as its origin, a relayed
    frame is recorded twice under that one key, so with eight or fewer
    timestamps in the window the frame passes and leaves two more, and
    with nine or more the frame is dropped: such a session relays at most
    five frames per window. *)
Theorem member_named_as_origin s data now utcnow (w : World) :
  session_user_id s = session_ip s ->
  (str_len data <= SIZE_LIMIT)%Z ->
  let key := session_ip s in
  let l := default [] (rate_limits w !! key) in
  (forall t, In t l -> (now - t < WINDOW_SEC)%Q) ->
  ((length l + 2 <= MESSAGE_LIMIT)%nat ->
   ws_receive str_len s data now utcnow w
   = dispatch (session_server_id s) data
       (update_activity utcnow (session_server_id s)
          (with_rate_limits (<[key := l ++ [now; now]]> (rate_limits w)) w)))
  /\ ((MESSAGE_LIMIT <= length l + 1)%nat ->
      exists rl, ws_receive str_len s data now utcnow w = (with_rate_limits rl w, None)).
Proof.
  intros Heq Hsz key l Hwin.
  assert (Hk : kept key now (rate_limits w) = l).
  { unfold kept. apply RateLimitFacts.filter_keeps_all.
    intros t Ht. apply RateLimitFacts.Qltb_lt. now apply Hwin. }
  assert (Hk' : kept key now (<[key := l ++ [now]]> (rate_limits w)) = l ++ [now]).
  { unfold kept. rewrite lookup_insert_eq. cbn [default from_option id].
    apply RateLimitFacts.filter_keeps_all. intros t Ht.
    apply in_app_or in Ht. destruct Ht as [Ht|[<-|[]]].
    - apply RateLimitFacts.Qltb_lt. now apply Hwin.
    - apply now_in_window. }
  split.
  - intros Hlen.
    rewrite (EndpointFacts.ws_receive_accepted str_len s data now utcnow w
               (<[key := l ++ [now]]> (rate_limits w))
               (<[key := l ++ [now; now]]> (rate_limits w)) Hsz); [reflexivity| |].
    + rewrite Heq. fold key. rewrite RateLimitFacts.is_rate_limited_eq, Hk.
      destruct (Nat.leb_spec MESSAGE_LIMIT (length l)); [lia|reflexivity].
    + fold key. rewrite RateLimitFacts.is_rate_limited_eq, Hk'.
      rewrite length_app. cbn [length].
      destruct (Nat.leb_spec MESSAGE_LIMIT (length l + 1)); [lia|].
      rewrite insert_insert_eq, <- app_assoc. reflexivity.
  - intros Hlen. unfold ws_receive.
    destruct (Z.ltb_spec SIZE_LIMIT (str_len data)); [lia|].
    rewrite Heq. fold key. rewrite RateLimitFacts.is_rate_limited_eq, Hk.
    destruct (Nat.leb_spec MESSAGE_LIMIT (length l)) as [H10|H9]; [eauto|].
    cbn [rate_limits with_rate_limits].
    rewrite RateLimitFacts.is_rate_limited_eq, Hk'. rewrite length_app. cbn [length].
    destruct (Nat.leb_spec MESSAGE_LIMIT (length l + 1)); [eauto|lia].
Qed.

End Receive.
End WindowFacts.

(** ** Where frames and notifications go *)

Module RelayFacts.
Import Backend.

Lemma send_all_prefix wss m : forall w : World,
  exists pre post,
    wss = pre ++ post
    /\ fst (send_all wss m w)
       = with_delivered (delivered w ++ map (fun x => (x, m)) pre) w.
Proof.
  induction wss as [|ws wss IH]; intros w; cbn [send_all].
  - exists [], []. split; [reflexivity|]. simpl.
    now rewrite app_nil_r, SendFacts.with_delivered_id.
  - unfold send_json. destruct (broken w !! ws) as [e|].
    + exists [], (ws :: wss). split; [reflexivity|]. simpl.
      now rewrite app_nil_r, SendFacts.with_delivered_id.
    + destruct (IH (with_delivered (delivered w ++ [(ws, m)]) w)) as (pre & post & -> & Hd).
      exists (ws :: pre), post. split; [reflexivity|].
      destruct (send_all (pre ++ post) m _) as [w' [e|]]; cbn [fst] in *; rewrite Hd;
        cbn [delivered with_delivered map]; now rewrite <- app_assoc.
Qed.

Lemma send_all_completes wss m : forall w w' : World,
  send_all wss m w = (w', None) ->
  w' = with_delivered (delivered w ++ map (fun x => (x, m)) wss) w.
Proof.
  induction wss as [|ws wss IH]; intros w w'; cbn [send_all map].
  - intros [= <-]. now rewrite app_nil_r, SendFacts.with_delivered_id.
  - unfold send_json. destruct (broken w !! ws) as [e|]; [discriminate|].
    intros H. destruct (send_all wss m _) as [w1 [e|]] eqn:E; [discriminate|].
    injection H as <-. rewrite (IH _ _ E).
    cbn [delivered with_delivered]. now rewrite <- app_assoc.
Qed.

(** What [dispatch] sends, and to whom. *)
Lemma dispatch_deliveries sid data (w : World) :
  exists d,
    fst (dispatch sid data w) = with_delivered (delivered w ++ d) w
    /\ (forall ws m, In (ws, m) d ->
          m = Relay data
          /\ exists room, connected w !! sid = Some room /\ In ws (Dict.values room))
    /\ (frame_type data = Some "private" ->
          (length d <= 1)%nat
          /\ forall ws m, In (ws, m) d ->
               conn_of w sid (default "" (frame_to data)) = Some ws)
    /\ (frame_type data <> Some "private" -> frame_type data <> Some "group" ->
        frame_type data <> Some "join_notification" -> d = []).
Proof.
  assert (Hnil : exists d,
            w = with_delivered (delivered w ++ d) w
            /\ (forall ws m, In (ws, m) d ->
                  m = Relay data
                  /\ exists room, connected w !! sid = Some room
                                  /\ In ws (Dict.values room))
            /\ (frame_type data = Some "private" ->
                  (length d <= 1)%nat
                  /\ forall ws m, In (ws, m) d ->
                       conn_of w sid (default "" (frame_to data)) = Some ws)
            /\ (frame_type data <> Some "private" -> frame_type data <> Some "group" ->
                frame_type data <> Some "join_notification" -> d = [])).
  { exists []. rewrite app_nil_r, SendFacts.with_delivered_id.
    split; [reflexivity|]. split; [intros ws m []|].
    split; [|reflexivity]. intros _. split; [simpl; lia|intros ws m []]. }
  unfold dispatch. destruct (bool_decide (frame_type data = Some "private")) eqn:Hp.
  - apply bool_decide_eq_true_1 in Hp.
    destruct (truthy (frame_to data)); [|exact Hnil].
    destruct (connected w !! sid) as [room|] eqn:Hr; [|exact Hnil].
    destruct (Dict.get (default "" (frame_to data)) room) as [ws0|] eqn:Hg; [|exact Hnil].
    unfold send_json. destruct (broken w !! ws0); [exact Hnil|].
    exists [(ws0, Relay data)]. split; [reflexivity|].
    assert (Hc : conn_of w sid (default "" (frame_to data)) = Some ws0).
    { unfold conn_of. rewrite Hr. exact Hg. }
    split; [|split].
    + intros ws m [[= <- <-]|[]]. split; [reflexivity|].
      exists room. split; [reflexivity|]. now apply (DictFacts.get_In _ _ _ Hg).
    + intros _. split; [simpl; lia|]. now intros ws m [[= <- <-]|[]].
    + congruence.
  - apply bool_decide_eq_false_1 in Hp.
    destruct (bool_decide (frame_type data = Some "group")
              || bool_decide (frame_type data = Some "join_notification")) eqn:Hg;
      [|exact Hnil].
    destruct (connected w !! sid) as [room|] eqn:Hr; [|exact Hnil].
    destruct (send_all_prefix (Dict.values room) (Relay data) w) as (pre & post & Hv & Hd).
    exists (map (fun x => (x, Relay data)) pre). split; [exact Hd|].
    split; [|split].
    + intros ws m Hin. apply in_map_iff in Hin. destruct Hin as (x & [= <- <-] & Hx).
      split; [reflexivity|]. exists room. split; [reflexivity|].
      rewrite Hv. apply in_or_app. now left.
    + congruence.
    + intros _ H1 H2. apply orb_true_iff in Hg.
      destruct Hg as [Hg|Hg]; apply bool_decide_eq_true_1 in Hg; congruence.
Qed.

(** X13. The only thing a join sends is its join notification, naming the
    member of the request, to sockets registered in the room of the
    request. A join answered with an HTTP error has sent nothing; a join
    that returned its response has sent the notification to every socket
    of the room, in registry order. *)
Theorem join_notifies_room now tok sid body (w : World) :
  exists d,
    delivered (fst (join_server now tok sid body w)) = delivered w ++ d
    /\ (forall ws m, In (ws, m) d ->
          m = JoinNotification (default "" (body_user_id body))
          /\ exists room, connected w !! sid = Some room /\ In ws (Dict.values room))
    /\ (forall code detail,
          snd (join_server now tok sid body w) = HTTPException code detail -> d = [])
    /\ (forall resp room,
          snd (join_server now tok sid body w) = Return resp ->
          connected w !! sid = Some room ->
          d = map (fun ws => (ws, JoinNotification (default "" (body_user_id body))))
                (Dict.values room)).
Proof.
  destruct (join_server now tok sid body w) as [w' r] eqn:H. cbn [fst snd].
  assert (Hnone : forall w0 : World, delivered w0 = delivered w ->
            (forall resp, r <> Return resp) ->
            exists d,
              delivered w0 = delivered w ++ d
              /\ (forall ws m, In (ws, m) d ->
                    m = JoinNotification (default "" (body_user_id body))
                    /\ exists room, connected w !! sid = Some room
                                    /\ In ws (Dict.values room))
              /\ (forall code detail, r = HTTPException code detail -> d = [])
              /\ (forall resp room, r = Return resp -> connected w !! sid = Some room ->
                    d = map (fun ws => (ws, JoinNotification
                                              (default "" (body_user_id body))))
                          (Dict.values room))).
  { intros w0 Hd Hr. exists []. rewrite app_nil_r. split; [exact Hd|].
    split; [intros ws m []|]. split; [reflexivity|].
    intros resp room Hret. now destruct (Hr resp). }
  apply JoinFacts.join_server_cases in H.
  destruct H as [[-> (code & detail & ->)]
                |(doc & uid & bundle & w2 & oc & Hdoc & _ & Huid & _ & _ & Hc & H)].
  { apply Hnone; [reflexivity|discriminate]. }
  destruct (JoinFacts.committed_cases _ _ _ _ _ _ _ _ _ Hdoc Hc)
    as ((Hc2 & _ & _ & _ & Hd2) & _ & _).
  destruct oc as [e|].
  { destruct H as [-> ->]. apply Hnone; [exact Hd2|discriminate]. }
  destruct H as (server & _ & H).
  destruct (others_of uid (members server)) as [e|ots].
  { destruct H as [-> ->]. apply Hnone; [exact Hd2|discriminate]. }
  destruct H as (oe & Hb & ->). rewrite Huid. cbn [default from_option id].
  unfold join_broadcast in Hb. rewrite Hc2 in Hb.
  destruct (connected w !! sid) as [room|] eqn:Hr.
  - destruct (send_all_prefix (Dict.values room) (JoinNotification uid) w2)
      as (pre & post & Hv & Hd).
    rewrite Hb in Hd. cbn [fst] in Hd.
    exists (map (fun x => (x, JoinNotification uid)) pre).
    split; [now rewrite Hd, <- Hd2|]. split; [|split].
    + intros ws m Hin. apply in_map_iff in Hin. destruct Hin as (x & [= <- <-] & Hx).
      split; [reflexivity|]. exists room. split; [reflexivity|].
      rewrite Hv. apply in_or_app. now left.
    + intros code detail Hr'. destruct oe; discriminate.
    + intros resp room' Hret [= <-]. destruct oe as [e|]; [discriminate|].
      apply send_all_completes in Hb. rewrite Hb in Hd.
      apply (f_equal delivered) in Hd. cbn [delivered with_delivered] in Hd.
      apply app_inv_head in Hd. now rewrite Hd.
  - injection Hb as <- <-. exists []. rewrite app_nil_r. split; [exact Hd2|].
    split; [intros ws m []|]. split; [reflexivity|discriminate].
Qed.

Section Receive.
Variable str_len : Frame -> Z.

(** X12. Whatever a received frame leads to, also when a send raises or a
    limiter stops the frame, everything that is sent for it is the frame
    itself, sent to sockets registered in the room of the session; for a
    private frame that is at most one socket, the one registered for the
    [to] of the frame; for a frame of another type than private, group or
    join_notification it is nothing. *)
Theorem relay_confined_to_room s data now utcnow (w : World) :
  exists d,
    delivered (fst (ws_receive str_len s data now utcnow w)) = delivered w ++ d
    /\ (forall ws m, In (ws, m) d ->
          m = Relay data
          /\ exists room, connected w !! session_server_id s = Some room
                          /\ In ws (Dict.values room))
    /\ (frame_type data = Some "private" ->
          (length d <= 1)%nat
          /\ forall ws m, In (ws, m) d ->
               conn_of w (session_server_id s) (default "" (frame_to data)) = Some ws)
    /\ (frame_type data <> Some "private" -> frame_type data <> Some "group" ->
        frame_type data <> Some "join_notification" -> d = []).
Proof.
  assert (Hnil : forall w' : World, delivered w' = delivered w ->
            exists d,
              delivered w' = delivered w ++ d
              /\ (forall ws m, In (ws, m) d ->
                    m = Relay data
                    /\ exists room, connected w !! session_server_id s = Some room
                                    /\ In ws (Dict.values room))
              /\ (frame_type data = Some "private" ->
                    (length d <= 1)%nat
                    /\ forall ws m, In (ws, m) d ->
                         conn_of w (session_server_id s) (default "" (frame_to data))
                         = Some ws)
              /\ (frame_type data <> Some "private" -> frame_type data <> Some "group" ->
                  frame_type data <> Some "join_notification" -> d = [])).
  { intros w' ->. exists []. rewrite app_nil_r. split; [reflexivity|].
    split; [intros ws m []|]. split; [|reflexivity].
    intros _. split; [simpl; lia|intros ws m []]. }
  unfold ws_receive.
  destruct (SIZE_LIMIT <? str_len data)%Z; [now apply Hnil|].
  destruct (is_rate_limited (session_user_id s) now (rate_limits w)) as [rl1 [|]];
    [now apply Hnil|].
  cbn [rate_limits with_rate_limits].
  destruct (is_rate_limited (session_ip s) now rl1) as [rl2 [|]]; [now apply Hnil|].
  match goal with
  | |- context [dispatch ?a ?b ?c] =>
      destruct (dispatch_deliveries a b c) as (d & -> & Hd)
  end.
  exists d. split; [reflexivity|]. exact Hd.
Qed.

(** X11. A received frame changes no membership and no connection: the
    registry, the counts of the origins and the state of the sockets are
    as they were, and so are the join token, the admin, the members and
    the tokens of every room; the record of deliveries only grows. *)
Theorem relay_leaves_membership s data now utcnow (w : World) :
  let w' := fst (ws_receive str_len s data now utcnow w) in
  connected w' = connected w
  /\ ip_connections w' = ip_connections w
  /\ broken w' = broken w
  /\ (exists d, delivered w' = delivered w ++ d)
  /\ forall sid,
       join_token <$> servers_col w' !! sid = join_token <$> servers_col w !! sid
       /\ admin_user_id <$> servers_col w' !! sid = admin_user_id <$> servers_col w !! sid
       /\ members <$> servers_col w' !! sid = members <$> servers_col w !! sid
       /\ tokens <$> member_tokens_col w' !! sid = tokens <$> member_tokens_col w !! sid.
Proof.
  cbv zeta.
  destruct (FrameFacts.ws_receive_runtime str_len s data now utcnow w) as (Hc & Hi & Hb).
  split; [exact Hc|]. split; [exact Hi|]. split; [exact Hb|].
  assert (Hsame : forall w0 : World,
            servers_col w0 = servers_col w -> member_tokens_col w0 = member_tokens_col w ->
            forall sid,
              join_token <$> servers_col w0 !! sid = join_token <$> servers_col w !! sid
              /\ admin_user_id <$> servers_col w0 !! sid
                 = admin_user_id <$> servers_col w !! sid
              /\ members <$> servers_col w0 !! sid = members <$> servers_col w !! sid
              /\ tokens <$> member_tokens_col w0 !! sid
                 = tokens <$> member_tokens_col w !! sid).
  { intros w0 -> -> sid. auto. }
  assert (Hd0 : exists d, delivered w = delivered w ++ d)
    by (exists []; now rewrite app_nil_r).
  unfold ws_receive.
  destruct (SIZE_LIMIT <? str_len data)%Z; [split; [exact Hd0|now apply Hsame]|].
  destruct (is_rate_limited (session_user_id s) now (rate_limits w)) as [rl1 [|]];
    [split; [exact Hd0|now apply Hsame]|].
  cbn [rate_limits with_rate_limits].
  destruct (is_rate_limited (session_ip s) now rl1) as [rl2 [|]];
    [split; [exact Hd0|now apply Hsame]|].
  match goal with
  | |- context [dispatch ?a ?b ?c] => destruct (FrameFacts.dispatch_frame a b c) as [d ->]
  end.
  split; [exists d; reflexivity|]. intros sid.
  cbn [servers_col member_tokens_col with_delivered].
  apply (StoreFacts.update_activity_keeps utcnow (session_server_id s) sid
           (with_rate_limits rl2 w)).
Qed.

End Receive.
End RelayFacts.

(** ** The life of a connection *)

Module LifecycleFacts.
Import Backend.

Section Serve.
Variable str_len : Frame -> Z.

Lemma ws_loop_stops s pre e post : forall w : World,
  ws_loop str_len s (pre ++ RecvRaise e :: post) w
  = ws_loop str_len s (pre ++ [RecvRaise e]) w.
Proof.
  induction pre as [|[data now utcnow|e0] pre IH]; intros w; cbn [app ws_loop].
  - reflexivity.
  - destruct (ws_receive str_len s data now utcnow w) as [w1 [e1|]]; [reflexivity|].
    apply IH.
  - reflexivity.
Qed.

Lemma ws_loop_raises s inputs : forall w : World,
  (exists e, In (RecvRaise e) inputs) ->
  exists e, snd (ws_loop str_len s inputs w) = Some e.
Proof.
  induction inputs as [|[data now utcnow|e0] inputs IH]; intros w [e Hin].
  - destruct Hin.
  - cbn [ws_loop].
    destruct (ws_receive str_len s data now utcnow w) as [w1 [e1|]]; [eauto|].
    apply IH. destruct Hin as [Hin|Hin]; [discriminate|eauto].
  - cbn. eauto.
Qed.

(** X14. When the receive loop has ended, by a disconnection or by any
    other exception, the teardown has run on the state the loop left: the
    member of the session is no longer registered in its room. The run
    ends normally exactly when the loop ended by WebSocketDisconnect and
    the teardown raised nothing. Once the input holds a disconnection the
    loop does end, and what comes after the disconnection is never
    read. *)
Theorem serve_ends_unregistered s inputs (w w' : World) st :
  ws_serve str_len s inputs w = (w', st) ->
  (st = Receiving <-> snd (ws_loop str_len s inputs w) = None)
  /\ (st <> Receiving ->
      conn_of w' (session_server_id s) (session_user_id s) = None
      /\ exists w1 e,
           ws_loop str_len s inputs w = (w1, Some e)
           /\ w' = fst (ws_teardown s w1)
           /\ (st = Finished <->
               e = WebSocketDisconnect /\ snd (ws_teardown s w1) = None))
  /\ ((exists e, In (RecvRaise e) inputs) -> st <> Receiving)
  /\ (forall pre e post, inputs = pre ++ RecvRaise e :: post ->
        ws_serve str_len s (pre ++ [RecvRaise e]) w = (w', st)).
Proof.
  intros H.
  assert (Hstop : forall pre e post, inputs = pre ++ RecvRaise e :: post ->
                    ws_serve str_len s (pre ++ [RecvRaise e]) w = (w', st)).
  { intros pre e post ->. rewrite <- H. unfold ws_serve.
    now rewrite (ws_loop_stops s pre e post w). }
  assert (Hraise : (exists e, In (RecvRaise e) inputs) ->
                   exists e, snd (ws_loop str_len s inputs w) = Some e)
    by apply ws_loop_raises.
  unfold ws_serve in H.
  destruct (ws_loop str_len s inputs w) as [w1 [e|]] eqn:Hl; cbn [snd] in *.
  - assert (Hw : w' = fst (ws_teardown s w1)).
    { destruct (ws_teardown s w1) as [w2 [e'|]]; [now injection H as <- _|].
      destruct e; now injection H as <- _. }
    assert (Hst : st <> Receiving).
    { destruct (ws_teardown s w1) as [w2 [e'|]]; [injection H as _ <-; discriminate|].
      destruct e; injection H as _ <-; discriminate. }
    split; [split; [contradiction|discriminate]|]. split; [|split; [auto|exact Hstop]].
    intros _. split.
    + rewrite Hw. unfold conn_of. rewrite EndpointFacts.connected_ws_teardown.
      apply EndpointFacts.unregister_same.
    + exists w1, e. split; [reflexivity|]. split; [exact Hw|].
      destruct (ws_teardown s w1) as [w2 [e'|]]; cbn [snd].
      * injection H as _ <-. split; [discriminate|intros [_ ?]; discriminate].
      * destruct e; injection H as _ <-; split; try discriminate; auto;
          intros [? _]; discriminate.
  - injection H as <- <-. split; [split; reflexivity|]. split; [contradiction|].
    split; [|exact Hstop]. intros Hex. destruct (Hraise Hex) as [e He]. discriminate.
Qed.

End Serve.
End LifecycleFacts.

(** ** What stays in the store *)

Module PermanenceFacts.
Import Backend Invariants.

Lemma mem_set {V} k (v : V) d u : Dict.mem u d = true -> Dict.mem u (Dict.set k v d) = true.
Proof.
  unfold Dict.mem. destruct (decide (k = u)) as [->|Hne].
  - now rewrite DictFacts.get_set_eq.
  - now rewrite DictFacts.get_set_ne.
Qed.

Lemma room_kept_refl (w : World) sid : room_kept w w sid.
Proof. split; intros d H; exists d; auto. Qed.

Lemma room_kept_trans (w1 w2 w3 : World) sid :
  room_kept w1 w2 sid -> room_kept w2 w3 sid -> room_kept w1 w3 sid.
Proof.
  intros [S1 T1] [S2 T2]. split.
  - intros doc H. destruct (S1 doc H) as (d2 & H2 & J2 & C2 & M2).
    destruct (S2 d2 H2) as (d3 & H3 & J3 & C3 & M3).
    exists d3. repeat split; [exact H3|congruence|congruence|auto].
  - intros tdoc H. destruct (T1 tdoc H) as (t2 & H2 & M2).
    destruct (T2 t2 H2) as (t3 & H3 & M3). exists t3. split; [exact H3|auto].
Qed.

Lemma room_kept_same_store (w w' : World) sid :
  servers_col w' = servers_col w -> member_tokens_col w' = member_tokens_col w ->
  room_kept w w' sid.
Proof. intros Hs Ht. split; intros d H; exists d; rewrite ?Hs, ?Ht; auto. Qed.

Lemma room_kept_update_activity now sid0 (w : World) sid :
  room_kept w (update_activity now sid0 w) sid.
Proof.
  split.
  - intros doc H. destruct (decide (sid0 = sid)) as [->|Hne].
    + rewrite StoreFacts.lookup_servers_update_activity, H. eexists. repeat split. auto.
    + rewrite StoreFacts.lookup_servers_update_activity_ne by exact Hne. exists doc. auto.
  - intros tdoc H. destruct (decide (sid0 = sid)) as [->|Hne].
    + rewrite StoreFacts.lookup_tokens_update_activity, H. eexists. split; [reflexivity|auto].
    + rewrite StoreFacts.lookup_tokens_update_activity_ne by exact Hne. exists tdoc. auto.
Qed.

Lemma room_kept_create_server sid0 tok now (w : World) sid :
  room_kept w (fst (create_server sid0 tok now w)) sid.
Proof.
  unfold create_server. destruct (servers_col w !! sid0) eqn:Hs; [apply room_kept_refl|].
  cbn [member_tokens_col with_servers_col].
  destruct (member_tokens_col w !! sid0) eqn:Ht.
  - split; [|intros d H; exists d; auto].
    intros doc H. cbn [fst servers_col with_servers_col].
    rewrite lookup_insert_ne by congruence. exists doc. auto.
  - cbn [connected with_member_tokens_col with_servers_col].
    split.
    + intros doc H. destruct (connected w !! sid0);
        cbn [fst servers_col with_servers_col with_member_tokens_col with_connected];
        rewrite lookup_insert_ne by congruence; exists doc; auto.
    + intros tdoc H. destruct (connected w !! sid0);
        cbn [fst member_tokens_col with_servers_col with_member_tokens_col with_connected];
        rewrite lookup_insert_ne by congruence; exists tdoc; auto.
Qed.

Lemma room_kept_join_server now tok sid0 body (w : World) sid :
  room_kept w (fst (join_server now tok sid0 body w)) sid.
Proof.
  destruct (join_server now tok sid0 body w) as [w' r] eqn:H. cbn [fst].
  apply JoinFacts.join_server_effect in H. destruct H as (_ & Hoth & Hcases).
  destruct (decide (sid = sid0)) as [->|Hne].
  2: { destruct (Hoth sid Hne) as [Hs Ht].
       split; intros d Hd; exists d; rewrite ?Hs, ?Ht; auto. }
  split.
  - intros d Hd.
    destruct Hcases as [(Hs & _ & _)
                       |(doc & uid & bundle & server & Hdoc & _ & _ & Hst & Hs & _)].
    + rewrite Hs, Hd. eexists. split; [reflexivity|]. cbn. auto.
    + assert (d = doc) as -> by congruence. exists server. split; [exact Hs|].
      destruct (JoinFacts.stored_doc_Some _ _ _ _ _ Hst) as (Hj & Hc & _ & _ & Hset).
      split; [exact Hj|]. split; [exact Hc|].
      destruct (PathFacts.set_field_head _ _ _ _ Hset) as [v' ->].
      intros u. apply mem_set.
  - intros td Htd.
    destruct Hcases as [(_ & Ht & _)
                       |(doc & uid & bundle & server & _ & _ & _ & _ & _ & Ht)].
    + rewrite Ht, Htd. eexists. split; [reflexivity|]. cbn. auto.
    + rewrite Htd in Ht. destruct Ht as [[Ht _]|(tdoc' & Hstore & Ht)].
      * rewrite Ht. eexists. split; [reflexivity|]. cbn. auto.
      * exists tdoc'. split; [exact Ht|].
        apply JoinFacts.store_token_Some in Hstore. destruct Hstore as (_ & _ & Hset).
        cbn [tokens touch_tokens] in Hset.
        destruct (PathFacts.set_field_head _ _ _ _ Hset) as [v' ->].
        intros u. apply mem_set.
Qed.

Section Traces.
Variable str_len : Frame -> Z.

Lemma room_kept_ws_receive s data now utcnow (w : World) sid :
  room_kept w (fst (ws_receive str_len s data now utcnow w)) sid.
Proof.
  unfold ws_receive.
  destruct (SIZE_LIMIT <? str_len data)%Z; [apply room_kept_refl|].
  destruct (is_rate_limited (session_user_id s) now (rate_limits w)) as [rl1 [|]];
    [now apply room_kept_same_store|].
  cbn [rate_limits with_rate_limits].
  destruct (is_rate_limited (session_ip s) now rl1) as [rl2 [|]];
    [now apply room_kept_same_store|].
  match goal with
  | |- context [dispatch ?a ?b ?c] => destruct (FrameFacts.dispatch_frame a b c) as [d ->]
  end.
  apply (room_kept_trans _ (update_activity utcnow (session_server_id s) w));
    [apply room_kept_update_activity|now apply room_kept_same_store].
Qed.

Lemma room_kept_step ev (w : World) sid : room_kept w (step str_len ev w) sid.
Proof.
  destruct ev as [sid0 tok now|now tok sid0 body|now sid0 uid|now ws sid0 tok cf host
                 |s data now utcnow|s|ws e]; cbn [step].
  - apply room_kept_create_server.
  - apply room_kept_join_server.
  - rewrite (ActivityFacts.activity_stamp_lookup now sid0 uid w).
    apply room_kept_update_activity.
  - destruct (ActivityFacts.ws_connect_store now ws sid0 tok cf host w) as [Hs Ht].
    apply (room_kept_trans _ (update_activity now sid0 w));
      [apply room_kept_update_activity|now apply room_kept_same_store].
  - apply room_kept_ws_receive.
  - apply room_kept_same_store; unfold ws_teardown; cbn [ip_connections with_connected];
      destruct (release_ip _ _); reflexivity.
  - now apply room_kept_same_store.
Qed.

(** X15. Nothing that can come after removes a room or a member: over any
    sequence of requests, frames and teardowns, from any state, a room
    that is in the store stays in it with the join token and the creation
    time it had, every member recorded in it stays recorded, and every
    member with a token in it keeps having one. *)
Theorem rooms_and_members_stay (evs : list Event) (w : World) (sid : string) :
  (forall doc, servers_col w !! sid = Some doc ->
     exists doc', servers_col (run str_len evs w) !! sid = Some doc'
                  /\ join_token doc' = join_token doc
                  /\ created_at doc' = created_at doc
                  /\ forall u, Dict.mem u (members doc) = true ->
                               Dict.mem u (members doc') = true)
  /\ (forall tdoc, member_tokens_col w !! sid = Some tdoc ->
       exists tdoc', member_tokens_col (run str_len evs w) !! sid = Some tdoc'
                     /\ forall u, Dict.mem u (tokens tdoc) = true ->
                                  Dict.mem u (tokens tdoc') = true).
Proof.
  change (room_kept w (run str_len evs w) sid). revert w.
  induction evs as [|ev evs IH]; intros w; [apply room_kept_refl|].
  apply (room_kept_trans _ (step str_len ev w)); [apply room_kept_step|apply IH].
Qed.

End Traces.
End PermanenceFacts.

(** ** From a new room to a first connection *)

Module OnboardingFacts.
Import Base64 Backend.

Lemma create_server_fresh sid jt now (w : World) :
  servers_col w !! sid = None -> member_tokens_col w !! sid = None ->
  connected w !! sid = None ->
  create_server sid jt now w
  = (with_connected (insert sid [])
       (with_member_tokens_col
          (insert sid {| tokens := []; tokens_created_at := now;
                         tokens_last_activity := now |})
          (with_servers_col
             (insert sid {| join_token := jt; admin_user_id := None; members := [];
                            created_at := now; last_activity := now |}) w)),
     Return (sid, jt)).
Proof.
  intros Hs Ht Hc. unfold create_server. rewrite Hs.
  cbn [member_tokens_col with_servers_col]. rewrite Ht.
  cbn [connected with_member_tokens_col with_servers_col]. now rewrite Hc.
Qed.

(** X1. For an id that is new to the store and to the registry:
    [create_server] returns the id and the join token and leaves a room
    with no admin, no member and no token. Whenever a join of that room
    returns its response, the request carried that join token and a user
    id without a dot, the response is the fresh token, the joiner as
    admin and no other member, and nothing has been sent. A connection
    request with that token, from an origin below its limit, is then
    accepted as the joiner and registered on its socket. *)
Theorem create_join_connect sid jt now (w : World) :
  servers_col w !! sid = None -> member_tokens_col w !! sid = None ->
  connected w !! sid = None ->
  let w1 := fst (create_server sid jt now w) in
  snd (create_server sid jt now w) = Return (sid, jt)
  /\ (exists doc, servers_col w1 !! sid = Some doc
                  /\ join_token doc = jt /\ admin_user_id doc = None /\ members doc = [])
  /\ (exists tdoc, member_tokens_col w1 !! sid = Some tdoc /\ tokens tdoc = [])
  /\ forall now2 tok body w2 resp,
       join_server now2 tok sid body w1 = (w2, Return resp) ->
       exists uid,
         body_user_id body = Some uid /\ split_path uid = [uid]
         /\ body_join_token body = Some jt
         /\ resp = {| member_token := tok; others := [];
                      response_admin_user_id := Some uid |}
         /\ admin_of w2 sid = Some uid
         /\ delivered w2 = delivered w
         /\ forall now3 ws cf host,
              (forall n, ip_connections w !! default host cf = Some n ->
                         (n < CONN_LIMIT_PER_IP)%Z) ->
              snd (ws_connect now3 ws sid tok cf host w2)
              = Accepted {| session_server_id := sid; session_user_id := uid;
                            session_ip := default host cf; session_websocket := ws |}
              /\ conn_of (fst (ws_connect now3 ws sid tok cf host w2)) sid uid = Some ws.
Proof.
  intros Hs Ht Hc. cbv zeta. rewrite (create_server_fresh sid jt now w Hs Ht Hc).
  cbn [fst snd]. set (w1 := with_connected _ _).
  set (doc1 := {| join_token := jt; admin_user_id := None; members := [];
                  created_at := now; last_activity := now |}).
  set (tdoc1 := {| tokens := []; tokens_created_at := now; tokens_last_activity := now |}).
  assert (Hs1 : servers_col w1 !! sid = Some doc1) by apply lookup_insert_eq.
  assert (Ht1 : member_tokens_col w1 !! sid = Some tdoc1) by apply lookup_insert_eq.
  assert (Hc1 : connected w1 !! sid = Some []) by apply lookup_insert_eq.
  split; [reflexivity|]. split; [exists doc1; auto|]. split; [exists tdoc1; auto|].
  intros now2 tok body w2 resp H.
  destruct (JoinFacts.join_server_returns _ _ _ _ _ _ _ H)
    as (doc & uid & bundle & w2' & server & Hdoc & Htok & Huid & _ & _ & Hcm & Hst & Hs2
        & Ho & Hb & Hm & Ha).
  assert (doc = doc1) as -> by congruence.
  destruct (JoinFacts.committed_cases _ _ _ _ _ _ _ _ _ Hs1 Hcm)
    as ((Hc2 & _ & Hi2 & _ & Hd2) & _ & Hcases).
  destruct (JoinFacts.stored_doc_Some _ _ _ _ _ Hst) as (_ & _ & _ & Hadm & Hset).
  cbn [members admin_user_id doc1 default from_option] in Hset, Hadm.
  assert (Hplain : split_path uid = [uid] /\ members server = [(uid, bundle_doc bundle)]).
  { destruct (PathFacts.set_field_nil _ _ _ Hset) as [?|(p & q & rest & _ & Hp & Hms)];
      [assumption|].
    exfalso. rewrite Hms in Ho. unfold others_of in Ho. cbn [others_loop] in Ho.
    destruct (String.eqb_spec p uid); [contradiction|]. cbn [negb] in Ho.
    destruct (JoinFacts.encoded_nest q rest (bundle_doc bundle)) as [e He].
    rewrite He in Ho. discriminate. }
  destruct Hplain as [Hplain Hms].
  assert (Hw2 : w2 = w2').
  { unfold join_broadcast in Hb. rewrite Hc2, Hc1 in Hb. now injection Hb as <-. }
  subst w2'.
  exists uid. split; [exact Huid|]. split; [exact Hplain|]. split; [exact Htok|].
  split.
  { rewrite Hms in Ho. unfold others_of in Ho. cbn [others_loop] in Ho.
    rewrite String.eqb_refl in Ho. cbn [negb] in Ho. injection Ho as Ho.
    destruct resp as [mt ots adm].
    cbn [member_token others response_admin_user_id] in Hm, Ho, Ha.
    rewrite Hadm in Ha. congruence. }
  split; [unfold admin_of; now rewrite Hs2|]. split; [exact Hd2|].
  intros now3 ws cf host Hroom.
  assert (Ht2 : exists tdoc', member_tokens_col w2 !! sid = Some tdoc'
                              /\ tokens tdoc' = [(uid, VStr tok)]).
  { destruct Hcases as [[_ [?|[?|?]]]|(server' & _ & _ & [[? _]|[_ Htk]])];
      try discriminate.
    rewrite Ht1 in Htk. destruct Htk as (tdoc' & Hstore & Hl).
    exists tdoc'. split; [exact Hl|].
    apply JoinFacts.store_token_Some in Hstore. destruct Hstore as (_ & _ & Hset').
    cbn [tokens touch_tokens tdoc1] in Hset'.
    now rewrite (PathFacts.set_field_dotless _ _ _ _ Hplain Hset'). }
  destruct Ht2 as (tdoc' & Hl & Hts).
  rewrite (AdmissionFacts.ws_connect_authenticated now3 ws sid tok cf host w2 _ _ uid
             Hs2 Hl).
  2: { rewrite Hts. cbn. now rewrite String.eqb_refl. }
  cbv zeta. rewrite Hi2. change (ip_connections w1) with (ip_connections w).
  assert (Hadmit : snd (admit_ip (default host cf) (ip_connections w)) = true).
  { destruct (ip_connections w !! default host cf) as [n|] eqn:E.
    - now rewrite (AdmissionFacts.admit_ip_room _ _ n E (Hroom n eq_refl)).
    - now rewrite (AdmissionFacts.admit_ip_new _ _ E). }
  destruct (admit_ip (default host cf) (ip_connections w)) as [ic [|]];
    [|discriminate].
  cbn [fst snd]. split; [reflexivity|].
  unfold conn_of. cbn [connected with_connected]. apply ConnectFacts.register_same.
Qed.

End OnboardingFacts.

(** ** Admins, token holders and connected members *)

Module ConsistencyFacts.
Import Backend Invariants.

Lemma mem_set_inv {V} k (v : V) d u :
  Dict.mem u (Dict.set k v d) = true -> u = k \/ Dict.mem u d = true.
Proof.
  unfold Dict.mem. destruct (decide (k = u)) as [->|Hne]; [now left|].
  rewrite DictFacts.get_set_ne by exact Hne. now right.
Qed.

Lemma mem_del_inv {V} k (d : list (string * V)) u :
  Dict.mem u (Dict.del k d) = true -> Dict.mem u d = true.
Proof.
  unfold Dict.mem. destruct (decide (k = u)) as [->|Hne].
  - now rewrite DictFacts.get_del_eq.
  - now rewrite DictFacts.get_del_ne.
Qed.

Lemma mem_get {V} (d : list (string * V)) u v : Dict.get u d = Some v -> Dict.mem u d = true.
Proof. unfold Dict.mem. now intros ->. Qed.

(** *** The admin names a member *)

Lemma admin_names_member_store (w w' : World) :
  servers_col w' = servers_col w -> admin_names_member w -> admin_names_member w'.
Proof. intros Hs Inv sid doc a. rewrite Hs. apply Inv. Qed.

Lemma admin_names_member_update_activity now sid (w : World) :
  admin_names_member w -> admin_names_member (update_activity now sid w).
Proof.
  intros Inv sid' doc a. destruct (decide (sid = sid')) as [<-|Hne].
  - rewrite StoreFacts.lookup_servers_update_activity.
    destruct (servers_col w !! sid) as [d|] eqn:E; [|discriminate].
    intros [= <-]. cbn. now apply (Inv sid d a).
  - rewrite StoreFacts.lookup_servers_update_activity_ne by exact Hne. apply Inv.
Qed.

Lemma admin_names_member_create_server sid tok now (w : World) :
  admin_names_member w -> admin_names_member (fst (create_server sid tok now w)).
Proof.
  intros Inv.
  assert (Hins : forall w0 : World,
            servers_col w0
            = <[sid := {| join_token := tok; admin_user_id := None; members := [];
                          created_at := now; last_activity := now |}]> (servers_col w) ->
            admin_names_member w0).
  { intros w0 Hw sid' doc a. rewrite Hw. destruct (decide (sid = sid')) as [<-|Hne].
    - rewrite lookup_insert_eq. intros [= <-]. discriminate.
    - rewrite lookup_insert_ne by exact Hne. apply Inv. }
  unfold create_server. destruct (servers_col w !! sid); [exact Inv|].
  cbn [member_tokens_col with_servers_col].
  destruct (member_tokens_col w !! sid); [now apply Hins|].
  cbn [connected with_member_tokens_col with_servers_col].
  destruct (connected w !! sid); now apply Hins.
Qed.

Lemma admin_names_member_join_server now tok sid body (w : World) :
  admin_names_member w -> admin_names_member (fst (join_server now tok sid body w)).
Proof.
  intros Inv. destruct (join_server now tok sid body w) as [w' r] eqn:H. cbn [fst].
  apply JoinFacts.join_server_effect in H. destruct H as (_ & Hoth & Hcases).
  intros sid' d a. destruct (decide (sid' = sid)) as [->|Hne].
  2: { rewrite (proj1 (Hoth sid' Hne)). apply Inv. }
  destruct Hcases as [(Hs & _ & _)
                     |(doc & uid & bundle & server & Hdoc & _ & _ & Hst & Hs & _)].
  - rewrite Hs. destruct (servers_col w !! sid) as [doc|] eqn:E; [|discriminate].
    intros [= <-]. cbn. now apply (Inv sid doc a).
  - rewrite Hs. intros [= <-].
    destruct (JoinFacts.stored_doc_Some _ _ _ _ _ Hst) as (_ & _ & _ & Ha & Hset).
    destruct (PathFacts.set_field_head _ _ _ _ Hset) as [v' ->].
    rewrite Ha. intros [= <-].
    destruct (admin_user_id doc) as [a0|] eqn:Ha0; cbn [default from_option].
    + apply PermanenceFacts.mem_set. now apply (Inv sid doc a0).
    + unfold Dict.mem. now rewrite DictFacts.get_set_eq.
Qed.

(** *** Token holders are members *)

Lemma tokens_of_members_store (w w' : World) :
  servers_col w' = servers_col w -> member_tokens_col w' = member_tokens_col w ->
  tokens_of_members w -> tokens_of_members w'.
Proof. intros Hs Ht Inv sid tdoc u. rewrite Hs, Ht. apply Inv. Qed.

Lemma tokens_of_members_update_activity now sid (w : World) :
  tokens_of_members w -> tokens_of_members (update_activity now sid w).
Proof.
  intros Inv sid' tdoc u. destruct (decide (sid = sid')) as [<-|Hne].
  - rewrite StoreFacts.lookup_tokens_update_activity,
      StoreFacts.lookup_servers_update_activity.
    destruct (member_tokens_col w !! sid) as [t|] eqn:E; [|discriminate].
    intros [= <-] Hm. cbn in Hm. destruct (Inv sid t u E Hm) as (d & -> & Hd).
    eexists. split; [reflexivity|exact Hd].
  - rewrite StoreFacts.lookup_tokens_update_activity_ne,
      StoreFacts.lookup_servers_update_activity_ne by exact Hne. apply Inv.
Qed.

Lemma tokens_of_members_create_server sid tok now (w : World) :
  tokens_of_members w -> tokens_of_members (fst (create_server sid tok now w)).
Proof.
  intros Inv. unfold create_server.
  destruct (servers_col w !! sid) eqn:Hs; [exact Inv|].
  cbn [member_tokens_col with_servers_col].
  destruct (member_tokens_col w !! sid) as [t0|] eqn:Ht.
  - intros sid' tdoc u. cbn [fst servers_col member_tokens_col with_servers_col].
    intros Htd Hm. destruct (Inv sid' tdoc u Htd Hm) as (d & Hd & Hmd).
    exists d. split; [|exact Hmd]. rewrite lookup_insert_ne; [exact Hd|congruence].
  - cbn [connected with_member_tokens_col with_servers_col].
    assert (Hgoal : forall w0 : World,
              servers_col w0
              = <[sid := {| join_token := tok; admin_user_id := None; members := [];
                            created_at := now; last_activity := now |}]> (servers_col w) ->
              member_tokens_col w0
              = <[sid := {| tokens := []; tokens_created_at := now;
                            tokens_last_activity := now |}]> (member_tokens_col w) ->
              tokens_of_members w0).
    { intros w0 Hs0 Ht0 sid' tdoc u. rewrite Hs0, Ht0.
      destruct (decide (sid = sid')) as [<-|Hne].
      - rewrite lookup_insert_eq. intros [= <-]. discriminate.
      - rewrite !lookup_insert_ne by exact Hne. apply Inv. }
    destruct (connected w !! sid); now apply Hgoal.
Qed.

Lemma tokens_of_members_join_server now tok sid body (w : World) :
  tokens_of_members w -> tokens_of_members (fst (join_server now tok sid body w)).
Proof.
  intros Inv. destruct (join_server now tok sid body w) as [w' r] eqn:H. cbn [fst].
  apply JoinFacts.join_server_effect in H. destruct H as (_ & Hoth & Hcases).
  intros sid' tdoc u. destruct (decide (sid' = sid)) as [->|Hne].
  2: { destruct (Hoth sid' Hne) as [-> ->]. apply Inv. }
  destruct Hcases as [(Hs & Ht & _)
                     |(doc & uid & bundle & server & Hdoc & _ & _ & Hst & Hs & Ht)].
  - rewrite Hs, Ht.
    destruct (member_tokens_col w !! sid) as [t|] eqn:E; [|discriminate].
    intros [= <-] Hm. cbn in Hm. destruct (Inv sid t u E Hm) as (d & -> & Hd).
    eexists. split; [reflexivity|exact Hd].
  - rewrite Hs.
    destruct (JoinFacts.stored_doc_Some _ _ _ _ _ Hst) as (_ & _ & _ & _ & Hset).
    destruct (PathFacts.set_field_head _ _ _ _ Hset) as [v' Hms].
    assert (Hold : forall t, member_tokens_col w !! sid = Some t ->
              Dict.mem u (tokens t) = true -> Dict.mem u (members server) = true).
    { intros t E Hm. destruct (Inv sid t u E Hm) as (d & Hd & Hmd).
      assert (d = doc) as -> by congruence. rewrite Hms.
      now apply PermanenceFacts.mem_set. }
    destruct (member_tokens_col w !! sid) as [t|] eqn:E.
    + destruct Ht as [[Ht _]|(tdoc' & Hstore & Ht)]; rewrite Ht.
      * intros [= <-] Hm. exists server. split; [reflexivity|].
        now apply (Hold t).
      * intros [= <-] Hm. exists server. split; [reflexivity|].
        apply JoinFacts.store_token_Some in Hstore. destruct Hstore as (_ & _ & Hset').
        cbn [tokens touch_tokens] in Hset'.
        destruct (PathFacts.set_field_head _ _ _ _ Hset') as [v'' Hts].
        rewrite Hts in Hm. apply mem_set_inv in Hm. destruct Hm as [->|Hm].
        -- rewrite Hms. unfold Dict.mem. now rewrite DictFacts.get_set_eq.
        -- now apply (Hold t).
    + destruct Ht as [[Ht _]|Ht]; rewrite Ht; discriminate.
Qed.

(** *** Connected members hold tokens *)

Lemma connected_hold_tokens_same (w w' : World) :
  connected w' = connected w ->
  (forall sid, tokens <$> member_tokens_col w' !! sid = tokens <$> member_tokens_col w !! sid) ->
  connected_hold_tokens w -> connected_hold_tokens w'.
Proof.
  intros Hc Ht Inv sid room u ws. rewrite Hc. intros Hr Hg.
  destruct (Inv sid room u ws Hr Hg) as (tdoc & Htd & Hm).
  specialize (Ht sid). rewrite Htd in Ht.
  destruct (member_tokens_col w' !! sid) as [tdoc'|]; [|discriminate].
  injection Ht as Ht. exists tdoc'. split; [reflexivity|]. now rewrite Ht.
Qed.

Lemma connected_hold_tokens_create_server sid tok now (w : World) :
  connected_hold_tokens w -> connected_hold_tokens (fst (create_server sid tok now w)).
Proof.
  intros Inv. unfold create_server.
  destruct (servers_col w !! sid) eqn:Hs; [exact Inv|].
  cbn [member_tokens_col with_servers_col].
  destruct (member_tokens_col w !! sid) as [t0|] eqn:Ht; [exact Inv|].
  cbn [connected with_member_tokens_col with_servers_col].
  destruct (connected w !! sid) as [room0|] eqn:Hc; cbn [fst];
    intros sid' room u ws;
    cbn [connected member_tokens_col with_connected with_member_tokens_col
         with_servers_col].
  - intros Hr Hg. destruct (Inv sid' room u ws Hr Hg) as (tdoc & Htd & Hm).
    exists tdoc. split; [|exact Hm]. rewrite lookup_insert_ne; [exact Htd|congruence].
  - destruct (decide (sid = sid')) as [<-|Hne].
    + rewrite lookup_insert_eq. intros [= <-]. discriminate.
    + rewrite !lookup_insert_ne by exact Hne. apply Inv.
Qed.

Lemma connected_hold_tokens_join_server now tok sid body (w : World) :
  connected_hold_tokens w ->
  connected_hold_tokens (fst (join_server now tok sid body w)).
Proof.
  intros Inv. destruct (join_server now tok sid body w) as [w' r] eqn:H. cbn [fst].
  apply JoinFacts.join_server_effect in H. destruct H as ((Hc & _) & Hoth & Hcases).
  intros sid' room u ws. rewrite Hc. intros Hr Hg.
  destruct (Inv sid' room u ws Hr Hg) as (tdoc & Htd & Hm).
  destruct (decide (sid' = sid)) as [->|Hne].
  2: { rewrite (proj2 (Hoth sid' Hne)). eauto. }
  assert (Htouch : member_tokens_col w' !! sid
                   = touch_tokens now <$> member_tokens_col w !! sid ->
                   exists tdoc', member_tokens_col w' !! sid = Some tdoc'
                                 /\ Dict.mem u (tokens tdoc') = true).
  { intros ->. rewrite Htd. eexists. split; [reflexivity|exact Hm]. }
  destruct Hcases as [(_ & Ht & _)
                     |(doc & uid & bundle & server & _ & _ & _ & _ & _ & Ht)];
    [now apply Htouch|].
  destruct Ht as [[Ht _]|Ht]; [now apply Htouch|].
  rewrite Htd in Ht. destruct Ht as (tdoc' & Hstore & Ht).
  exists tdoc'. split; [exact Ht|].
  apply JoinFacts.store_token_Some in Hstore. destruct Hstore as (_ & _ & Hset).
  cbn [tokens touch_tokens] in Hset.
  destruct (PathFacts.set_field_head _ _ _ _ Hset) as [v' ->].
  now apply PermanenceFacts.mem_set.
Qed.

Lemma connected_hold_tokens_ws_connect now ws sid tok cf host (w : World) :
  connected_hold_tokens w ->
  connected_hold_tokens (fst (ws_connect now ws sid tok cf host w)).
Proof.
  intros Inv.
  assert (Inv1 : connected_hold_tokens (update_activity now sid w)).
  { apply (connected_hold_tokens_same w); [reflexivity| |exact Inv].
    intros sid'. apply StoreFacts.update_activity_keeps. }
  unfold ws_connect.
  destruct (servers_col (update_activity now sid w) !! sid); [|exact Inv1].
  destruct (member_tokens_col (update_activity now sid w) !! sid) as [tdoc|] eqn:Ht;
    [|exact Inv1].
  destruct (find_user tok (tokens tdoc)) as [user|] eqn:Hu; [|exact Inv1].
  destruct (admit_ip _ _) as [ic [|]]; cbn [fst]; [|exact Inv1].
  intros sid' room u ws'.
  cbn [connected member_tokens_col with_connected with_ip_connections].
  unfold register. destruct (decide (sid = sid')) as [<-|Hne].
  - rewrite lookup_alter_eq.
    destruct (connected (update_activity now sid w) !! sid) as [room0|] eqn:Hr.
    + rewrite Hr. cbn [fmap option_fmap option_map].
      intros [= <-] Hg. apply mem_get, mem_set_inv in Hg.
      destruct Hg as [->|Hg].
      * exists tdoc. split; [exact Ht|]. now apply (ConnectFacts.find_user_mem tok).
      * unfold Dict.mem in Hg. destruct (Dict.get u room0) as [ws0|] eqn:Hg0;
          [|discriminate].
        exact (Inv1 sid room0 u ws0 Hr Hg0).
    + rewrite lookup_insert_eq. cbn [fmap option_fmap option_map].
      intros [= <-] Hg. apply mem_get in Hg. unfold Dict.mem, Dict.get in Hg.
      destruct (String.eqb_spec u user) as [->|]; [|discriminate Hg].
      exists tdoc. split; [exact Ht|]. now apply (ConnectFacts.find_user_mem tok).
  - rewrite lookup_alter_ne by exact Hne.
    destruct (connected (update_activity now sid w) !! sid);
      [|rewrite lookup_insert_ne by exact Hne]; apply Inv1.
Qed.

Lemma connected_hold_tokens_ws_teardown s (w : World) :
  connected_hold_tokens w -> connected_hold_tokens (fst (ws_teardown s w)).
Proof.
  intros Inv sid room u ws.
  assert (Ht : member_tokens_col (fst (ws_teardown s w)) = member_tokens_col w).
  { unfold ws_teardown. cbn [ip_connections with_connected].
    destruct (release_ip _ _); reflexivity. }
  rewrite Ht, EndpointFacts.connected_ws_teardown. unfold unregister.
  destruct (connected w !! session_server_id s) as [room0|] eqn:Hr; [|apply Inv].
  destruct (Dict.mem (session_user_id s) room0); [|apply Inv].
  destruct (decide (session_server_id s = sid)) as [<-|Hne].
  - rewrite lookup_alter_eq, Hr. cbn. intros [= <-] Hg.
    apply mem_get, mem_del_inv in Hg. unfold Dict.mem in Hg.
    destruct (Dict.get u room0) as [ws0|] eqn:Hg0; [|discriminate].
    exact (Inv _ room0 u ws0 Hr Hg0).
  - rewrite lookup_alter_ne by exact Hne. apply Inv.
Qed.

Section Traces.
Variable str_len : Frame -> Z.

Lemma ws_receive_store s data now utcnow (w : World) :
  let w' := fst (ws_receive str_len s data now utcnow w) in
  (servers_col w' = servers_col w /\ member_tokens_col w' = member_tokens_col w)
  \/ (servers_col w' = servers_col (update_activity utcnow (session_server_id s) w)
      /\ member_tokens_col w'
         = member_tokens_col (update_activity utcnow (session_server_id s) w)).
Proof.
  cbv zeta. unfold ws_receive.
  destruct (SIZE_LIMIT <? str_len data)%Z; [now left|].
  destruct (is_rate_limited (session_user_id s) now (rate_limits w)) as [rl1 [|]];
    [now left|].
  cbn [rate_limits with_rate_limits].
  destruct (is_rate_limited (session_ip s) now rl1) as [rl2 [|]]; [now left|].
  match goal with
  | |- context [dispatch ?a ?b ?c] => destruct (FrameFacts.dispatch_frame a b c) as [d ->]
  end.
  right. split; reflexivity.
Qed.

Lemma step_consistent ev (w : World) :
  admin_names_member w /\ tokens_of_members w /\ connected_hold_tokens w ->
  admin_names_member (step str_len ev w) /\ tokens_of_members (step str_len ev w)
  /\ connected_hold_tokens (step str_len ev w).
Proof.
  intros (Ia & It & Ic).
  destruct ev as [sid tok now|now tok sid body|now sid uid|now ws sid tok cf host
                 |s data now utcnow|s|ws e]; cbn [step].
  - split; [now apply admin_names_member_create_server|].
    split; [now apply tokens_of_members_create_server|].
    now apply connected_hold_tokens_create_server.
  - split; [now apply admin_names_member_join_server|].
    split; [now apply tokens_of_members_join_server|].
    now apply connected_hold_tokens_join_server.
  - rewrite (ActivityFacts.activity_stamp_lookup now sid uid w).
    split; [now apply admin_names_member_update_activity|].
    split; [now apply tokens_of_members_update_activity|].
    apply (connected_hold_tokens_same w); [reflexivity| |exact Ic].
    intros sid'. apply StoreFacts.update_activity_keeps.
  - destruct (ActivityFacts.ws_connect_store now ws sid tok cf host w) as [Hs Ht].
    split; [apply (admin_names_member_store _ _ Hs);
            now apply admin_names_member_update_activity|].
    split; [apply (tokens_of_members_store _ _ Hs Ht);
            now apply tokens_of_members_update_activity|].
    now apply connected_hold_tokens_ws_connect.
  - destruct (FrameFacts.ws_receive_runtime str_len s data now utcnow w) as (Hc & _ & _).
    destruct (ws_receive_store s data now utcnow w) as [[Hs Ht]|[Hs Ht]].
    + split; [now apply (admin_names_member_store _ _ Hs)|].
      split; [now apply (tokens_of_members_store _ _ Hs Ht)|].
      apply (connected_hold_tokens_same w); [exact Hc|now rewrite Ht|exact Ic].
    + split; [apply (admin_names_member_store _ _ Hs);
              now apply admin_names_member_update_activity|].
      split; [apply (tokens_of_members_store _ _ Hs Ht);
              now apply tokens_of_members_update_activity|].
      apply (connected_hold_tokens_same w); [exact Hc| |exact Ic].
      intros sid'. rewrite Ht. apply StoreFacts.update_activity_keeps.
  - assert (Hs : servers_col (fst (ws_teardown s w)) = servers_col w
                 /\ member_tokens_col (fst (ws_teardown s w)) = member_tokens_col w).
    { unfold ws_teardown. cbn [ip_connections with_connected].
      destruct (release_ip _ _); split; reflexivity. }
    destruct Hs as [Hs Ht].
    split; [now apply (admin_names_member_store _ _ Hs)|].
    split; [now apply (tokens_of_members_store _ _ Hs Ht)|].
    now apply connected_hold_tokens_ws_teardown.
  - auto.
Qed.

(** X16. In every state that requests, frames and teardowns can lead to,
    whoever is registered in a room has a key in the tokens of that room,
    every key of the tokens of a room is a key of its members, and the
    admin of a room names a key of its members: the key that a join as
    the admin writes, which is the user id up to its first dot. *)
Theorem membership_consistent (evs : list Event) :
  let w := run str_len evs empty_world in
  (forall sid room u ws,
     connected w !! sid = Some room -> Dict.get u room = Some ws ->
     exists tdoc, member_tokens_col w !! sid = Some tdoc
                  /\ Dict.mem u (tokens tdoc) = true)
  /\ (forall sid tdoc u,
        member_tokens_col w !! sid = Some tdoc -> Dict.mem u (tokens tdoc) = true ->
        exists doc, servers_col w !! sid = Some doc /\ Dict.mem u (members doc) = true)
  /\ (forall sid doc a,
        servers_col w !! sid = Some doc -> admin_user_id doc = Some a ->
        Dict.mem (head_of a) (members doc) = true).
Proof.
  cbv zeta.
  assert (H : forall w : World,
            admin_names_member w /\ tokens_of_members w /\ connected_hold_tokens w ->
            admin_names_member (run str_len evs w) /\ tokens_of_members (run str_len evs w)
            /\ connected_hold_tokens (run str_len evs w)).
  { induction evs as [|ev evs IH]; intros w Inv; [exact Inv|].
    apply IH. now apply step_consistent. }
  destruct (H empty_world) as (Ia & It & Ic).
  - repeat split.
    + intros sid doc a E. cbn in E. now rewrite lookup_empty in E.
    + intros sid tdoc u E. cbn in E. now rewrite lookup_empty in E.
    + intros sid room u ws E. cbn in E. now rewrite lookup_empty in E.
  - split; [exact Ic|]. split; [exact It|exact Ia].
Qed.

End Traces.
End ConsistencyFacts.

(** ** The episode, run *)

Module EpisodeFacts.
Import Base64 Backend Scenario Episode.

Lemma alice_join_returns :
  join_server 1 "token-a" "room" (join_as "secret" "alice" 1)
    (fst (create_server "room" "secret" 0 empty_world))
  = (run payload_len (firstn 2 alice_arrives) empty_world,
     Return {| member_token := "token-a"; others := [];
               response_admin_user_id := Some "alice" |}).
Proof. vm_compute. reflexivity. Qed.

(** A room created in the empty state, joined by alice, who connects. *)
Lemma create_join_connect_witness :
  snd (create_server "room" "secret" 0 empty_world) = Return ("room", "secret")
  /\ admin_of (run payload_len (firstn 2 alice_arrives) empty_world) "room" = Some "alice"
  /\ snd (ws_connect 2 1%nat "room" "token-a" None "10.0.0.1"
            (run payload_len (firstn 2 alice_arrives) empty_world))
     = Accepted alice_session.
Proof.
  destruct (OnboardingFacts.create_join_connect "room" "secret" 0 empty_world)
    as (H1 & _ & _ & H4); [reflexivity|reflexivity|reflexivity|].
  split; [exact H1|].
  destruct (H4 1%Z "token-a" (join_as "secret" "alice" 1) _ _ alice_join_returns)
    as (uid & Hu & _ & _ & _ & Hadm & _ & Hc).
  injection Hu as <-. split; [exact Hadm|].
  destruct (Hc 2%Z 1%nat None "10.0.0.1") as [Ha _]; [|exact Ha].
  intros n Hn. vm_compute in Hn. discriminate Hn.
Defined.

(** The bundle of alice, looked up once bob has joined. *)
Lemma get_prekey_returns_stored_witness :
  snd (get_prekey 9 "room" "alice" bob_joined) = Return (encode_bundle alice_bundle)
  /\ snd (get_prekey 9 "room" "carol" bob_joined) = HTTPException 404 "Not found".
Proof.
  destruct (MembershipFacts.get_prekey_returns_stored 9 "room" "alice" bob_joined)
    as (_ & _ & Hfound).
  destruct (MembershipFacts.get_prekey_returns_stored 9 "room" "carol" bob_joined)
    as [[_ Habsent] _].
  split.
  - eapply Hfound; vm_compute; reflexivity.
  - apply Habsent. right. eexists. split; vm_compute; reflexivity.
Defined.

Lemma bob_join_returns :
  join_server 3 "token-b" "room" (join_as "secret" "bob" 2) alice_connected
  = (bob_joined, Return bob_response).
Proof. vm_compute. reflexivity. Qed.

(** Bob joins, then his bundle is looked up. *)
Lemma join_then_get_prekey_witness :
  exists q b,
    snd (get_prekey 9 "room" "bob" bob_joined) = Return q
    /\ decode_bundle (bundle_of 2) = Some b /\ decode_bundle (as_request q) = Some b.
Proof.
  destruct (MembershipFacts.join_then_get_prekey 3 "token-b" "room"
              (join_as "secret" "bob" 2) alice_connected bob_joined bob_response 9 "bob"
              bob_join_returns eq_refl) as [Hown _].
  destruct (Hown eq_refl) as (p & q & b & Hp & Hq & Hd & Hd').
  injection Hp as <-. eauto.
Defined.

Lemma alice_rejoin_returns :
  join_server 5 "token-a2" "room" (join_as "secret" "alice" 7) alice_connected
  = (alice_rejoined, Return rejoin_response).
Proof. vm_compute. reflexivity. Qed.

(** Alice joins again: her registration id is the new one, her token too. *)
Lemma join_replaces_own_entry_witness :
  exists doc' bundle,
    servers_col alice_rejoined !! "room" = Some doc'
    /\ Dict.get "alice" (members doc') = Some (bundle_doc bundle)
    /\ decode_bundle (bundle_of 7) = Some bundle.
Proof.
  destruct (MembershipFacts.join_replaces_own_entry 5 "token-a2" "room"
              (join_as "secret" "alice" 7) alice_connected alice_rejoined rejoin_response
              alice_rejoin_returns)
    as (uid & bundle & doc & doc' & Hu & Hb & _ & Hd' & _ & _ & _ & _ & _ & _ & Hplain).
  injection Hu as <-. exists doc', bundle.
  split; [exact Hd'|]. split; [|exact Hb]. now apply Hplain.
Defined.

(** A token nobody was given does not connect. *)
Lemma connect_authenticates_witness :
  exists w1, ws_connect 9 5%nat "room" "guess" None "10.0.0.3" both_connected
             = (w1, Closed 1008).
Proof.
  apply (proj2 (proj2 (ConnectFacts.connect_authenticates 9 5%nat "room" "guess" None
                         "10.0.0.3" both_connected))).
  right. intros tdoc H u Hin. vm_compute in H. injection H as <-.
  simpl in Hin. destruct Hin as [[=]|[[=]|[]]].
Defined.

(** After alice has joined again, her first token is refused and her
    second one connects as alice. *)
Lemma rejoin_rotates_token_witness :
  ws_connect 6 3%nat "room" "token-a" None "10.0.0.1" alice_rejoined
  = (update_activity 6 "room" alice_rejoined, Closed 1008)
  /\ snd (ws_connect 6 3%nat "room" "token-a2" None "10.0.0.1" alice_rejoined)
     = Accepted {| session_server_id := "room"; session_user_id := "alice";
                   session_ip := "10.0.0.1"; session_websocket := 3%nat |}.
Proof.
  destruct (MembershipFacts.rejoin_rotates_token 5 "token-a2" "room"
              (join_as "secret" "alice" 7) alice_connected alice_rejoined rejoin_response
              "alice"
              {| tokens := [("alice", VStr "token-a")]; tokens_created_at := 0;
                 tokens_last_activity := 2 |}
              alice_rejoin_returns) as [Hnew Hold].
  - reflexivity.
  - reflexivity.
  - vm_compute. reflexivity.
  - split.
    + apply (Hold "token-a").
      * discriminate.
      * simpl. apply List.NoDup_cons; [intros []|apply List.NoDup_nil].
      * intros u Hin. simpl in Hin. destruct Hin as [[= <-]|[]]; reflexivity.
    + destruct (Hnew) with (now' := 6%Z) (ws := 3%nat) (cf := @None string)
        (host := "10.0.0.1")
        (w1 := fst (ws_connect 6 3%nat "room" "token-a2" None "10.0.0.1" alice_rejoined))
        (out := snd (ws_connect 6 3%nat "room" "token-a2" None "10.0.0.1" alice_rejoined))
        as [H|H].
      * intros u Hin. simpl in Hin. destruct Hin as [[=]|[]].
      * now destruct (ws_connect 6 3%nat "room" "token-a2" None "10.0.0.1" alice_rejoined).
      * vm_compute in H. discriminate H.
      * exact H.
Defined.

(** The origin of alice after both members have connected. *)
Lemma counts_always_in_range_witness : (1 <= 1 <= CONN_LIMIT_PER_IP)%Z.
Proof.
  apply (CountFacts.counts_always_in_range payload_len (alice_arrives ++ bob_arrives)
           "10.0.0.1" 1%Z).
  vm_compute. reflexivity.
Defined.

Lemma alice_second_connect :
  ws_connect 3 2%nat "room" "token-a" None "10.0.0.1" alice_connected
  = (alice_reconnected, Accepted alice_session2).
Proof. vm_compute. reflexivity. Qed.

(** The second connection of alice, torn down at once. *)
Lemma connect_then_teardown_witness :
  ip_connections (fst (ws_teardown alice_session2 alice_reconnected))
  = ip_connections alice_connected
  /\ snd (ws_teardown alice_session2 alice_reconnected) = None
  /\ conn_of (fst (ws_teardown alice_session2 alice_reconnected)) "room" "alice" = None.
Proof.
  apply (ConnectFacts.connect_then_teardown 3 2%nat "room" "token-a" None "10.0.0.1"
           alice_connected alice_reconnected alice_session2).
  - apply (CountFacts.reachable_counts_in_range payload_len alice_arrives).
  - exact alice_second_connect.
Defined.

(** The second connection of alice takes the place of the first. *)
Lemma connect_registers_last_writer_witness :
  conn_of alice_connected "room" "alice" = Some 1%nat
  /\ conn_of alice_reconnected "room" "alice" = Some 2%nat.
Proof.
  split; [reflexivity|].
  apply (ConnectFacts.connect_registers_last_writer 3 2%nat "room" "token-a" None
           "10.0.0.1" alice_connected alice_reconnected alice_session2
           alice_second_connect).
Defined.

(** The window of bob after the chatter. *)
Lemma windows_always_bounded_witness : (length [10%Q] <= MESSAGE_LIMIT)%nat.
Proof.
  apply (WindowFacts.windows_always_bounded payload_len chatter "bob" [10%Q]).
  vm_compute. reflexivity.
Defined.

(** An eleventh frame of bob within the window. *)
Lemma rate_limited_frame_dropped_witness :
  ws_receive payload_len bob_session hello 10%Q 10 bob_exhausted = (bob_exhausted, None).
Proof.
  destruct (WindowFacts.rate_limited_frame_dropped payload_len bob_session hello 10%Q 10%Z
              [] bob_exhausted) as [Huser _].
  - vm_compute. discriminate.
  - destruct (Huser {[ "bob" := repeat 9%Q 10 ]}) as [H _]; [reflexivity|].
    rewrite H. reflexivity.
Defined.

(** A first frame of the member named as its origin takes two places. *)
Lemma member_named_as_origin_witness :
  ws_receive payload_len address_session hello 10%Q 10 both_connected
  = dispatch "room" hello
      (update_activity 10 "room"
         (with_rate_limits {[ "10.0.0.9" := [10%Q; 10%Q] ]} both_connected)).
Proof.
  destruct (WindowFacts.member_named_as_origin payload_len address_session hello 10%Q 10%Z
              both_connected) as [Hpass _].
  - reflexivity.
  - vm_compute. discriminate.
  - intros t Ht. vm_compute in Ht. destruct Ht.
  - rewrite Hpass; [vm_compute; reflexivity|]. vm_compute. lia.
Defined.

(** The group frame of bob with alice gone: nothing is sent. *)
Lemma relay_confined_to_room_witness :
  exists d,
    delivered (fst (ws_receive payload_len bob_session hello 10%Q 10 alice_gone))
    = delivered alice_gone ++ d
    /\ forall ws m, In (ws, m) d ->
         m = Relay hello
         /\ exists room, connected alice_gone !! "room" = Some room
                         /\ In ws (Dict.values room).
Proof.
  destruct (RelayFacts.relay_confined_to_room payload_len bob_session hello 10%Q 10%Z
              alice_gone) as (d & Hd & Hin & _).
  exists d. split; [exact Hd|exact Hin].
Defined.

(** The join of bob notifies alice, who is connected. *)
Lemma join_notifies_room_witness :
  delivered bob_joined = delivered alice_connected ++ [(1%nat, JoinNotification "bob")].
Proof.
  destruct (RelayFacts.join_notifies_room 3 "token-b" "room" (join_as "secret" "bob" 2)
              alice_connected) as (d & Hd & _ & _ & Hall).
  rewrite bob_join_returns in Hd, Hall. cbn [fst snd] in Hd, Hall.
  rewrite Hd. f_equal. apply (Hall bob_response [("alice", 1%nat)]); reflexivity.
Defined.

(** Bob sends a frame and disconnects; a frame after that is not read. *)
Lemma serve_ends_unregistered_witness :
  conn_of (fst (ws_serve payload_len bob_session
                  [Recv hello 10%Q 10; RecvRaise WebSocketDisconnect; Recv hello 11%Q 11]
                  both_connected)) "room" "bob" = None
  /\ snd (ws_serve payload_len bob_session
            [Recv hello 10%Q 10; RecvRaise WebSocketDisconnect; Recv hello 11%Q 11]
            both_connected) = Finished.
Proof.
  destruct (ws_serve payload_len bob_session
              [Recv hello 10%Q 10; RecvRaise WebSocketDisconnect; Recv hello 11%Q 11]
              both_connected) as [w' st] eqn:E.
  assert (Hst : st = Finished).
  { apply (f_equal snd) in E. vm_compute in E. now symmetry. }
  destruct (LifecycleFacts.serve_ends_unregistered payload_len bob_session _ _ _ _ E)
    as (_ & Hend & _).
  destruct Hend as [Hc _]; [rewrite Hst; discriminate|].
  split; [exact Hc|exact Hst].
Defined.

(** The room and alice are still there when bob has joined and connected. *)
Lemma rooms_and_members_stay_witness :
  exists doc', servers_col both_connected !! "room" = Some doc'
               /\ join_token doc' = "secret"
               /\ Dict.mem "alice" (members doc') = true.
Proof.
  destruct (PermanenceFacts.rooms_and_members_stay payload_len bob_arrives
              alice_connected "room") as [Hs _].
  edestruct Hs as (doc' & H1 & H2 & _ & H4); [vm_compute; reflexivity|].
  exists doc'. split; [exact H1|]. split; [exact H2|]. apply H4. reflexivity.
Defined.

(** Bob, connected, holds a token. *)
Lemma membership_consistent_witness :
  exists tdoc,
    member_tokens_col (run payload_len (alice_arrives ++ bob_arrives) empty_world) !! "room"
    = Some tdoc
    /\ Dict.mem "bob" (tokens tdoc) = true.
Proof.
  pose proof (ConsistencyFacts.membership_consistent payload_len
                (alice_arrives ++ bob_arrives)) as H.
  cbv zeta in H. destruct H as [Hc _].
  apply (Hc "room" [("alice", 1%nat); ("bob", 2%nat)] "bob" 2%nat).
  - vm_compute. reflexivity.
  - reflexivity.
Defined.

(** The room of alice and bob: every join names a member without a dot,
    and alice, whose join returned first, is the admin at the end. *)
Lemma admin_is_first_dotless_joiner_witness :
  forallb dotless chatter = true
  /\ admin_of (run payload_len chatter empty_world) "room" = Some "alice".
Proof.
  split; [reflexivity|].
  rewrite (AdminFacts.admin_is_first_dotless_joiner payload_len chatter "room" eq_refl).
  vm_compute. reflexivity.
Defined.

End EpisodeFacts.

